(** * Region Fixer: the scanning engine of [regionfixer_core/scan.py]

    A shallow embedding of the chunk classifier ([scan_chunk]), the region
    scanner ([scan_region_file]), the worker entry point
    ([multiprocess_scan_regionfile]) and the scan session
    ([AsyncRegionsetScanner]), followed by the properties proved of them.

    Python integers are [Z], dictionaries are [gmap], the result queue is a
    list used first-in first-out.  Code that raises returns a [Py.Result];
    code that also mutates the scanned object or prints runs in the
    state-and-exception monad [Py.M]. *)

From Stdlib Require Import ZArith String.
From stdpp Require Import base tactics option list gmap fin_maps strings pretty.

(** ** The Python runtime: exceptions, tracebacks, results *)

Module Py.

Inductive ExcType : Type :=
| KeyboardInterrupt
| SystemExit
| IOError
| KeyError
| NoRegionHeader
| InconceivedChunk
| RegionHeaderError
| ChunkDataError
| ChunkHeaderError
| OtherError (name : string).

#[global] Instance ExcType_eq_dec : EqDecision ExcType.
Proof. solve_decision. Defined.

(** An exception instance: its class and its [msg] attribute. *)
Record Exception : Type := { exc_type : ExcType; msg : string }.

#[global] Instance Exception_eq_dec : EqDecision Exception.
Proof. solve_decision. Defined.

(** One entry of [traceback.extract_tb]: file, line, function, source text. *)
Definition FrameSummary : Type := (string * Z * string * string)%type.

Inductive Result (A : Type) : Type :=
| Return (a : A)
| Raise (e : Exception).

Arguments Return {A} a.
Arguments Raise {A} e.

Definition rbind {A B : Type} (c : Result A) (k : A → Result B) : Result B :=
  match c with
  | Return a => k a
  | Raise e => Raise e
  end.

(** Computations over a mutable store [S]: the store survives a raise, as
    the objects a Python function has mutated survive its exception. *)
Definition M (S A : Type) : Type := S → Result A * S.

Definition ret {S A : Type} (a : A) : M S A := λ s, (Return a, s).

Definition raise {S A : Type} (e : Exception) : M S A := λ s, (Raise e, s).

Definition bind {S A B : Type} (c : M S A) (k : A → M S B) : M S B :=
  λ s, match c s with
       | (Return a, s') => k a s'
       | (Raise e, s') => (Raise e, s')
       end.

Definition lift {S A : Type} (c : Result A) : M S A := λ s, (c, s).

Definition gets {S A : Type} (f : S → A) : M S A := λ s, (Return (f s), s).

Definition modify {S : Type} (f : S → S) : M S unit := λ s, (Return tt, f s).

(** [for x in xs: acc = body x acc], stopping at the first raise. *)
Fixpoint for_each {S A B : Type} (body : A → B → M S B) (xs : list A) (acc : B)
  : M S B :=
  match xs with
  | [] => ret acc
  | x :: xs' => bind (body x acc) (for_each body xs')
  end.

End Py.

#[global] Instance Result_ret : MRet Py.Result := @Py.Return.
#[global] Instance Result_bind : MBind Py.Result := λ A B k c, Py.rbind c k.
#[global] Instance M_ret {S : Type} : MRet (Py.M S) := @Py.ret S.
#[global] Instance M_bind {S : Type} : MBind (Py.M S) := λ A B k c, Py.bind c k.

(** ** [nbt.nbt]: decoded tag trees *)

Module nbt.

Inductive TAG : Type := TAG_Compound (name : string).

(** Modelled from the spec: the tag-tree decoder is not under src/.  The
    spec asks of it "a tree query capability sufficient to read a chunk's
    declared global coordinate fields and its entity-list length"; a decoded
    chunk is therefore the outcome of these two queries, each of which may
    raise on a tree that lacks the tags. *)
Record NBTFile : Type := {
  (** [chunk["Level"]["xPos"].value, chunk["Level"]["zPos"].value] *)
  Level_Pos : Py.Result (Z * Z);
  (** [chunk["Level"]["Entities"]] *)
  Level_Entities : Py.Result (list TAG)
}.

End nbt.

(** ** [nbt.region]: the region file reader *)

Module region.

(** Modelled from the spec: the reader's per-slot status codes are not under
    src/; the scanner only compares a status with
    [STATUS_CHUNK_OVERLAPPING], the spec's overlap flag. *)
Inductive Status : Type :=
| STATUS_CHUNK_OVERLAPPING
| STATUS_CHUNK_OK
| STATUS_CHUNK_NOT_CREATED
| STATUS_CHUNK_OTHER (code : Z).

#[global] Instance Status_eq_dec : EqDecision Status.
Proof. solve_decision. Defined.

Record ChunkMetadata : Type := { status : Status }.

(** Modelled from the spec: [region.RegionFile] is not under src/.  The
    spec's Format Reader exposes [get_chunk(x, z)], which decodes one chunk
    or raises a typed error, and the per-slot sector metadata. *)
Record RegionFile : Type := {
  filename : string;
  get_chunk : Z → Z → Py.Result nbt.NBTFile;
  metadata : gmap (Z * Z) ChunkMetadata
}.

End region.

(** ** [regionfixer_core.world]: statuses and the scanned-file object *)

Module world.

(** Modelled from the spec: the chunk status constants are not under src/;
    the spec gives the closed enumeration. *)
Inductive ChunkStatus : Type :=
| CHUNK_NOT_CREATED
| CHUNK_OK
| CHUNK_CORRUPTED
| CHUNK_WRONG_LOCATED
| CHUNK_TOO_MANY_ENTITIES
| CHUNK_SHARED_OFFSET.

#[global] Instance ChunkStatus_eq_dec : EqDecision ChunkStatus.
Proof. solve_decision. Defined.

(** Modelled from the spec: the region status constants are not under src/. *)
Inductive RegionStatus : Type :=
| REGION_OK
| REGION_TOO_SMALL
| REGION_UNREADABLE.

#[global] Instance RegionStatus_eq_dec : EqDecision RegionStatus.
Proof. solve_decision. Defined.

(** A chunk record: the tuple [(num_entities, status)], the first component
    [None] when the entity count is unknown. *)
Abbreviation ChunkTuple := (option Z * ChunkStatus)%type.

(** Modelled from the spec: [world.ScannedRegionFile] is not under src/.  The
    fields are the attributes [scan_region_file] reads and writes; [coords]
    is the region's own position, [chunks] the dictionary from local
    coordinate to chunk record. *)
Record ScannedRegionFile : Type := {
  path : string;
  filename : string;
  coords : Z * Z;
  chunks : gmap (Z * Z) ChunkTuple;
  status : RegionStatus;
  scan_time : option Z;
  scanned : bool;
  chunk_count : Z;
  corrupted_chunks : Z;
  wrong_located_chunks : Z;
  entities_prob : Z;
  shared_offset : Z
}.

Definition set_chunks (f : gmap (Z * Z) ChunkTuple → gmap (Z * Z) ChunkTuple)
  (r : ScannedRegionFile) : ScannedRegionFile :=
  {| path := path r; filename := filename r; coords := coords r;
     chunks := f (chunks r);
     status := status r; scan_time := scan_time r; scanned := scanned r;
     chunk_count := chunk_count r; corrupted_chunks := corrupted_chunks r;
     wrong_located_chunks := wrong_located_chunks r;
     entities_prob := entities_prob r; shared_offset := shared_offset r |}.

(** [r.status = st; r.scan_time = t; r.scanned = True] *)
Definition stamp (st : RegionStatus) (t : Z) (r : ScannedRegionFile)
  : ScannedRegionFile :=
  {| path := path r; filename := filename r; coords := coords r;
     chunks := chunks r;
     status := st; scan_time := Some t; scanned := true;
     chunk_count := chunk_count r; corrupted_chunks := corrupted_chunks r;
     wrong_located_chunks := wrong_located_chunks r;
     entities_prob := entities_prob r; shared_offset := shared_offset r |}.

(** The five counter assignments that end a completed scan. *)
Definition set_counters (cc co wr ep sh : Z) (r : ScannedRegionFile)
  : ScannedRegionFile :=
  {| path := path r; filename := filename r; coords := coords r;
     chunks := chunks r;
     status := status r; scan_time := scan_time r; scanned := scanned r;
     chunk_count := cc; corrupted_chunks := co;
     wrong_located_chunks := wr;
     entities_prob := ep; shared_offset := sh |}.

(** Modelled from the spec: [ScannedRegionFile.get_global_chunk_coords] is
    not under src/; "local→global mapping is purely additive (region origin
    + local offset)", a region covering a 32×32 block. *)
Definition get_global_chunk_coords (r : ScannedRegionFile) (chunkX chunkZ : Z)
  : Z * Z :=
  (chunkX + (coords r).1 * 32, chunkZ + (coords r).2 * 32)%Z.

(** Modelled from the spec: [ScannedRegionFile.__getitem__] is not under
    src/; [r[k]] reads the stored chunk record of [k] and, like any
    dictionary read, raises [KeyError] when there is none. *)
Definition getitem (r : ScannedRegionFile) (k : Z * Z) : Py.Result ChunkTuple :=
  match chunks r !! k with
  | Some c => Py.Return c
  | None => Py.Raise {| Py.exc_type := Py.KeyError;
                        Py.msg := "(" +:+ pretty k.1 +:+ ", " +:+ pretty k.2 +:+ ")" |}
  end.

(** Modelled from the spec: [ScannedRegionFile.__setitem__] is not under
    src/; [r[k] = c] stores the record of [k]. *)
Definition setitem (k : Z * Z) (c : ChunkTuple) (r : ScannedRegionFile)
  : ScannedRegionFile :=
  set_chunks <[k := c]> r.

(** Modelled from the spec: [world.get_chunk_data_coords] is not under src/;
    it reads the chunk's self-declared coordinate. *)
Definition get_chunk_data_coords (chunk : nbt.NBTFile) : Py.Result (Z * Z) :=
  nbt.Level_Pos chunk.

(** [world.get_global_chunk_coords(region_name, chunkX, chunkZ)], the
    function of the module; the method of the same name has the plain name
    above.  It is not under src/, and neither the source nor the spec says
    how it reads a region's origin off the file name or for which names it
    fails, so it is a parameter: what the call returns or raises. *)
Class RegionNames : Type :=
  get_global_chunk_coords_of_name : string → Z → Z → Py.Result (Z * Z).

End world.

(** ** [scan_chunk] *)

(** The character ["/"]. *)
Definition slash : Ascii.ascii := Ascii.ascii_of_nat 47.

(** [os.path.split(p)[1]]: what follows the last slash of [p]. *)
Fixpoint split_tail_from (tail p : string) : string :=
  match p with
  | EmptyString => tail
  | String c p' =>
      if Ascii.eqb c slash then split_tail_from EmptyString p'
      else split_tail_from (tail +:+ String c EmptyString) p'
  end.

Definition split_tail (p : string) : string := split_tail_from EmptyString p.

(** The local variables of [scan_chunk] when it reaches its [return].  The
    [scan_time] local and the value the handlers rebind [global_coords] to
    are never read again and are left out. *)
Record scan_chunk_frame : Type := {
  chunk : option nbt.NBTFile;
  data_coords : option (Z * Z);
  num_entities : option Z;
  status : world.ChunkStatus;
  status_text : string
}.

(** The body of the [try]. *)
Definition scan_chunk_try (region_file : region.RegionFile)
  (coords global_coords : Z * Z) (entity_limit : Z) : Py.Result scan_chunk_frame :=
  let el := entity_limit in
  chunk ← region.get_chunk region_file coords.1 coords.2;
  data_coords ← world.get_chunk_data_coords chunk;
  entities ← nbt.Level_Entities chunk;
  let num_entities := Z.of_nat (length entities) in
  if decide (data_coords ≠ global_coords) then
    Py.Return {| chunk := Some chunk; data_coords := Some data_coords;
                 num_entities := Some num_entities;
                 status := world.CHUNK_WRONG_LOCATED;
                 status_text := "Mismatched coordinates (wrong located chunk)." |}
  else if decide (num_entities > el)%Z then
    Py.Return {| chunk := Some chunk; data_coords := Some data_coords;
                 num_entities := Some num_entities;
                 status := world.CHUNK_TOO_MANY_ENTITIES;
                 status_text :=
                   "The chunks has too many entities (it has "
                   +:+ pretty num_entities
                   +:+ ", and it's more than the limit "
                   +:+ pretty entity_limit +:+ ")" |}
  else
    Py.Return {| chunk := Some chunk; data_coords := Some data_coords;
                 num_entities := Some num_entities;
                 status := world.CHUNK_OK;
                 status_text := "OK" |}.

(** The four [except] clauses; any other exception leaves [scan_chunk].
    The three handlers of a decode error call
    [world.get_global_chunk_coords(split(region_file.filename)[1], coords[0],
    coords[1])] before they end; what the call raises leaves [scan_chunk]
    too. *)
Definition scan_chunk_except {names : world.RegionNames}
  (region_file : region.RegionFile) (coords : Z * Z) (e : Py.Exception)
  : Py.Result scan_chunk_frame :=
  match Py.exc_type e with
  | Py.InconceivedChunk =>
      Py.Return {| chunk := None; data_coords := None; num_entities := None;
                   status := world.CHUNK_NOT_CREATED;
                   status_text := "The chunk doesn't exist" |}
  | Py.RegionHeaderError =>
      let error := "Region header error: " +:+ Py.msg e in
      world.get_global_chunk_coords_of_name
        (split_tail (region.filename region_file)) coords.1 coords.2;;
      Py.Return {| chunk := None; data_coords := None; num_entities := None;
                   status := world.CHUNK_CORRUPTED; status_text := error |}
  | Py.ChunkDataError =>
      let error := "Chunk data error: " +:+ Py.msg e in
      world.get_global_chunk_coords_of_name
        (split_tail (region.filename region_file)) coords.1 coords.2;;
      Py.Return {| chunk := None; data_coords := None; num_entities := None;
                   status := world.CHUNK_CORRUPTED; status_text := error |}
  | Py.ChunkHeaderError =>
      let error := "Chunk herader error: " +:+ Py.msg e in
      world.get_global_chunk_coords_of_name
        (split_tail (region.filename region_file)) coords.1 coords.2;;
      Py.Return {| chunk := None; data_coords := None; num_entities := None;
                   status := world.CHUNK_CORRUPTED; status_text := error |}
  | _ => Py.Raise e
  end.

Definition scan_chunk_locals {names : world.RegionNames}
  (region_file : region.RegionFile)
  (coords global_coords : Z * Z) (entity_limit : Z) : Py.Result scan_chunk_frame :=
  match scan_chunk_try region_file coords global_coords entity_limit with
  | Py.Return f => Py.Return f
  | Py.Raise e => scan_chunk_except region_file coords e
  end.

(** [return chunk, (num_entities, status) if status != CHUNK_NOT_CREATED
    else None] *)
Definition scan_chunk {names : world.RegionNames} (region_file : region.RegionFile)
  (coords global_coords : Z * Z) (entity_limit : Z)
  : Py.Result (option nbt.NBTFile * option world.ChunkTuple) :=
  f ← scan_chunk_locals region_file coords global_coords entity_limit;
  Py.Return (chunk f,
             if decide (status f ≠ world.CHUNK_NOT_CREATED)
             then Some (num_entities f, status f) else None).

(** ** [scan_region_file] *)

(** What one scan task can change: the scanned-file object it was handed
    (mutated in place), the console, and the region file on disk through
    [world.delete_entities]. *)
Record Proc : Type := {
  obj : world.ScannedRegionFile;
  stdout : list string;
  cleared : list (string * (Z * Z))
}.

Definition on_obj (f : world.ScannedRegionFile → world.ScannedRegionFile)
  (p : Proc) : Proc :=
  {| obj := f (obj p); stdout := stdout p; cleared := cleared p |}.

(** The newline character of ["\n"]. *)
Definition nl : string := String (Ascii.ascii_of_nat 10) EmptyString.

(** The [print] statement. *)
Definition print (s : string) : Py.M Proc unit :=
  Py.modify (λ p, {| obj := obj p; stdout := stdout p ++ [s];
                     cleared := cleared p |}).

(** Modelled from the spec: [world.delete_entities] is not under src/; "the
    entities are cleared as a side effect".  The effect is recorded as the
    file and slot whose entity list was emptied. *)
Definition world_delete_entities (region_file : region.RegionFile) (x z : Z)
  : Py.M Proc unit :=
  Py.modify (λ p, {| obj := obj p; stdout := stdout p;
                     cleared := cleared p
                                  ++ [(region.filename region_file, (x, z))] |}).

(** The counters [scan_region_file] keeps in local variables. *)
Record Counters : Type := {
  chunk_count : Z;
  corrupted : Z;
  wrong : Z;
  entities_prob : Z
}.

(** [for x in range(32): for z in range(32)], in raster order. *)
Definition local_coords : list (Z * Z) :=
  x ← seqZ 0 32; z ← seqZ 0 32; [(x, z)].

(** A Python value that travels on the result queue: the scanned-file object,
    or the tuple [(obj, (except_type, except_class, extract_tb(tb)))]. *)
Inductive PyValue : Type :=
| Obj (r : world.ScannedRegionFile)
| Tuple (r : world.ScannedRegionFile)
        (info : Py.ExcType * Py.Exception * list Py.FrameSummary).

Definition isinstance_tuple (v : PyValue) : bool :=
  match v with
  | Tuple _ _ => true
  | Obj _ => false
  end.

Section ScanRegion.

(** [region.RegionFile(path)]: what opening [path] gives on this machine. *)
Variable RegionFile : string → Py.Result region.RegionFile.

(** The value [time()] returns when the result is stamped. *)
Variable time : Z.

(** [extract_tb] of the traceback [sys.exc_info()] holds for the exception
    being handled. *)
Variable extract_tb : Py.Exception → list Py.FrameSummary.

(** What [world.get_global_chunk_coords] does with a region's name. *)
Context {names : world.RegionNames}.

(** One turn of the double loop, for the local coordinate [(x, z)]. *)
Definition scan_slot (region_file : region.RegionFile) (entity_limit : Z)
  (delete_entities : bool) (xz : Z * Z) (n : Counters) : Py.M Proc Counters :=
  let '(x, z) := xz in
  r ← Py.gets obj;
  let g_coords := world.get_global_chunk_coords r x z in
  '(chunk, c) ← Py.lift (scan_chunk region_file (x, z) g_coords entity_limit);
  match c with
  | Some c =>
      Py.modify (on_obj (world.setitem (x, z) c));;
      let n := {| chunk_count := chunk_count n + 1; corrupted := corrupted n;
                  wrong := wrong n; entities_prob := entities_prob n |} in
      if decide (c.2 = world.CHUNK_OK) then
        mret n
      else if decide (c.2 = world.CHUNK_TOO_MANY_ENTITIES) then
        if delete_entities then
          world_delete_entities region_file x z;;
          r ← Py.gets obj;
          print ("Deleted " +:+ from_option pretty "None" c.1
                 +:+ " entities in chunk (" +:+ pretty x +:+ "," +:+ pretty z
                 +:+ ") of the region file: " +:+ world.filename r);;
          Py.modify (on_obj (world.setitem (x, z) (Some 0%Z, world.CHUNK_OK)));;
          mret n
        else
          mret {| chunk_count := chunk_count n; corrupted := corrupted n;
                  wrong := wrong n; entities_prob := entities_prob n + 1 |}
      else if decide (c.2 = world.CHUNK_CORRUPTED) then
        mret {| chunk_count := chunk_count n; corrupted := corrupted n + 1;
                wrong := wrong n; entities_prob := entities_prob n |}
      else if decide (c.2 = world.CHUNK_WRONG_LOCATED) then
        mret {| chunk_count := chunk_count n; corrupted := corrupted n;
                wrong := wrong n + 1; entities_prob := entities_prob n |}
      else
        mret n
  | None => mret n
  end.

(** The list comprehension [sharing]: the metadata keys [k] with
    [metadata[k].status == STATUS_CHUNK_OVERLAPPING and
     r[k][TUPLE_STATUS] == CHUNK_WRONG_LOCATED], the second test evaluated
    only when the first holds. *)
Fixpoint sharing_of (r : world.ScannedRegionFile)
  (items : list (Z * Z * region.ChunkMetadata)) : Py.Result (list (Z * Z)) :=
  match items with
  | [] => Py.Return []
  | (k, m) :: rest =>
      keep ← (if decide (region.status m = region.STATUS_CHUNK_OVERLAPPING)
              then c ← world.getitem r k;
                   Py.Return (bool_decide (c.2 = world.CHUNK_WRONG_LOCATED))
              else Py.Return false);
      ks ← sharing_of r rest;
      Py.Return (if keep : bool then k :: ks else ks)
  end.

(** [r[k] = (r[k][TUPLE_NUM_ENTITIES], CHUNK_SHARED_OFFSET);
     shared_counter += 1] *)
Definition share_slot (k : Z * Z) (shared_counter : Z) : Py.M Proc Z :=
  r ← Py.gets obj;
  c ← Py.lift (world.getitem r k);
  Py.modify (on_obj (world.setitem k (c.1, world.CHUNK_SHARED_OFFSET)));;
  mret (shared_counter + 1)%Z.

(** The shared-offset check that follows the double loop, up to the final
    [return r]. *)
Definition post_pass (region_file : region.RegionFile) (n : Counters)
  : Py.M Proc world.ScannedRegionFile :=
  let metadata := region.metadata region_file in
  r ← Py.gets obj;
  sharing ← Py.lift (sharing_of r (map_to_list metadata));
  shared_counter ← Py.for_each share_slot sharing 0%Z;
  Py.modify (on_obj (world.set_counters (chunk_count n) (corrupted n) (wrong n)
                                        (entities_prob n) shared_counter));;
  Py.modify (on_obj (world.stamp world.REGION_OK time));;
  Py.gets obj.

(** The body of the outer [try]. *)
Definition scan_region_file_try (entity_limit : Z) (delete_entities : bool)
  : Py.M Proc world.ScannedRegionFile :=
  r ← Py.gets obj;
  match RegionFile (world.path r) with
  | Py.Raise e =>
      if decide (Py.exc_type e = Py.NoRegionHeader) then
        Py.modify (on_obj (world.stamp world.REGION_TOO_SMALL time));;
        Py.gets obj
      else if decide (Py.exc_type e = Py.IOError) then
        Py.modify (on_obj (world.stamp world.REGION_UNREADABLE time));;
        Py.gets obj
      else Py.raise e
  | Py.Return region_file =>
      n ← Py.for_each (scan_slot region_file entity_limit delete_entities)
            local_coords
            {| chunk_count := 0; corrupted := 0; wrong := 0; entities_prob := 0 |};
      post_pass region_file n
  end.

(** [scan_region_file(scanned_regionfile_obj, entity_limit, delete_entities)];
    [scanned_regionfile_obj] is the object [obj] of the store.  A
    [KeyboardInterrupt] prints and leaves through [sys.exit(1)]; any other
    exception becomes the returned tuple. *)
Definition scan_region_file (entity_limit : Z) (delete_entities : bool)
  : Py.M Proc PyValue :=
  λ p,
    match scan_region_file_try entity_limit delete_entities p with
    | (Py.Return r, p') => (Py.Return (Obj r), p')
    | (Py.Raise e, p') =>
        if decide (Py.exc_type e = Py.KeyboardInterrupt) then
          (print (nl +:+ "Interrupted by user" +:+ nl);;
           Py.raise {| Py.exc_type := Py.SystemExit; Py.msg := "1" |}) p'
        else
          let '(except_type, except_class, tb) :=
            (Py.exc_type e, e, extract_tb e) in
          (Py.Return (Tuple (obj p') (except_type, except_class, tb)), p')
    end.

(** [multiprocess_scan_regionfile(region_file)]: scan with the limits the
    pool initialiser attached to the function, then [q.put(r)].  The queue
    is untouched when the scan leaves by an exception. *)
Definition multiprocess_scan_regionfile (entity_limit : Z)
  (remove_entities : bool) (q : list PyValue) (p : Proc)
  : Py.Result unit * (list PyValue * Proc) :=
  match scan_region_file entity_limit remove_entities p with
  | (Py.Return r, p') => (Py.Return tt, (q ++ [r], p'))
  | (Py.Raise e, p') => (Py.Raise e, (q, p'))
  end.

End ScanRegion.

(** ** [ChildProcessException] and [AsyncRegionsetScanner] *)

(** The payload [ChildProcessException.__init__] stores. *)
Record ChildProcessException : Type := {
  scanned_file : world.ScannedRegionFile;
  exc_type : Py.ExcType;
  exc_class : Py.Exception;
  tb_text : list Py.FrameSummary
}.

(** What a method of the session gives its caller: a value, or a raised
    [ChildProcessException]. *)
Inductive Outcome (A : Type) : Type :=
| Value (a : A)
| Raised (e : ChildProcessException).

Arguments Value {A} a.
Arguments Raised {A} e.

(** Modelled from the spec: [world.RegionSet] is not under src/; it is the
    authoritative collection "keyed by coordinate", and
    [regionset[key] = value] overwrites the entry of [key]. *)
Record RegionSet : Type := {
  get_name : string;
  regions : gmap (Z * Z) world.ScannedRegionFile
}.

Definition RegionSet_setitem (k : Z * Z) (v : world.ScannedRegionFile)
  (rs : RegionSet) : RegionSet :=
  {| get_name := get_name rs; regions := <[k := v]> (regions rs) |}.

(** The session's attributes.  [queue] holds the content of the
    [SimpleQueue], oldest first; [_results_ready] is what
    [self._results.ready()] answers. *)
Record AsyncRegionsetScanner : Type := {
  _regionset : RegionSet;
  queue : list PyValue;
  _results_ready : bool;
  _str_last_scanned : option string
}.

(** [q.empty()] *)
Definition empty (q : list PyValue) : bool :=
  match q with
  | [] => true
  | _ :: _ => false
  end.

(** [raise ChildProcessException(r[0], r[1][0], r[1][1], r[1][2])] *)
Definition child_process_exception (r0 : world.ScannedRegionFile)
  (r1 : Py.ExcType * Py.Exception * list Py.FrameSummary) : ChildProcessException :=
  {| scanned_file := r0; exc_type := r1.1.1; exc_class := r1.1.2;
     tb_text := r1.2 |}.

Definition get_last_result (self : AsyncRegionsetScanner)
  : Outcome (option world.ScannedRegionFile) * AsyncRegionsetScanner :=
  let q := queue self in
  if negb (empty q) then
    match q with
    | [] => (Value None, self)
    | r :: q' =>
        (* r = q.get() *)
        match r with
        | Tuple r0 r1 =>
            (Raised (child_process_exception r0 r1),
             {| _regionset := _regionset self; queue := q';
                _results_ready := _results_ready self;
                _str_last_scanned := _str_last_scanned self |})
        | Obj r =>
            (Value (Some r),
             {| _regionset := RegionSet_setitem (world.coords r) r (_regionset self);
                queue := q';
                _results_ready := _results_ready self;
                _str_last_scanned :=
                  Some (get_name (_regionset self) +:+ ": " +:+ world.filename r) |})
        end
    end
  else (Value None, self).

(** The property [finished]. *)
Definition finished (self : AsyncRegionsetScanner) : bool :=
  _results_ready self && empty (queue self).

(** The test of the [while] of [results], read in one go. *)
Definition results_while_test (self : AsyncRegionsetScanner) : bool :=
  negb (empty (queue self)) || negb (finished self).

(** *** The generator [results], one read of shared state per step

    The pool's workers run beside the generator, so each look at the queue or
    at the pool is a step of its own: the [while] test reads [q.empty()],
    then, through [self.finished], [self._results.ready()] and
    [self.queue.empty()], stopping at the first read that decides it. *)
Inductive results_pc : Type :=
| AtWhile
| AtFinishedReady
| AtFinishedEmpty
| AtSleep
| AtIf
| Exhausted
| Failed (e : ChildProcessException).

Definition results_step (pc : results_pc) (self : AsyncRegionsetScanner)
  : results_pc * AsyncRegionsetScanner * option PyValue :=
  match pc with
  | AtWhile =>
      if negb (empty (queue self)) then (AtSleep, self, None)
      else (AtFinishedReady, self, None)
  | AtFinishedReady =>
      if _results_ready self then (AtFinishedEmpty, self, None)
      else (AtSleep, self, None)
  | AtFinishedEmpty =>
      if empty (queue self) then (Exhausted, self, None)
      else (AtSleep, self, None)
  | AtSleep => (AtIf, self, None)
  | AtIf =>
      match queue self with
      | [] => (AtWhile, self, None)
      | Tuple r0 r1 :: q' =>
          (Failed (child_process_exception r0 r1),
           {| _regionset := _regionset self; queue := q';
              _results_ready := _results_ready self;
              _str_last_scanned := _str_last_scanned self |},
           Some (Tuple r0 r1))
      | Obj r :: q' =>
          (* yield r *)
          (AtWhile,
           {| _regionset := RegionSet_setitem (world.coords r) r (_regionset self);
              queue := q';
              _results_ready := _results_ready self;
              _str_last_scanned := _str_last_scanned self |},
           Some (Obj r))
      end
  | Exhausted => (Exhausted, self, None)
  | Failed e => (Failed e, self, None)
  end.

(** What happens in a session, as seen from outside. *)
Inductive Event : Type :=
| Put (v : PyValue)   (* a worker's [q.put(v)] *)
| Ready               (* the pool has finished every task *)
| Got (v : PyValue).  (* the generator's [q.get()] returned [v] *)

(** One step of the session: a worker puts a value, the pool reports
    readiness, or the generator moves. *)
Inductive session_step
  : results_pc * AsyncRegionsetScanner → list Event
    → results_pc * AsyncRegionsetScanner → Prop :=
| step_put pc self v :
    session_step (pc, self) [Put v]
      (pc, {| _regionset := _regionset self; queue := queue self ++ [v];
              _results_ready := _results_ready self;
              _str_last_scanned := _str_last_scanned self |})
| step_ready pc self :
    session_step (pc, self) [Ready]
      (pc, {| _regionset := _regionset self; queue := queue self;
              _results_ready := true;
              _str_last_scanned := _str_last_scanned self |})
| step_results pc self pc' self' out :
    results_step pc self = (pc', self', out) →
    session_step (pc, self) (from_option (λ v, [Got v]) [] out) (pc', self').

Inductive session_run
  : results_pc * AsyncRegionsetScanner → list Event
    → results_pc * AsyncRegionsetScanner → Prop :=
| run_refl c : session_run c [] c
| run_step c1 t1 c2 t2 c3 :
    session_run c1 t1 c2 → session_step c2 t2 c3 → session_run c1 (t1 ++ t2) c3.

(** The values put, and the values got, along a trace. *)
Definition puts (t : list Event) : list PyValue :=
  omap (λ e, match e with Put v => Some v | _ => None end) t.

Definition gots (t : list Event) : list PyValue :=
  omap (λ e, match e with Got v => Some v | _ => None end) t.

(** Where the generator stands after the reads of its [while] test when
    nothing else moves between them. *)
Definition while_test_undisturbed (self : AsyncRegionsetScanner) : results_pc :=
  match results_step AtWhile self with
  | (AtFinishedReady, _, _) =>
      match results_step AtFinishedReady self with
      | (AtFinishedEmpty, _, _) => (results_step AtFinishedEmpty self).1.1
      | (pc, _, _) => pc
      end
  | (pc, _, _) => pc
  end.

(** ** Vocabulary for the statements

    Pure readings of one region scan, used to state what the code above
    does. *)

Section Vocabulary.

Context {names : world.RegionNames}.

(** The record [scan_chunk] gives for the local coordinate [k] of region
    file [region_file] scanned into [r]; [None] when it gives none. *)
Definition classified (region_file : region.RegionFile)
  (r : world.ScannedRegionFile) (entity_limit : Z) (k : Z * Z)
  : option world.ChunkTuple :=
  match scan_chunk region_file k (world.get_global_chunk_coords r k.1 k.2)
                   entity_limit with
  | Py.Return (_, c) => c
  | Py.Raise _ => None
  end.

(** [scan_chunk] classifies [k] with status [st]. *)
Definition classified_as (region_file : region.RegionFile)
  (r : world.ScannedRegionFile) (entity_limit : Z) (st : world.ChunkStatus)
  (k : Z * Z) : Prop :=
  snd <$> classified region_file r entity_limit k = Some st.

(** The reader flags [k] as overlapping. *)
Definition overlapping (region_file : region.RegionFile) (k : Z * Z) : Prop :=
  region.status <$> region.metadata region_file !! k
  = Some region.STATUS_CHUNK_OVERLAPPING.

(** The record of [k] in [r] has status [st]. *)
Definition has_status (r : world.ScannedRegionFile) (st : world.ChunkStatus)
  (k : Z * Z) : Prop :=
  snd <$> world.chunks r !! k = Some st.

(** How many elements of [l] satisfy [P], as a Python integer. *)
Definition count {A : Type} (P : A → Prop) `{!∀ x, Decision (P x)} (l : list A) : Z :=
  Z.of_nat (length (filter P l)).

(** The record the double loop leaves for a slot classified [c]. *)
Definition stored (delete_entities : bool) (c : world.ChunkTuple)
  : world.ChunkTuple :=
  if decide (c.2 = world.CHUNK_TOO_MANY_ENTITIES) then
    if delete_entities then (Some 0%Z, world.CHUNK_OK) else c
  else c.

(** The counters after a slot classified [c]. *)
Definition bump (delete_entities : bool) (c : world.ChunkTuple) (n : Counters)
  : Counters :=
  {| chunk_count := chunk_count n + 1;
     corrupted :=
       corrupted n + (if decide (c.2 = world.CHUNK_CORRUPTED) then 1 else 0);
     wrong :=
       wrong n + (if decide (c.2 = world.CHUNK_WRONG_LOCATED) then 1 else 0);
     entities_prob :=
       entities_prob n
       + (if decide (c.2 = world.CHUNK_TOO_MANY_ENTITIES)
          then (if delete_entities then 0 else 1) else 0) |}%Z.

(** The line printed when the entities of [(x, z)] are deleted. *)
Definition deleted_line (c : world.ChunkTuple) (k : Z * Z) (filename : string)
  : string :=
  "Deleted " +:+ from_option pretty "None" c.1
  +:+ " entities in chunk (" +:+ pretty k.1 +:+ "," +:+ pretty k.2
  +:+ ") of the region file: " +:+ filename.

(** The store after a slot [k] classified [c]. *)
Definition slot_store (region_file : region.RegionFile) (delete_entities : bool)
  (k : Z * Z) (c : world.ChunkTuple) (p : Proc) : Proc :=
  let deleting :=
    bool_decide (c.2 = world.CHUNK_TOO_MANY_ENTITIES) && delete_entities in
  {| obj := world.setitem k (stored delete_entities c) (obj p);
     stdout := stdout p
               ++ (if deleting
                   then [deleted_line c k (world.filename (obj p))] else []);
     cleared := cleared p
                ++ (if deleting
                    then [(region.filename region_file, k)] else []) |}.

(** One turn of the double loop, read purely: nothing for an absent slot. *)
Definition slot_pure (region_file : region.RegionFile)
  (r : world.ScannedRegionFile) (entity_limit : Z) (delete_entities : bool)
  (acc : Counters * Proc) (k : Z * Z) : Counters * Proc :=
  match classified region_file r entity_limit k with
  | Some c => (bump delete_entities c acc.1,
               slot_store region_file delete_entities k c acc.2)
  | None => acc
  end.

(** The counters the double loop starts from. *)
Definition zero : Counters :=
  {| chunk_count := 0; corrupted := 0; wrong := 0; entities_prob := 0 |}.

(** The double loop of [scan_region_file]. *)
Definition scan_loop (region_file : region.RegionFile) (entity_limit : Z)
  (delete_entities : bool) : Py.M Proc Counters :=
  Py.for_each (scan_slot region_file entity_limit delete_entities)
              local_coords zero.

(** [scan_chunk] returns for the slot [k], with a record or without. *)
Definition decodes (region_file : region.RegionFile)
  (r : world.ScannedRegionFile) (entity_limit : Z) (k : Z * Z) : Prop :=
  ∃ ch c, scan_chunk region_file k (world.get_global_chunk_coords r k.1 k.2)
                     entity_limit
          = Py.Return (ch, c).

(** An entry of the reader's metadata with the overlap status. *)
Definition flagged (km : Z * Z * region.ChunkMetadata) : Prop :=
  region.status km.2 = region.STATUS_CHUNK_OVERLAPPING.

(** The records of the keys [ks] reclassified [CHUNK_SHARED_OFFSET], their
    entity counts kept. *)
Definition reclassify (ks : list (Z * Z))
  (m : gmap (Z * Z) world.ChunkTuple) : gmap (Z * Z) world.ChunkTuple :=
  foldl (λ m k, alter (λ c, (c.1, world.CHUNK_SHARED_OFFSET)) k m) m ks.

(** The slots the shared-offset check is after: flagged by the reader and
    recorded [CHUNK_WRONG_LOCATED] in [r]. *)
Definition shares_offset (region_file : region.RegionFile)
  (r : world.ScannedRegionFile) (k : Z * Z) : Prop :=
  overlapping region_file k ∧ has_status r world.CHUNK_WRONG_LOCATED k.

#[global] Instance classified_as_dec region_file r entity_limit st k :
  Decision (classified_as region_file r entity_limit st k).
Proof. unfold classified_as. apply _. Defined.

#[global] Instance overlapping_dec region_file k :
  Decision (overlapping region_file k).
Proof. unfold overlapping. apply _. Defined.

#[global] Instance has_status_dec r st k : Decision (has_status r st k).
Proof. unfold has_status. apply _. Defined.

#[global] Instance shares_offset_dec region_file r k :
  Decision (shares_offset region_file r k).
Proof. unfold shares_offset. apply _. Defined.

#[global] Instance flagged_dec km : Decision (flagged km).
Proof. unfold flagged. apply _. Defined.

(** The list [sharing] of the shared-offset check, for the object [r]. *)
Definition sharing (region_file : region.RegionFile)
  (r : world.ScannedRegionFile) : list (Z * Z) :=
  (filter (λ km, flagged km ∧ has_status r world.CHUNK_WRONG_LOCATED km.1)
          (map_to_list (region.metadata region_file))).*1.

(** The keys of the reader's metadata, in the order [for k in metadata]
    visits them. *)
Definition metadata_keys (region_file : region.RegionFile) : list (Z * Z) :=
  (map_to_list (region.metadata region_file)).*1.

End Vocabulary.

(** ** A small region file to run the scanner on *)

Definition absent : Py.Result nbt.NBTFile :=
  Py.Raise {| Py.exc_type := Py.InconceivedChunk; Py.msg := "" |}.

(** A chunk that declares the coordinate [(x, z)] and holds [n] entities. *)
Definition decoded (x z : Z) (n : nat) : nbt.NBTFile :=
  {| nbt.Level_Pos := Py.Return (x, z);
     nbt.Level_Entities := Py.Return (replicate n (nbt.TAG_Compound "")) |}.

(** Slot (0,0) declares (5,5); slot (0,1) holds seven entities; slot (0,2)
    has broken data; slot (0,3) is sound; the other slots are absent. *)
Definition example_chunks (x z : Z) : Py.Result nbt.NBTFile :=
  if decide ((x, z) = (0, 0)%Z) then Py.Return (decoded 5 5 0)
  else if decide ((x, z) = (0, 1)%Z) then Py.Return (decoded 0 1 7)
  else if decide ((x, z) = (0, 2)%Z) then
    Py.Raise {| Py.exc_type := Py.ChunkDataError; Py.msg := "bad stream" |}
  else if decide ((x, z) = (0, 3)%Z) then Py.Return (decoded 0 3 1)
  else absent.

Definition overlap : region.ChunkMetadata :=
  {| region.status := region.STATUS_CHUNK_OVERLAPPING |}.

(** The reader flags (0,0) and the sound slot (0,3) as overlapping. *)
Definition example_region : region.RegionFile :=
  {| region.filename := "r.0.0.mca";
     region.get_chunk := example_chunks;
     region.metadata :=
       {[ (0, 0)%Z := overlap; (0, 3)%Z := overlap;
          (0, 1)%Z := {| region.status := region.STATUS_CHUNK_OK |} ]} |}.

(** The same file, the reader also flagging the absent slot (3,3). *)
Definition example_region_gap : region.RegionFile :=
  {| region.filename := "r.0.0.mca";
     region.get_chunk := example_chunks;
     region.metadata := {[ (0, 0)%Z := overlap; (3, 3)%Z := overlap ]} |}.

(** A scanned-file object as it is before its scan, with no records. *)
Definition example_obj : world.ScannedRegionFile :=
  {| world.path := "world/region/r.0.0.mca"; world.filename := "r.0.0.mca";
     world.coords := (0, 0)%Z; world.chunks := ∅;
     world.status := world.REGION_OK; world.scan_time := None;
     world.scanned := false;
     world.chunk_count := 0; world.corrupted_chunks := 0;
     world.wrong_located_chunks := 0; world.entities_prob := 0;
     world.shared_offset := 0 |}.

Definition example_proc : Proc :=
  {| obj := example_obj; stdout := []; cleared := [] |}.

(** Disks on which every path opens as the given file, or fails to open. *)
Definition disk_with (region_file : region.RegionFile) (path : string)
  : Py.Result region.RegionFile :=
  Py.Return region_file.


Definition no_frames (e : Py.Exception) : list Py.FrameSummary := [].

(** A [world.get_global_chunk_coords] that knows one region name,
    [r.0.0.mca], the region at the origin, and raises [ValueError] for
    every other name. *)
Definition example_value_error : Py.Exception :=
  {| Py.exc_type := Py.OtherError "ValueError";
     Py.msg := "invalid literal for int() with base 10" |}.

Definition example_names : world.RegionNames :=
  λ region_name chunkX chunkZ,
    if decide (region_name = "r.0.0.mca") then Py.Return (chunkX, chunkZ)
    else Py.Raise example_value_error.


(** [example_region] after the chunk with broken data, slot (0,2), was
    removed from the file. *)
Definition example_repaired_region : region.RegionFile :=
  {| region.filename := "r.0.0.mca";
     region.get_chunk :=
       λ x z, if decide ((x, z) = (0, 2)%Z) then absent
              else example_chunks x z;
     region.metadata := region.metadata example_region |}.

(** The scan of [example_region] into [example_obj], clock at 42, entity
    limit 5, deletion off; and its returned object. *)
Definition example_scan : Py.Result PyValue * Proc :=
  scan_region_file (names := example_names) (disk_with example_region) 42 no_frames 5 false example_proc.

Definition example_result : world.ScannedRegionFile :=
  match example_scan.1 with
  | Py.Return (Obj r) => r
  | _ => example_obj
  end.

(** The same scan with deletion on. *)
Definition example_deleting_scan : Py.Result PyValue * Proc :=
  scan_region_file (names := example_names) (disk_with example_region) 42 no_frames 5 true example_proc.

Definition example_deleting_result : world.ScannedRegionFile :=
  match example_deleting_scan.1 with
  | Py.Return (Obj r) => r
  | _ => example_obj
  end.

(** The double loop over [example_region_gap], and the body of the scan of
    that file, which raises in the shared-offset check. *)
Definition example_gap_loop : Py.Result Counters * Proc :=
  scan_loop (names := example_names) example_region_gap 5 false example_proc.

Definition example_gap_counters : Counters :=
  match example_gap_loop.1 with
  | Py.Return n => n
  | Py.Raise _ => zero
  end.

Definition example_gap_try : Py.Result world.ScannedRegionFile * Proc :=
  scan_region_file_try (names := example_names) (disk_with example_region_gap) 42 5 false example_proc.

Definition example_key_error : Py.Exception :=
  {| Py.exc_type := Py.KeyError; Py.msg := "(3, 3)" |}.

(** A session that has just started: nothing queued, the pool still
    working. *)
Definition example_session : AsyncRegionsetScanner :=
  {| _regionset := {| get_name := "overworld"; regions := ∅ |};
     queue := []; _results_ready := false; _str_last_scanned := Some "" |}.

(** ** The rest of [AsyncRegionsetScanner] *)

(** [AsyncRegionsetScanner.__init__]: an empty queue and no last file.  The
    pool the constructor starts is the workers of [session_step]. *)
Definition AsyncRegionsetScanner_init (regionset : RegionSet)
  : AsyncRegionsetScanner :=
  {| _regionset := regionset; queue := []; _results_ready := false;
     _str_last_scanned := None |}.

(** The batch size [scan] hands to [map_async],
    [max(1, total_regions // self.processes)].  Python's [//] rounds down, as
    [Z.div] does; the pool's constructor has refused [processes < 1]. *)
Definition map_async_chunksize (total_regions processes : Z) : Z :=
  Z.max 1 (total_regions `div` processes).

(** [AsyncRegionsetScanner.scan]: the tasks go to the pool, and
    [self._str_last_scanned = ""]. *)
Definition AsyncRegionsetScanner_scan (self : AsyncRegionsetScanner)
  : AsyncRegionsetScanner :=
  {| _regionset := _regionset self; queue := queue self;
     _results_ready := _results_ready self;
     _str_last_scanned := Some "" |}.

(** The property [str_last_scanned]:
    [self._str_last_scanned if self._str_last_scanned else "Scanning..."];
    [None] and the empty string are both false. *)
Definition str_last_scanned (self : AsyncRegionsetScanner) : string :=
  match _str_last_scanned self with
  | Some s => if decide (s = "") then "Scanning..." else s
  | None => "Scanning..."
  end.

(** A worker's [q.put(v)], and the pool reporting every task done, as they
    change the session. *)
Definition put (v : PyValue) (self : AsyncRegionsetScanner)
  : AsyncRegionsetScanner :=
  {| _regionset := _regionset self; queue := queue self ++ [v];
     _results_ready := _results_ready self;
     _str_last_scanned := _str_last_scanned self |}.

Definition set_ready (self : AsyncRegionsetScanner) : AsyncRegionsetScanner :=
  {| _regionset := _regionset self; queue := queue self;
     _results_ready := true;
     _str_last_scanned := _str_last_scanned self |}.

(** The result a call of [get_last_result] handed its caller, if it handed
    one: nothing for [None] and for a raised fault. *)
Definition returned (o : Outcome (option world.ScannedRegionFile))
  : list world.ScannedRegionFile :=
  match o with
  | Value (Some r) => [r]
  | Value None => []
  | Raised _ => []
  end.

(** What can happen to a session that is consumed by [get_last_result]: a
    worker puts a value, the pool reports readiness, or the controller
    calls [get_last_result].  A step carries the result the call
    returned. *)
Inductive pull_step
  : AsyncRegionsetScanner → list world.ScannedRegionFile
    → AsyncRegionsetScanner → Prop :=
| pull_put self v : pull_step self [] (put v self)
| pull_ready self : pull_step self [] (set_ready self)
| pull_get self :
    pull_step self (returned (get_last_result self).1)
              (get_last_result self).2.

(** Runs of such steps, with the results returned along them, oldest
    first. *)
Inductive pull_run
  : AsyncRegionsetScanner → list world.ScannedRegionFile
    → AsyncRegionsetScanner → Prop :=
| pull_refl self : pull_run self [] self
| pull_then s1 rs1 s2 rs2 s3 :
    pull_run s1 rs1 s2 → pull_step s2 rs2 s3 → pull_run s1 (rs1 ++ rs2) s3.

(** What a got value does to the regionset: a result is stored under its
    coordinates, a fault leaves it alone. *)
Definition store_got (rs : RegionSet) (v : PyValue) : RegionSet :=
  match v with
  | Obj r => RegionSet_setitem (world.coords r) r rs
  | Tuple _ _ => rs
  end.

(** [n] steps of the generator with nothing else moving; the values it
    hands out, oldest first. *)
Fixpoint results_steps (n : nat) (pc : results_pc) (self : AsyncRegionsetScanner)
  : results_pc * AsyncRegionsetScanner * list PyValue :=
  match n with
  | O => (pc, self, [])
  | S n' =>
      let '(pc1, self1, out) := results_step pc self in
      let '(pc2, self2, outs) := results_steps n' pc1 self1 in
      (pc2, self2, from_option (λ v, [v]) [] out ++ outs)
  end.

(** ** Data files: [scan_data], [multiprocess_scan_data], [AsyncDataScanner] *)

Module data.

(** Modelled from the spec: [world.ScannedDatFile] is not under src/; the
    spec's data-file result is [{filename, path, readable, status_text}]. *)
Record ScannedDatFile : Type := {
  path : string;
  filename : string;
  readable : bool;
  status_text : option string
}.

(** An open file, as [open(path)] returns it. *)
Inductive file : Type := file_of (path : string).

(** [nbt.MalformedFileError] *)
Definition MalformedFileError : Py.ExcType := Py.OtherError "MalformedFileError".

(** [str(e)] of an exception: its message. *)
Definition str (e : Py.Exception) : string := Py.msg e.

(** What [scan_data] returns and the data queue carries: the scanned object,
    or the tuple [(s, (except_type, except_class, extract_tb(tb)))]. *)
Inductive PyValue : Type :=
| Obj (s : ScannedDatFile)
| Tuple (s : ScannedDatFile)
        (info : Py.ExcType * Py.Exception * list Py.FrameSummary).

Definition isinstance_tuple (v : PyValue) : bool :=
  match v with
  | Tuple _ _ => true
  | Obj _ => false
  end.

Definition set_readable (b : bool) (s : ScannedDatFile) : ScannedDatFile :=
  {| path := path s; filename := filename s; readable := b;
     status_text := status_text s |}.

Definition set_status_text (t : string) (s : ScannedDatFile) : ScannedDatFile :=
  {| path := path s; filename := filename s; readable := readable s;
     status_text := Some t |}.

Section ScanData.

(** [nbt.NBTFile(filename=path)], which gunzips and decodes. *)
Variable NBTFile_filename : string → Py.Result nbt.NBTFile.

(** [open(path)] *)
Variable open : string → Py.Result file.

(** [nbt.NBTFile(buffer=f)], which decodes without gunzipping. *)
Variable NBTFile_buffer : file → Py.Result nbt.NBTFile.

(** [extract_tb] of the traceback of the exception being handled. *)
Variable extract_tb : Py.Exception → list Py.FrameSummary.

(** The body of the [try], up to [s.readable = True]. *)
Definition scan_data_try (s : ScannedDatFile) : Py.Result nbt.NBTFile :=
  if decide (filename s = "idcounts.dat") then
    f ← open (path s);
    NBTFile_buffer f
  else
    NBTFile_filename (path s).

Definition scan_data (scanned_dat_file : ScannedDatFile) : PyValue :=
  let s := scanned_dat_file in
  match scan_data_try s with
  | Py.Return _ => Obj (set_readable true s)
  | Py.Raise e =>
      if decide (Py.exc_type e = MalformedFileError) then
        Obj (set_status_text (str e) (set_readable false s))
      else if decide (Py.exc_type e = Py.IOError) then
        Obj (set_status_text (str e) (set_readable false s))
      else
        let s := set_readable false s in
        let '(except_type, except_class, tb) :=
          (Py.exc_type e, e, extract_tb e) in
        Tuple s (except_type, except_class, tb)
  end.

(** [multiprocess_scan_data(data)]: scan, then [q.put(d)]. *)
Definition multiprocess_scan_data (q : list PyValue) (data : ScannedDatFile)
  : list PyValue :=
  let d := data in
  let d := scan_data d in
  q ++ [d].

End ScanData.

(** The attributes of [AsyncDataScanner]; [_data_dict] is keyed by file
    name. *)
Record AsyncDataScanner : Type := {
  _data_dict : gmap string ScannedDatFile;
  queue : list PyValue;
  _results_ready : bool;
  _str_last_scanned : option string
}.

(** [AsyncDataScanner.__init__] *)
Definition init (data_dict : gmap string ScannedDatFile) : AsyncDataScanner :=
  {| _data_dict := data_dict; queue := []; _results_ready := false;
     _str_last_scanned := None |}.

(** [AsyncDataScanner.scan] *)
Definition scan (self : AsyncDataScanner) : AsyncDataScanner :=
  {| _data_dict := _data_dict self; queue := queue self;
     _results_ready := _results_ready self; _str_last_scanned := Some "" |}.

(** The payload of the [ChildProcessException] a data fault raises. *)
Record ChildProcessException : Type := {
  scanned_file : ScannedDatFile;
  exc_type : Py.ExcType;
  exc_class : Py.Exception;
  tb_text : list Py.FrameSummary
}.

Inductive Outcome (A : Type) : Type :=
| Value (a : A)
| Raised (e : ChildProcessException).

Arguments Value {A} a.
Arguments Raised {A} e.

Definition get_last_result (self : AsyncDataScanner)
  : Outcome (option ScannedDatFile) * AsyncDataScanner :=
  match queue self with
  | [] => (Value None, self)
  | p :: q' =>
      (* p = q.get() *)
      match p with
      | Tuple p0 p1 =>
          (Raised {| scanned_file := p0; exc_type := p1.1.1;
                     exc_class := p1.1.2; tb_text := p1.2 |},
           {| _data_dict := _data_dict self; queue := q';
              _results_ready := _results_ready self;
              _str_last_scanned := _str_last_scanned self |})
      | Obj p =>
          (Value (Some p),
           {| _data_dict := <[filename p := p]> (_data_dict self);
              queue := q';
              _results_ready := _results_ready self;
              _str_last_scanned := _str_last_scanned self |})
      end
  end.

(** The property [str_last_scanned]. *)
Definition str_last_scanned (self : AsyncDataScanner) : string :=
  match _str_last_scanned self with
  | Some s => if decide (s = "") then "Scanning..." else s
  | None => "Scanning..."
  end.

(** The property [finished]. *)
Definition finished (self : AsyncDataScanner) : bool :=
  _results_ready self
  && match queue self with [] => true | _ :: _ => false end.

(** What can happen to a data session between two looks at it: a worker
    puts a value, the pool reports readiness, or the controller calls
    [get_last_result]. *)
Inductive step : AsyncDataScanner → AsyncDataScanner → Prop :=
| step_put self v :
    step self {| _data_dict := _data_dict self; queue := queue self ++ [v];
                 _results_ready := _results_ready self;
                 _str_last_scanned := _str_last_scanned self |}
| step_ready self :
    step self {| _data_dict := _data_dict self; queue := queue self;
                 _results_ready := true;
                 _str_last_scanned := _str_last_scanned self |}
| step_get self :
    step self (get_last_result self).2.

End data.

(** ** [AsyncWorldScanner] *)

Module AsyncWorldScanner.

(** The attributes of [AsyncWorldScanner].  [regionsets] is the list of
    regionsets still to scan; [_current_regionset] is [None] until the first
    [scan]. *)
Record t : Type := {
  regionsets : list RegionSet;
  _current_regionset : option AsyncRegionsetScanner;
  _str_last_scanned : option string
}.

(** [AsyncWorldScanner.__init__], [regionsets] being the copy of the
    world's list. *)
Definition init (regionsets : list RegionSet) : t :=
  {| regionsets := regionsets; _current_regionset := None;
     _str_last_scanned := None |}.

(** [IndexError], which [self.regionsets.pop(0)] raises on an empty list. *)
Definition IndexError : Py.Exception :=
  {| Py.exc_type := Py.OtherError "IndexError"; Py.msg := "pop from empty list" |}.

(** [AttributeError], raised by [None.finished]. *)
Definition AttributeError : Py.Exception :=
  {| Py.exc_type := Py.OtherError "AttributeError";
     Py.msg := "'NoneType' object has no attribute 'finished'" |}.

(** The state [scan] leaves when it pops [rs]: a session on [rs], started. *)
Definition start (rs : RegionSet) (rest : list RegionSet) : t :=
  let cr := AsyncRegionsetScanner_init rs in
  let cr := AsyncRegionsetScanner_scan cr in
  {| regionsets := rest; _current_regionset := Some cr;
     _str_last_scanned := Some "" |}.

(** [AsyncWorldScanner.scan] *)
Definition scan (self : t) : Py.Result t :=
  match regionsets self with
  | [] => Py.Raise IndexError
  | rs :: rest => Py.Return (start rs rest)
  end.

(** What a step of the world scanner shows: a result handed to the caller,
    or the start of the scan of a regionset. *)
Inductive Event : Type :=
| Returned (r : world.ScannedRegionFile)
| Started (rs : RegionSet).

(** What a call of [AsyncWorldScanner.get_last_result] shows, branch by
    branch of the method below: the result the current session's
    [get_last_result] returned, if the session is not finished; the
    regionset [scan] pops, if it is finished and a regionset is left;
    nothing otherwise. *)
Definition shown (self : t) : list Event :=
  match _current_regionset self with
  | Some cr =>
      if negb (finished cr) then Returned <$> returned (get_last_result cr).1
      else match regionsets self with
           | rs :: _ => [Started rs]
           | [] => []
           end
  | None => []
  end.

(** [AsyncWorldScanner.get_last_result].  The current session is an object
    the world scanner holds, so what [cr.get_last_result()] does to it stays
    done, also when it raises. *)
Definition get_last_result (self : t)
  : Outcome (option world.ScannedRegionFile) * t :=
  match _current_regionset self with
  | Some cr =>
      if negb (finished cr) then
        match get_last_result cr with
        | (Value r, cr') =>
            (Value r,
             {| regionsets := regionsets self; _current_regionset := Some cr';
                _str_last_scanned := Some (str_last_scanned cr') |})
        | (Raised e, cr') =>
            (Raised e,
             {| regionsets := regionsets self; _current_regionset := Some cr';
                _str_last_scanned := _str_last_scanned self |})
        end
      else if bool_decide (regionsets self ≠ []) then
        match scan self with
        | Py.Return self' => (Value None, self')
        | Py.Raise _ => (Value None, self)  (* the list is not empty *)
        end
      else (Value None, self)
  | None => (Value None, self)
  end.

(** The property [finished]:
    [not self.regionsets and self._current_regionset.finished]. *)
Definition finished (self : t) : Py.Result bool :=
  match regionsets self with
  | _ :: _ => Py.Return false
  | [] =>
      match _current_regionset self with
      | Some cr => Py.Return (finished cr)
      | None => Py.Raise AttributeError
      end
  end.

(** What the pool of the current session does beside the controller, and
    the controller's own [get_last_result]; a step carries what it shows. *)
Definition on_session (f : AsyncRegionsetScanner → AsyncRegionsetScanner)
  (self : t) : t :=
  {| regionsets := regionsets self;
     _current_regionset := f <$> _current_regionset self;
     _str_last_scanned := _str_last_scanned self |}.

Inductive step : t → list Event → t → Prop :=
| step_put self v : step self [] (on_session (put v) self)
| step_ready self : step self [] (on_session set_ready self)
| step_get self : step self (shown self) (get_last_result self).2.

Inductive run : t → list Event → t → Prop :=
| run_refl self : run self [] self
| run_then s1 t1 s2 t2 s3 :
    run s1 t1 s2 → step s2 t2 s3 → run s1 (t1 ++ t2) s3.

(** The regionsets whose scan was started along a trace, in order. *)
Definition started (t : list Event) : list RegionSet :=
  omap (λ e, match e with Started rs => Some rs | Returned _ => None end) t.

(** The results returned since the last start of a regionset, oldest
    first. *)
Definition since_start (t : list Event) : list world.ScannedRegionFile :=
  foldl (λ acc e, match e with
                  | Started _ => []
                  | Returned r => acc ++ [r]
                  end) [] t.

End AsyncWorldScanner.

(** ** More vocabulary *)

(** [r'] is [r] but for its chunk map. *)
Definition same_but_chunks (r r' : world.ScannedRegionFile) : Prop :=
  r' = world.set_chunks (λ _, world.chunks r') r.

(** How many records of [r] have status [st], as a Python integer. *)
Definition records_with (st : world.ChunkStatus) (r : world.ScannedRegionFile)
  : Z :=
  Z.of_nat (size (filter (λ kc : Z * Z * world.ChunkTuple, kc.2.2 = st)
                         (world.chunks r))).

(** The lines a scan with deletion prints, in raster order: one for each
    slot of the grid classified [CHUNK_TOO_MANY_ENTITIES]. *)
Definition deletion_lines {names : world.RegionNames}
  (region_file : region.RegionFile)
  (r : world.ScannedRegionFile) (entity_limit : Z) : list string :=
  omap (λ k, c ← classified region_file r entity_limit k;
             if decide (c.2 = world.CHUNK_TOO_MANY_ENTITIES)
             then Some (deleted_line c k (world.filename r)) else None)
       local_coords.

(** The record a completed scan leaves for the slot [k]: none for an absent
    chunk; [CHUNK_SHARED_OFFSET] for a wrong-located chunk the reader flags;
    [(0, CHUNK_OK)] for an overflowing chunk whose entities were deleted;
    the classifier's record otherwise. *)
Definition final_record {names : world.RegionNames}
  (region_file : region.RegionFile)
  (r : world.ScannedRegionFile) (entity_limit : Z) (delete_entities : bool)
  (k : Z * Z) : option world.ChunkTuple :=
  c ← classified region_file r entity_limit k;
  Some (if decide (c.2 = world.CHUNK_WRONG_LOCATED)
        then (if decide (overlapping region_file k)
              then (c.1, world.CHUNK_SHARED_OFFSET) else c)
        else stored delete_entities c).

(** ** More example inputs *)

(** A session whose pool is done, with one result and then one fault
    queued. *)
Definition example_fault : PyValue :=
  Tuple example_result (Py.KeyError, example_key_error, []).

Definition example_drained_session : AsyncRegionsetScanner :=
  {| _regionset := _regionset example_session;
     queue := [Obj example_result; Obj example_deleting_result];
     _results_ready := true; _str_last_scanned := Some "" |}.

Definition example_faulty_session : AsyncRegionsetScanner :=
  {| _regionset := _regionset example_session;
     queue := [Obj example_result; example_fault; Obj example_deleting_result];
     _results_ready := false; _str_last_scanned := Some "" |}.

(** Two data files, and readers for them: [level.dat] is gzipped and
    decodes; [idcounts.dat] is not gzipped, so the gunzipping reader refuses
    it and the buffer reader decodes it; any other file cannot be opened. *)
Definition example_level_dat : data.ScannedDatFile :=
  {| data.path := "world/level.dat"; data.filename := "level.dat";
     data.readable := false; data.status_text := None |}.

Definition example_idcounts : data.ScannedDatFile :=
  {| data.path := "world/data/idcounts.dat"; data.filename := "idcounts.dat";
     data.readable := false; data.status_text := None |}.

Definition example_missing_dat : data.ScannedDatFile :=
  {| data.path := "world/data/villages.dat"; data.filename := "villages.dat";
     data.readable := false; data.status_text := None |}.

(** A decoded data file: it has no [Level] tag. *)
Definition example_nbt : nbt.NBTFile :=
  {| nbt.Level_Pos := Py.Raise example_key_error;
     nbt.Level_Entities := Py.Raise example_key_error |}.

Definition example_not_gzipped : Py.Exception :=
  {| Py.exc_type := data.MalformedFileError; Py.msg := "Not a gzipped file" |}.

Definition example_no_such_file : Py.Exception :=
  {| Py.exc_type := Py.IOError; Py.msg := "No such file or directory" |}.

Definition example_interrupt : Py.Exception :=
  {| Py.exc_type := Py.KeyboardInterrupt; Py.msg := "" |}.

Definition example_NBTFile_filename (path : string) : Py.Result nbt.NBTFile :=
  if decide (path = "world/level.dat") then Py.Return example_nbt
  else if decide (path = "world/data/idcounts.dat")
       then Py.Raise example_not_gzipped
       else Py.Raise example_no_such_file.

Definition example_open (path : string) : Py.Result data.file :=
  if decide (path = "world/data/villages.dat") then Py.Raise example_no_such_file
  else Py.Return (data.file_of path).

Definition example_NBTFile_buffer (f : data.file) : Py.Result nbt.NBTFile :=
  Py.Return example_nbt.

(** A world of two regionsets. *)
Definition example_nether : RegionSet :=
  {| get_name := "nether"; regions := ∅ |}.

Definition example_world : list RegionSet :=
  [_regionset example_session; example_nether].

(** A walk of the world scanner over [example_world]: a worker of the first
    session puts a result and the controller gets it; the pool reports
    readiness and the next call starts the second regionset; a worker of
    the second session puts a result and the controller gets it. *)
Definition example_walk : AsyncWorldScanner.t :=
  let s0 := AsyncWorldScanner.start (_regionset example_session)
                                    [example_nether] in
  let s1 := AsyncWorldScanner.on_session (put (Obj example_result)) s0 in
  let s2 := (AsyncWorldScanner.get_last_result s1).2 in
  let s3 := AsyncWorldScanner.on_session set_ready s2 in
  let s4 := (AsyncWorldScanner.get_last_result s3).2 in
  let s5 :=
    AsyncWorldScanner.on_session (put (Obj example_deleting_result)) s4 in
  (AsyncWorldScanner.get_last_result s5).2.

(** * Properties *)

(** ** Unfolding the monad *)

Ltac py_unfold :=
  unfold mbind, mret, M_bind, M_ret, Result_bind, Result_ret,
    Py.bind, Py.rbind, Py.ret, Py.raise, Py.lift, Py.gets, Py.modify in *.

Lemma for_each_cons {S A B : Type} (body : A → B → Py.M S B) x xs acc s :
  Py.for_each body (x :: xs) acc s =
  match body x acc s with
  | (Py.Return b, s') => Py.for_each body xs b s'
  | (Py.Raise e, s') => (Py.Raise e, s')
  end.
Proof. reflexivity. Qed.

Lemma for_each_app {S A B : Type} (body : A → B → Py.M S B) xs ys acc s :
  Py.for_each body (xs ++ ys) acc s =
  match Py.for_each body xs acc s with
  | (Py.Return b, s') => Py.for_each body ys b s'
  | (Py.Raise e, s') => (Py.Raise e, s')
  end.
Proof.
  revert acc s. induction xs as [|x xs IH]; intros acc s; [done|].
  rewrite <- app_comm_cons, !for_each_cons.
  destruct (body x acc s) as [[b|e] s']; [apply IH | done].
Qed.

(** ** [scan_chunk] *)

Section ScanChunk.

Context {names : world.RegionNames}.
Context (region_file : region.RegionFile) (coords global_coords : Z * Z)
        (entity_limit : Z).

Lemma scan_chunk_decoded chunk dc ents :
  region.get_chunk region_file coords.1 coords.2 = Py.Return chunk →
  world.get_chunk_data_coords chunk = Py.Return dc →
  nbt.Level_Entities chunk = Py.Return ents →
  scan_chunk_locals region_file coords global_coords entity_limit =
  Py.Return
    {| chunk := Some chunk; data_coords := Some dc;
       num_entities := Some (Z.of_nat (length ents));
       status :=
         if decide (dc ≠ global_coords) then world.CHUNK_WRONG_LOCATED
         else if decide (Z.of_nat (length ents) > entity_limit)%Z
              then world.CHUNK_TOO_MANY_ENTITIES else world.CHUNK_OK;
       status_text :=
         if decide (dc ≠ global_coords)
         then "Mismatched coordinates (wrong located chunk)."
         else if decide (Z.of_nat (length ents) > entity_limit)%Z
              then "The chunks has too many entities (it has "
                   +:+ pretty (Z.of_nat (length ents))
                   +:+ ", and it's more than the limit "
                   +:+ pretty entity_limit +:+ ")"
              else "OK" |}.
Proof.
  intros Hget Hdc Hents. unfold scan_chunk_locals, scan_chunk_try.
  py_unfold. rewrite Hget, Hdc, Hents.
  repeat case_decide; reflexivity.
Qed.

Lemma scan_chunk_raised e :
  region.get_chunk region_file coords.1 coords.2 = Py.Raise e →
  scan_chunk_locals region_file coords global_coords entity_limit =
  scan_chunk_except region_file coords e.
Proof.
  intros Hget. unfold scan_chunk_locals, scan_chunk_try. py_unfold.
  by rewrite Hget.
Qed.

Lemma scan_chunk_never_not_created ch c :
  scan_chunk region_file coords global_coords entity_limit
  = Py.Return (ch, Some c) →
  c.2 ≠ world.CHUNK_NOT_CREATED ∧ c.2 ≠ world.CHUNK_SHARED_OFFSET.
Proof.
  unfold scan_chunk. py_unfold.
  destruct (scan_chunk_locals _ _ _ _) as [f|e] eqn:Hf; [|done].
  case_decide as Hst; [|done]. intros [= <- <-]. simpl. split; [done|].
  revert Hf. unfold scan_chunk_locals, scan_chunk_try, scan_chunk_except.
  unfold world.get_chunk_data_coords. py_unfold.
  destruct (region.get_chunk _ _ _) as [chunk|e]; simpl;
    [destruct (nbt.Level_Pos chunk) as [dc|e]; simpl;
     [destruct (nbt.Level_Entities chunk) as [ents|e]; simpl|]|];
    repeat case_decide; try destruct (Py.exc_type e);
    try destruct (world.get_global_chunk_coords_of_name _ _ _);
    intros [= <-]; done.
Qed.

End ScanChunk.

(** ** One slot of the double loop *)

Lemma setitem_setitem k c c' r :
  world.setitem k c' (world.setitem k c r) = world.setitem k c' r.
Proof.
  unfold world.setitem, world.set_chunks. simpl. by rewrite insert_insert_eq.
Qed.

Lemma scan_slot_spec {names : world.RegionNames} rf el del k n p :
  scan_slot rf el del k n p =
  match scan_chunk rf k (world.get_global_chunk_coords (obj p) k.1 k.2) el with
  | Py.Raise e => (Py.Raise e, p)
  | Py.Return (_, None) => (Py.Return n, p)
  | Py.Return (_, Some c) => (Py.Return (bump del c n), slot_store rf del k c p)
  end.
Proof.
  destruct k as [x z]. unfold scan_slot. py_unfold. simpl.
  destruct (scan_chunk _ _ _ _) as [[ch [c|]]|e]; simpl; try done.
  destruct n as [cc co wr ep], p as [r out cl], c as [ne st].
  unfold bump, slot_store, stored, on_obj, print, world_delete_entities, deleted_line.
  py_unfold. simpl.
  destruct st, del; simpl; rewrite ?setitem_setitem, ?Z.add_0_r, ?app_nil_r; reflexivity.
Qed.

(** ** The double loop *)

Section Loop.

Context {names : world.RegionNames}.
Context (rf : region.RegionFile) (r0 : world.ScannedRegionFile)
        (el : Z) (del : bool).

Lemma global_coords_same r k :
  world.coords r = world.coords r0 →
  world.get_global_chunk_coords r k.1 k.2
  = world.get_global_chunk_coords r0 k.1 k.2.
Proof. unfold world.get_global_chunk_coords. by intros ->. Qed.

Lemma slot_pure_coords acc k :
  world.coords (obj (slot_pure rf r0 el del acc k).2) = world.coords (obj acc.2).
Proof. unfold slot_pure. by destruct (classified _ _ _ _). Qed.

Lemma scan_loop_pure cs n p n' p' :
  world.coords (obj p) = world.coords r0 →
  Py.for_each (scan_slot rf el del) cs n p = (Py.Return n', p') →
  (n', p') = foldl (slot_pure rf r0 el del) (n, p) cs ∧ Forall (decodes rf r0 el) cs.
Proof.
  revert n p. induction cs as [|k cs IH]; intros n p Hco.
  { intros [= -> ->]. by split. }
  rewrite for_each_cons, scan_slot_spec, (global_coords_same _ _ Hco).
  destruct (scan_chunk _ _ _ _) as [[ch c]|e] eqn:Hk; [|by destruct p].
  assert (decodes rf r0 el k) as Hdec by (by exists ch, c).
  assert (slot_pure rf r0 el del (n, p) k =
          match c with Some c => (bump del c n, slot_store rf del k c p)
                  | None => (n, p) end) as Hpure.
  { unfold slot_pure, classified. by rewrite Hk. }
  simpl foldl. rewrite Hpure.
  destruct c as [c|]; intros Hrest; apply IH in Hrest as [-> ?]; auto.
Qed.

Lemma scan_loop_returns cs n p :
  world.coords (obj p) = world.coords r0 →
  Forall (decodes rf r0 el) cs →
  Py.for_each (scan_slot rf el del) cs n p
  = (Py.Return (foldl (slot_pure rf r0 el del) (n, p) cs).1,
     (foldl (slot_pure rf r0 el del) (n, p) cs).2).
Proof.
  intros Hco Hall. revert n p Hco.
  induction Hall as [|k cs (ch & c & Hk) _ IH]; intros n p Hco; [done|].
  rewrite for_each_cons, scan_slot_spec, (global_coords_same _ _ Hco), Hk.
  simpl foldl. unfold slot_pure at 2 4, classified. rewrite Hk.
  destruct c as [c|]; by apply IH.
Qed.

Lemma scan_loop_raises cs n p e p' :
  world.coords (obj p) = world.coords r0 →
  Py.for_each (scan_slot rf el del) cs n p = (Py.Raise e, p') →
  ∃ k, k ∈ cs ∧
       scan_chunk rf k (world.get_global_chunk_coords r0 k.1 k.2) el
       = Py.Raise e.
Proof.
  revert n p. induction cs as [|k cs IH]; intros n p Hco; [done|].
  rewrite for_each_cons, scan_slot_spec, (global_coords_same _ _ Hco).
  destruct (scan_chunk _ _ _ _) as [[ch c]|e1] eqn:Hk.
  - destruct c as [c|]; intros Hrest; apply IH in Hrest as (k' & ? & ?);
      try done; exists k'; split; [by right|done | by right | done].
  - intros [= -> ->]. exists k. split; [by left|done].
Qed.

End Loop.

(** ** The double loop, read as a fold *)

Lemma count_nil {A} (P : A → Prop) `{!∀ x, Decision (P x)} : count P [] = 0%Z.
Proof. reflexivity. Qed.

Lemma count_cons {A} (P : A → Prop) `{!∀ x, Decision (P x)} x l :
  count P (x :: l) = ((if decide (P x) then 1 else 0) + count P l)%Z.
Proof.
  unfold count. rewrite filter_cons. case_decide; simpl length; lia.
Qed.

Section Fold.

Context {names : world.RegionNames}.
Context (rf : region.RegionFile) (r0 : world.ScannedRegionFile)
        (el : Z) (del : bool).

Lemma slot_pure_lookup_ne acc k k' :
  k ≠ k' →
  world.chunks (obj (slot_pure rf r0 el del acc k).2) !! k'
  = world.chunks (obj acc.2) !! k'.
Proof.
  intros Hne. unfold slot_pure. destruct (classified _ _ _ _); [|done].
  simpl. by rewrite lookup_insert_ne.
Qed.

Lemma slot_pure_lookup acc k :
  world.chunks (obj (slot_pure rf r0 el del acc k).2) !! k
  = match classified rf r0 el k with
    | Some c => Some (stored del c)
    | None => world.chunks (obj acc.2) !! k
    end.
Proof.
  unfold slot_pure. destruct (classified _ _ _ _); [|done].
  simpl. by rewrite lookup_insert_eq.
Qed.

Lemma fold_lookup_notin cs acc k :
  k ∉ cs →
  world.chunks (obj (foldl (slot_pure rf r0 el del) acc cs).2) !! k = world.chunks (obj acc.2) !! k.
Proof.
  revert acc. induction cs as [|k0 cs IH]; intros acc Hk; [done|].
  apply not_elem_of_cons in Hk as [Hne Hk]. simpl.
  rewrite IH by done. by apply slot_pure_lookup_ne.
Qed.

Lemma fold_lookup_in cs acc k :
  NoDup cs → k ∈ cs →
  world.chunks (obj (foldl (slot_pure rf r0 el del) acc cs).2) !! k
  = match classified rf r0 el k with
    | Some c => Some (stored del c)
    | None => world.chunks (obj acc.2) !! k
    end.
Proof.
  revert acc. induction cs as [|k0 cs IH]; intros acc Hnd Hk.
  { by apply elem_of_nil in Hk. }
  apply NoDup_cons in Hnd as [Hk0 Hnd]. simpl.
  destruct (decide (k = k0)) as [->|Hne].
  - rewrite fold_lookup_notin by done. apply slot_pure_lookup.
  - apply elem_of_cons in Hk as [?|Hk]; [done|].
    rewrite IH by done. destruct (classified rf r0 el k); [done|].
    by apply slot_pure_lookup_ne.
Qed.

Lemma fold_counters cs acc :
  let n := (foldl (slot_pure rf r0 el del) acc cs).1 in
  chunk_count n
  = (chunk_count acc.1 + count (λ k, is_Some (classified rf r0 el k)) cs)%Z
  ∧ corrupted n
    = (corrupted acc.1
       + count (classified_as rf r0 el world.CHUNK_CORRUPTED) cs)%Z
  ∧ wrong n
    = (wrong acc.1
       + count (classified_as rf r0 el world.CHUNK_WRONG_LOCATED) cs)%Z
  ∧ entities_prob n
    = (entities_prob acc.1
       + if del then 0
         else count (classified_as rf r0 el world.CHUNK_TOO_MANY_ENTITIES) cs)%Z.
Proof.
  revert acc. induction cs as [|k cs IH]; intros acc; simpl.
  { rewrite !count_nil. destruct del; repeat split; lia. }
  specialize (IH (slot_pure rf r0 el del acc k)). simpl in IH.
  destruct IH as (-> & -> & -> & ->). rewrite !count_cons.
  repeat match goal with
         | |- context [count ?P cs] => generalize (count P cs); intro
         end.
  assert (∀ st, classified_as rf r0 el st k
                ↔ snd <$> classified rf r0 el k = Some st) as Has by done.
  unfold slot_pure.
  destruct (classified rf r0 el k) as [[ne st]|] eqn:Hc; simpl.
  - destruct st, del; simpl; repeat case_decide;
      repeat match goal with
             | H : classified_as _ _ _ _ _ |- _ => apply Has in H; simplify_eq/=
             | H : ¬ classified_as _ _ _ _ _ |- _ => rewrite Has in H; simpl in H
             | H : ¬ is_Some (Some _) |- _ => destruct H; eauto
             end; try done; repeat split; lia.
  - repeat case_decide;
      repeat match goal with
             | H : classified_as _ _ _ _ _ |- _ => apply Has in H; simplify_eq/=
             | H : is_Some None |- _ => by destruct H
             end; destruct del; repeat split; lia.
Qed.

End Fold.

(** ** The shared-offset check *)

Section PostPass.

Context {names : world.RegionNames}.
Context (rf : region.RegionFile).

Lemma overlapping_flagged k :
  overlapping rf k ↔
  ∃ m, (k, m) ∈ map_to_list (region.metadata rf) ∧ flagged (k, m).
Proof.
  unfold overlapping, flagged. setoid_rewrite elem_of_map_to_list.
  destruct (region.metadata rf !! k) as [m|]; simpl; split.
  - intros [= ?]. by exists m.
  - intros (m' & [= <-] & ?). by f_equal.
  - done.
  - by intros (? & ? & ?).
Qed.

Lemma sharing_of_returns r items :
  Forall (λ km, flagged km → is_Some (world.chunks r !! km.1)) items →
  sharing_of r items
  = Py.Return (filter (λ km, flagged km
                            ∧ has_status r world.CHUNK_WRONG_LOCATED km.1)
                      items).*1.
Proof.
  induction 1 as [|[k m] items Hk _ IH]; [done|].
  simpl sharing_of. rewrite IH. rewrite filter_cons. py_unfold.
  unfold flagged, has_status, world.getitem in *. simpl in *.
  destruct (decide (region.status m = _)) as [Hm|Hm].
  - destruct (Hk Hm) as [c Hc]. case_decide as Hp; rewrite Hc in *; simpl.
    + destruct Hp as [_ [= Hp]]. by rewrite bool_decide_true.
    + rewrite bool_decide_false; [done|]. intros Hst. apply Hp.
      split; [done|]. simpl. by f_equal.
  - case_decide as Hp; [by destruct Hp|done].
Qed.

Lemma sharing_of_raises r items k m :
  (k, m) ∈ items → flagged (k, m) → world.chunks r !! k = None →
  ∃ e, Py.exc_type e = Py.KeyError ∧ sharing_of r items = Py.Raise e.
Proof.
  intros Hin Hfl Hnone. induction items as [|[k' m'] items IH].
  { by apply elem_of_nil in Hin. }
  simpl sharing_of. py_unfold. unfold world.getitem, flagged in *. simpl in *.
  destruct (decide (region.status m' = _)) as [Hm'|Hm'].
  - destruct (world.chunks r !! k') as [c|] eqn:Hk';
      [|eexists; split; [|reflexivity]; done].
    apply elem_of_cons in Hin as [[= -> ->]|Hin]; [congruence|].
    destruct (IH Hin) as (e & ? & ->). by exists e.
  - apply elem_of_cons in Hin as [[= -> ->]|Hin]; [done|].
    destruct (IH Hin) as (e & ? & ->). by exists e.
Qed.

Lemma reclassify_lookup (ks : list (Z * Z))
  (m : gmap (Z * Z) world.ChunkTuple) (k : Z * Z) :
  reclassify ks m !! k
  = if decide (k ∈ ks)
    then (λ c, (c.1, world.CHUNK_SHARED_OFFSET)) <$> m !! k
    else m !! k.
Proof.
  revert m. induction ks as [|k0 ks IH]; intros m; [done|].
  unfold reclassify in *. simpl. rewrite IH, lookup_alter.
  destruct (decide (k ∈ k0 :: ks)) as [Hin|Hnin];
    destruct (decide (k ∈ ks)) as [Hks|Hks];
    destruct (decide (k0 = k)) as [->|Hne]; try done.
  - by destruct (m !! k).
  - apply elem_of_cons in Hin as [?|?]; done.
  - destruct Hnin. by right.
  - destruct Hnin. by right.
  - destruct Hnin. by left.
Qed.

Lemma share_loop ks c p :
  Forall (λ k, is_Some (world.chunks (obj p) !! k)) ks →
  Py.for_each share_slot ks c p
  = (Py.Return (c + Z.of_nat (length ks))%Z,
     on_obj (world.set_chunks (reclassify ks)) p).
Proof.
  revert c p. induction ks as [|k ks IH]; intros c p Hall.
  { simpl. py_unfold. rewrite Z.add_0_r. by destruct p as [[]]. }
  apply Forall_cons in Hall as [[c0 Hk] Hall].
  rewrite for_each_cons. unfold share_slot at 1. py_unfold.
  unfold world.getitem. rewrite Hk. simpl.
  rewrite IH.
  - f_equal; [f_equal; lia|]. unfold on_obj, world.setitem, world.set_chunks.
    simpl. do 3 f_equal. unfold reclassify. simpl. f_equal.
    apply map_eq; intros k'. rewrite lookup_insert, lookup_alter.
    case_decide; [subst; by rewrite Hk|done].
  - simpl. eapply Forall_impl; [exact Hall|]. intros k' [c' Hk']. simpl in *.
    rewrite lookup_insert. case_decide; eauto.
Qed.

End PostPass.

(** ** The shared-offset check as a whole *)

Section PostPassWhole.

Context {names : world.RegionNames}.
Context (rf : region.RegionFile) (time : Z).

Lemma flagged_overlapping k m :
  (k, m) ∈ map_to_list (region.metadata rf) →
  flagged (k, m) ↔ overlapping rf k.
Proof.
  intros Hin. rewrite overlapping_flagged. split; [by exists m|].
  intros (m' & Hin' & Hfl). apply elem_of_map_to_list in Hin, Hin'.
  by simplify_eq.
Qed.

Lemma elem_of_sharing r k : k ∈ sharing rf r ↔ shares_offset rf r k.
Proof.
  unfold sharing, shares_offset. rewrite list_elem_of_fmap. split.
  - intros ([k' m] & -> & Hin). apply list_elem_of_filter in Hin as [[Hfl ?] Hin].
    split; [|done]. by apply (flagged_overlapping _ m).
  - intros [Hov Hst]. apply overlapping_flagged in Hov as (m & Hin & Hfl).
    exists (k, m). split; [done|]. by apply list_elem_of_filter.
Qed.

Lemma NoDup_sharing r : NoDup (sharing rf r).
Proof.
  unfold sharing.
  eapply (sublist_NoDup _ (map_to_list (region.metadata rf)).*1).
  - apply NoDup_fst_map_to_list.
  - apply fmap_sublist, sublist_filter.
Qed.

Lemma length_sharing r :
  Z.of_nat (length (sharing rf r))
  = count (shares_offset rf r) (metadata_keys rf).
Proof.
  unfold sharing, metadata_keys, count. f_equal.
  assert (∀ km, km ∈ map_to_list (region.metadata rf) →
                flagged km ↔ overlapping rf km.1) as Hl.
  { intros [k m]. apply flagged_overlapping. }
  rewrite length_fmap.
  induction (map_to_list (region.metadata rf)) as [|[k m] l IH]; [done|].
  rewrite fmap_cons, !filter_cons. simpl.
  assert ((flagged (k, m) ∧ has_status r world.CHUNK_WRONG_LOCATED k)
          ↔ shares_offset rf r k) as Hiff.
  { unfold shares_offset. rewrite (Hl (k, m)) by left. done. }
  specialize (IH (λ km Hin, Hl km (list_elem_of_further _ _ _ Hin))).
  destruct (decide (flagged (k, m) ∧ _)), (decide (shares_offset rf r k));
    simpl; try (exfalso; tauto); by rewrite IH.
Qed.

Lemma post_pass_returns n p :
  (∀ k, overlapping rf k → is_Some (world.chunks (obj p) !! k)) →
  let r' :=
    world.stamp world.REGION_OK time
      (world.set_counters (chunk_count n) (corrupted n) (wrong n)
         (entities_prob n) (Z.of_nat (length (sharing rf (obj p))))
         (world.set_chunks (reclassify (sharing rf (obj p))) (obj p))) in
  post_pass time rf n p
  = (Py.Return r', {| obj := r'; stdout := stdout p; cleared := cleared p |}).
Proof.
  intros Hsafe r'. unfold post_pass. py_unfold.
  rewrite sharing_of_returns.
  2:{ apply Forall_forall. intros [k m] Hin Hfl. apply Hsafe.
      by apply (flagged_overlapping _ m). }
  fold (sharing rf (obj p)). rewrite share_loop.
  2:{ apply Forall_forall. intros k Hk. apply elem_of_sharing in Hk as [_ Hk].
      unfold has_status in Hk. by destruct (world.chunks (obj p) !! k). }
  reflexivity.
Qed.

Lemma post_pass_raises n p k :
  overlapping rf k → world.chunks (obj p) !! k = None →
  ∃ e, Py.exc_type e = Py.KeyError ∧ post_pass time rf n p = (Py.Raise e, p).
Proof.
  intros Hov Hnone. apply overlapping_flagged in Hov as (m & Hin & Hfl).
  destruct (sharing_of_raises (obj p) _ k m Hin Hfl Hnone) as (e & He & Hsh).
  exists e. split; [done|]. unfold post_pass. py_unfold. by rewrite Hsh.
Qed.

End PostPassWhole.

(** ** The chunk classifier *)

(** C2: a chunk that decodes is [CHUNK_WRONG_LOCATED] when its declared
    coordinate differs from the expected one, whatever its entity count;
    otherwise [CHUNK_TOO_MANY_ENTITIES] when its entity count exceeds the
    limit; otherwise [CHUNK_OK].  The record carries the entity count. *)
Theorem scan_chunk_classification {names : world.RegionNames} region_file
    coords global_coords entity_limit
    chunk dc ents :
  region.get_chunk region_file coords.1 coords.2 = Py.Return chunk →
  world.get_chunk_data_coords chunk = Py.Return dc →
  nbt.Level_Entities chunk = Py.Return ents →
  let num_entities := Z.of_nat (length ents) in
  scan_chunk region_file coords global_coords entity_limit
  = Py.Return
      (Some chunk,
       Some (Some num_entities,
             if decide (dc ≠ global_coords) then world.CHUNK_WRONG_LOCATED
             else if decide (num_entities > entity_limit)%Z
                  then world.CHUNK_TOO_MANY_ENTITIES
                  else world.CHUNK_OK)).
Proof.
  intros Hget Hdc Hents num_entities. unfold scan_chunk. py_unfold.
  rewrite (scan_chunk_decoded _ _ _ _ _ _ _ Hget Hdc Hents). simpl.
  fold num_entities. repeat case_decide; done.
Qed.

Lemma scan_chunk_classification_witness :
  scan_chunk (names := example_names) example_region (0, 0)%Z (0, 0)%Z 5
  = Py.Return (Some (decoded 5 5 0), Some (Some 0%Z, world.CHUNK_WRONG_LOCATED))
  ∧ scan_chunk (names := example_names) example_region (0, 1)%Z (0, 1)%Z 5
    = Py.Return (Some (decoded 0 1 7),
                 Some (Some 7%Z, world.CHUNK_TOO_MANY_ENTITIES))
  ∧ scan_chunk (names := example_names) example_region (0, 1)%Z (9, 9)%Z 5
    = Py.Return (Some (decoded 0 1 7), Some (Some 7%Z, world.CHUNK_WRONG_LOCATED))
  ∧ scan_chunk (names := example_names) example_region (0, 3)%Z (0, 3)%Z 5
    = Py.Return (Some (decoded 0 3 1), Some (Some 1%Z, world.CHUNK_OK)).
Proof.
  split; [|split; [|split]].
  - exact (scan_chunk_classification example_region (0, 0)%Z (0, 0)%Z 5
             (decoded 5 5 0) (5, 5)%Z _ eq_refl eq_refl eq_refl).
  - exact (scan_chunk_classification example_region (0, 1)%Z (0, 1)%Z 5
             (decoded 0 1 7) (0, 1)%Z _ eq_refl eq_refl eq_refl).
  - exact (scan_chunk_classification example_region (0, 1)%Z (9, 9)%Z 5
             (decoded 0 1 7) (0, 1)%Z _ eq_refl eq_refl eq_refl).
  - exact (scan_chunk_classification example_region (0, 3)%Z (0, 3)%Z 5
             (decoded 0 3 1) (0, 3)%Z _ eq_refl eq_refl eq_refl).
Defined.




(** ** The region scanner *)

Lemma NoDup_local_coords : NoDup local_coords.
Proof. apply (bool_decide_unpack _). vm_compute. exact I. Qed.

Lemma elem_of_local_coords x z :
  (x, z) ∈ local_coords ↔ (0 ≤ x < 32 ∧ 0 ≤ z < 32)%Z.
Proof.
  unfold local_coords. rewrite list_elem_of_bind.
  setoid_rewrite list_elem_of_bind. setoid_rewrite elem_of_seqZ.
  setoid_rewrite list_elem_of_singleton. split.
  - intros (x' & (z' & [= -> ->] & ?) & ?). lia.
  - intros [? ?]. exists x. split; [|lia]. exists z. split; [done|lia].
Qed.

Section RegionScan.

Context {names : world.RegionNames}.
Context (RegionFile : string → Py.Result region.RegionFile) (time : Z)
        (extract_tb : Py.Exception → list Py.FrameSummary).

Lemma scan_region_file_try_opened rf el del p :
  RegionFile (world.path (obj p)) = Py.Return rf →
  scan_region_file_try RegionFile time el del p
  = match scan_loop rf el del p with
    | (Py.Return n, p1) => post_pass time rf n p1
    | (Py.Raise e, p1) => (Py.Raise e, p1)
    end.
Proof.
  intros Hopen. unfold scan_region_file_try. py_unfold. by rewrite Hopen.
Qed.

Lemma scan_region_file_returned el del p v p' :
  scan_region_file RegionFile time extract_tb el del p = (Py.Return v, p') →
  match v with
  | Obj r => scan_region_file_try RegionFile time el del p = (Py.Return r, p')
  | Tuple r info =>
      ∃ e, scan_region_file_try RegionFile time el del p = (Py.Raise e, p')
           ∧ Py.exc_type e ≠ Py.KeyboardInterrupt
           ∧ r = obj p' ∧ info = (Py.exc_type e, e, extract_tb e)
  end.
Proof.
  unfold scan_region_file.
  destruct (scan_region_file_try _ _ _ _ _) as [[r|e] p1].
  - by intros [= <- <-].
  - case_decide as Hty; [done|]. intros [= <- <-]. by exists e.
Qed.

(** A completed scan went through the double loop and the shared-offset
    check, and the check found a record at every flagged slot. *)
Lemma scan_completed rf el del p r' p' :
  RegionFile (world.path (obj p)) = Py.Return rf →
  scan_region_file RegionFile time extract_tb el del p
  = (Py.Return (Obj r'), p') →
  ∃ n p1,
    scan_loop rf el del p = (Py.Return n, p1)
    ∧ (∀ k, overlapping rf k → is_Some (world.chunks (obj p1) !! k))
    ∧ r' = world.stamp world.REGION_OK time
             (world.set_counters (chunk_count n) (corrupted n) (wrong n)
                (entities_prob n) (Z.of_nat (length (sharing rf (obj p1))))
                (world.set_chunks (reclassify (sharing rf (obj p1))) (obj p1)))
    ∧ p' = {| obj := r'; stdout := stdout p1; cleared := cleared p1 |}.
Proof.
  intros Hopen Hscan. apply scan_region_file_returned in Hscan.
  rewrite (scan_region_file_try_opened _ _ _ _ Hopen) in Hscan.
  destruct (scan_loop rf el del p) as [[n|e] p1]; [|done].
  exists n, p1. split; [done|].
  assert (∀ k, overlapping rf k → is_Some (world.chunks (obj p1) !! k)) as Hsafe.
  { intros k Hov. destruct (world.chunks (obj p1) !! k) eqn:Hk; [by eexists|].
    destruct (post_pass_raises rf time n p1 k Hov Hk) as (e & _ & Hraise).
    congruence. }
  split; [done|]. rewrite (post_pass_returns rf time n p1 Hsafe) in Hscan.
  by simplify_eq.
Qed.


Lemma scan_loop_fold rf el del p n p1 :
  scan_loop rf el del p = (Py.Return n, p1) →
  (n, p1) = foldl (slot_pure rf (obj p) el del) (zero, p) local_coords
  ∧ Forall (decodes rf (obj p) el) local_coords.
Proof.
  intros Hloop.
  by apply (scan_loop_pure rf (obj p) el del local_coords zero p n p1).
Qed.

(** C1: in a completed scan the shared-offset check reclassifies
    [CHUNK_SHARED_OFFSET] exactly the slots that the reader flags as
    overlapping and that the double loop recorded [CHUNK_WRONG_LOCATED],
    keeping their entity counts; every other record, a flagged [CHUNK_OK]
    one included, stays as the loop left it; [shared_offset] is the number
    of reclassified slots; and [wrong_located_chunks] still counts every slot
    the classifier found wrong located, the reclassified ones too. *)
Theorem shared_offset_check rf el del p r' p' :
  RegionFile (world.path (obj p)) = Py.Return rf →
  scan_region_file RegionFile time extract_tb el del p
  = (Py.Return (Obj r'), p') →
  ∃ n p1,
    scan_loop rf el del p = (Py.Return n, p1)
    ∧ (∀ k, shares_offset rf (obj p1) k →
            ∃ ne, world.chunks (obj p1) !! k
                  = Some (ne, world.CHUNK_WRONG_LOCATED)
                  ∧ world.chunks r' !! k
                    = Some (ne, world.CHUNK_SHARED_OFFSET))
    ∧ (∀ k, ¬ shares_offset rf (obj p1) k →
            world.chunks r' !! k = world.chunks (obj p1) !! k)
    ∧ world.shared_offset r'
      = count (shares_offset rf (obj p1)) (metadata_keys rf)
    ∧ world.wrong_located_chunks r' = wrong n
    ∧ wrong n
      = count (classified_as rf (obj p) el world.CHUNK_WRONG_LOCATED)
              local_coords.
Proof.
  intros Hopen Hscan.
  destruct (scan_completed _ _ _ _ _ _ Hopen Hscan)
    as (n & p1 & Hloop & Hsafe & -> & ->).
  exists n, p1. split; [done|]. simpl. repeat split.
  - intros k Hk. pose proof Hk as [_ Hst]. unfold has_status in Hst.
    rewrite reclassify_lookup, decide_True by by apply elem_of_sharing.
    destruct (world.chunks (obj p1) !! k) as [[ne st]|]; simplify_eq/=.
    by exists ne.
  - intros k Hk. rewrite reclassify_lookup, decide_False; [done|].
    by rewrite elem_of_sharing.
  - apply length_sharing.
  - apply scan_loop_fold in Hloop as [Hfold _].
    pose proof (fold_counters rf (obj p) el del local_coords (zero, p)) as Hc.
    rewrite <- Hfold in Hc. simpl in Hc. by destruct Hc as (_ & _ & -> & _).
Qed.

(** C10: the shared-offset check reads the record of every flagged slot.
    When each flagged slot has a record after the double loop, the scan
    completes; when some flagged slot has none, the read raises [KeyError],
    which the scan returns as a fault tuple with the object as the loop left
    it, no classification being produced.  A slot of the grid that decodes as
    absent in an object that held no record for it is such a slot. *)
Theorem shared_offset_check_needs_records rf el del p n p1 :
  RegionFile (world.path (obj p)) = Py.Return rf →
  scan_loop rf el del p = (Py.Return n, p1) →
  ((∀ k, overlapping rf k → is_Some (world.chunks (obj p1) !! k)) →
   ∃ r', scan_region_file RegionFile time extract_tb el del p
         = (Py.Return (Obj r'),
            {| obj := r'; stdout := stdout p1; cleared := cleared p1 |}))
  ∧ (∀ k, overlapping rf k → world.chunks (obj p1) !! k = None →
          ∃ e, Py.exc_type e = Py.KeyError
               ∧ scan_region_file RegionFile time extract_tb el del p
                 = (Py.Return (Tuple (obj p1) (Py.KeyError, e, extract_tb e)),
                    p1))
  ∧ (∀ k e, k ∈ local_coords →
            region.get_chunk rf k.1 k.2 = Py.Raise e →
            Py.exc_type e = Py.InconceivedChunk →
            world.chunks (obj p) !! k = None →
            world.chunks (obj p1) !! k = None).
Proof.
  intros Hopen Hloop. unfold scan_region_file.
  rewrite (scan_region_file_try_opened _ _ _ _ Hopen), Hloop.
  split; [|split].
  - intros Hsafe. rewrite (post_pass_returns rf time n p1 Hsafe). by eexists.
  - intros k Hov Hk.
    destruct (post_pass_raises rf time n p1 k Hov Hk) as (e & He & ->).
    exists e. split; [done|]. rewrite He. done.
  - intros k e Hin Hget He Hk. apply scan_loop_fold in Hloop as [Hfold _].
    assert (p1 = (foldl (slot_pure rf (obj p) el del) (zero, p)
                        local_coords).2) as -> by (by rewrite <- Hfold).
    rewrite (fold_lookup_in _ _ _ _ _ _ _ NoDup_local_coords Hin).
    unfold classified, scan_chunk. rewrite (scan_chunk_raised _ _ _ _ _ Hget).
    unfold scan_chunk_except. rewrite He. done.
Qed.

End RegionScan.

Section RegionScanClaims.

Context {names : world.RegionNames}.
Context (RegionFile : string → Py.Result region.RegionFile) (time : Z)
        (extract_tb : Py.Exception → list Py.FrameSummary).


(** C6: a chunk whose decoding signals absence gets no record from
    [scan_chunk], and the double loop stores nothing for it.  In a completed
    scan of an object that came without records, a slot of the grid is
    missing from the chunk map exactly when [scan_chunk] classified it
    [CHUNK_NOT_CREATED]; every stored record lies in the grid and carries
    one of the five other statuses. *)
Theorem absent_slots_not_stored rf el del p r' p' :
  RegionFile (world.path (obj p)) = Py.Return rf →
  world.chunks (obj p) = ∅ →
  scan_region_file RegionFile time extract_tb el del p
  = (Py.Return (Obj r'), p') →
  (∀ k g e n q,
     region.get_chunk rf k.1 k.2 = Py.Raise e →
     Py.exc_type e = Py.InconceivedChunk →
     scan_chunk rf k g el = Py.Return (None, None)
     ∧ scan_slot rf el del k n q = (Py.Return n, q))
  ∧ (∀ k, k ∈ local_coords →
          world.chunks r' !! k = None
          ↔ ∃ f, scan_chunk_locals rf k
                   (world.get_global_chunk_coords (obj p) k.1 k.2) el
                 = Py.Return f
                 ∧ status f = world.CHUNK_NOT_CREATED)
  ∧ (∀ k c, world.chunks r' !! k = Some c →
            k ∈ local_coords
            ∧ c.2 ∈ [world.CHUNK_OK; world.CHUNK_TOO_MANY_ENTITIES;
                     world.CHUNK_CORRUPTED; world.CHUNK_WRONG_LOCATED;
                     world.CHUNK_SHARED_OFFSET]).
Proof.
  intros Hopen Hfresh Hscan.
  destruct (scan_completed _ _ _ _ _ _ _ _ _ Hopen Hscan)
    as (n1 & p1 & Hloop & Hsafe & -> & ->).
  apply scan_loop_fold in Hloop as [Hfold Hdec].
  assert (p1 = (foldl (slot_pure rf (obj p) el del) (zero, p)
                      local_coords).2) as Hp1 by (by rewrite <- Hfold).
  assert (∀ k, world.chunks (obj p1) !! k
               = if decide (k ∈ local_coords)
                 then stored del <$> classified rf (obj p) el k
                 else None) as Hlook.
  { intros k. rewrite Hp1. case_decide as Hin.
    - rewrite (fold_lookup_in _ _ _ _ _ _ _ NoDup_local_coords Hin).
      simpl. rewrite Hfresh, lookup_empty.
      by destruct (classified rf (obj p) el k).
    - rewrite (fold_lookup_notin _ _ _ _ _ _ _ Hin). simpl.
      by rewrite Hfresh, lookup_empty. }
  assert (∀ k c, classified rf (obj p) el k = Some c →
                 c.2 ≠ world.CHUNK_NOT_CREATED
                 ∧ c.2 ≠ world.CHUNK_SHARED_OFFSET) as Hcls.
  { intros k c. unfold classified.
    destruct (scan_chunk _ _ _ _) as [[ch c']|e] eqn:Hk; [|done].
    intros ->. by apply scan_chunk_never_not_created in Hk. }
  rewrite Forall_forall in Hdec. clear Hfold Hp1 Hscan Hsafe.
  split; [|split].
  - intros k g e n q Hget He.
    assert (scan_chunk rf k g el = Py.Return (None, None)) as Hg.
    { unfold scan_chunk. rewrite (scan_chunk_raised _ _ _ _ _ Hget).
      unfold scan_chunk_except. by rewrite He. }
    split; [done|]. rewrite scan_slot_spec.
    unfold scan_chunk. rewrite (scan_chunk_raised _ _ _ _ _ Hget).
    unfold scan_chunk_except. by rewrite He.
  - intros k Hin. simpl.
    rewrite reclassify_lookup, Hlook, (decide_True (P := k ∈ local_coords))
      by done.
    destruct (Hdec k Hin) as (ch & c & Hk).
    unfold classified. rewrite Hk. revert Hk. unfold scan_chunk. py_unfold.
    destruct (scan_chunk_locals _ _ _ _) as [f|e]; [|done].
    case_decide as Hst; intros [= <- <-]; simpl.
    + split; [by case_decide|]. by intros (f' & [= <-] & ?).
    + split; [|by case_decide]. intros _. exists f. split; [done|].
      by destruct (decide (status f = world.CHUNK_NOT_CREATED)).
  - intros k c. simpl. rewrite reclassify_lookup, Hlook.
    destruct (decide (k ∈ local_coords)) as [Hin|Hin];
      [|by case_decide].
    destruct (classified rf (obj p) el k) as [c0|] eqn:Hc0;
      [|by case_decide].
    apply Hcls in Hc0 as [Hnc Hns]. simpl.
    intros Hc. split; [done|].
    assert (c = (c.1, world.CHUNK_SHARED_OFFSET) ∨ c = stored del c0)
      as [->| ->] by (case_decide; simplify_eq/=; auto).
    { simpl. do 4 right. left. }
    unfold stored. destruct c0 as [ne st]. simpl in *.
    destruct st, del; simpl; try done;
      repeat first [by left | right].
Qed.

(** C3: an exception that leaves the body of [scan_region_file] and is not
    a [KeyboardInterrupt] is returned as the tuple of the scanned object, as
    far as it was filled, with the exception's type, the exception and the
    extracted frames; the worker puts that tuple on the queue and ends
    normally; the consumer tells it from a result by its being a tuple, and
    raises [ChildProcessException] with the tuple's components. *)
Theorem fault_is_marshalled el del p e p1 q :
  scan_region_file_try RegionFile time el del p = (Py.Raise e, p1) →
  Py.exc_type e ≠ Py.KeyboardInterrupt →
  let fault := Tuple (obj p1) (Py.exc_type e, e, extract_tb e) in
  scan_region_file RegionFile time extract_tb el del p = (Py.Return fault, p1)
  ∧ multiprocess_scan_regionfile RegionFile time extract_tb el del q p
    = (Py.Return tt, (q ++ [fault], p1))
  ∧ isinstance_tuple fault = true
  ∧ (∀ r, isinstance_tuple (Obj r) = false)
  ∧ (∀ self q',
       queue self = fault :: q' →
       get_last_result self
       = (Raised {| scanned_file := obj p1; exc_type := Py.exc_type e;
                    exc_class := e; tb_text := extract_tb e |},
          {| _regionset := _regionset self; queue := q';
             _results_ready := _results_ready self;
             _str_last_scanned := _str_last_scanned self |})).
Proof.
  intros Hraise Hty fault.
  assert (scan_region_file RegionFile time extract_tb el del p
          = (Py.Return fault, p1)) as Hscan.
  { unfold scan_region_file. rewrite Hraise. by rewrite decide_False. }
  split; [done|]. split.
  { unfold multiprocess_scan_regionfile. by rewrite Hscan. }
  split; [done|]. split; [done|].
  intros self q' Hq. unfold get_last_result. by rewrite Hq.
Qed.

(** A [KeyboardInterrupt] is not marshalled: the scan prints and leaves by
    [SystemExit], and the worker puts nothing on the queue. *)
Lemma interrupt_exits el del p e p1 q :
  scan_region_file_try RegionFile time el del p = (Py.Raise e, p1) →
  Py.exc_type e = Py.KeyboardInterrupt →
  ∃ p2,
    stdout p2 = stdout p1 ++ [nl +:+ "Interrupted by user" +:+ nl]
    ∧ multiprocess_scan_regionfile RegionFile time extract_tb el del q p
      = (Py.Raise {| Py.exc_type := Py.SystemExit; Py.msg := "1" |}, (q, p2)).
Proof.
  intros Hraise Hty. unfold multiprocess_scan_regionfile, scan_region_file.
  rewrite Hraise, decide_True by done. unfold print. py_unfold.
  eexists. split; [|reflexivity]. reflexivity.
Qed.

End RegionScanClaims.

(** ** The scan session *)

(** C8: [get_last_result] never waits.  On an empty queue it returns [None]
    and changes nothing; when the item it pops is a fault tuple it raises
    [ChildProcessException] with the partial result and the captured trace;
    when the item is a result it stores it in the regionset under the
    result's coordinates and returns it. *)
Theorem get_last_result_cases self :
  (queue self = [] → get_last_result self = (Value None, self))
  ∧ (∀ r0 ty ex tb q',
       queue self = Tuple r0 (ty, ex, tb) :: q' →
       get_last_result self
       = (Raised {| scanned_file := r0; exc_type := ty; exc_class := ex;
                    tb_text := tb |},
          {| _regionset := _regionset self; queue := q';
             _results_ready := _results_ready self;
             _str_last_scanned := _str_last_scanned self |}))
  ∧ (∀ r q',
       queue self = Obj r :: q' →
       ∃ self',
         get_last_result self = (Value (Some r), self')
         ∧ regions (_regionset self')
           = <[world.coords r := r]> (regions (_regionset self))
         ∧ regions (_regionset self') !! world.coords r = Some r
         ∧ queue self' = q'
         ∧ _results_ready self' = _results_ready self).
Proof.
  unfold get_last_result. split; [|split].
  - by intros ->.
  - by intros r0 ty ex tb q' ->.
  - intros r q' ->. eexists. split; [reflexivity|]. simpl.
    by rewrite lookup_insert_eq.
Qed.

Lemma results_step_silent pc self pc' self' :
  results_step pc self = (pc', self', None) → self' = self.
Proof.
  destruct pc; simpl; repeat case_match; by intros [= <- <-].
Qed.

Lemma results_step_got pc self pc' self' v :
  results_step pc self = (pc', self', Some v) →
  queue self = v :: queue self'
  ∧ _results_ready self' = _results_ready self.
Proof.
  destruct pc; simpl; repeat case_match; intros [= <- <- <-]; by subst.
Qed.

Lemma results_step_exhausts pc self pc' self' out :
  results_step pc self = (pc', self', out) →
  pc ≠ Exhausted → pc' = Exhausted →
  pc = AtFinishedEmpty ∧ queue self = [] ∧ self' = self ∧ out = None.
Proof.
  destruct pc; simpl; repeat case_match; intros [= <- <- <-]; try done.
  by destruct (queue self).
Qed.

Lemma puts_app t1 t2 : puts (t1 ++ t2) = puts t1 ++ puts t2.
Proof. apply omap_app. Qed.

Lemma gots_app t1 t2 : gots (t1 ++ t2) = gots t1 ++ gots t2.
Proof. apply omap_app. Qed.

(** Along a run nothing is lost: what was in the queue or was put is what
    was got followed by what is still in the queue. *)
Lemma session_run_history c0 t c :
  session_run c0 t c →
  queue c0.2 ++ puts t = gots t ++ queue c.2.
Proof.
  induction 1 as [c|c1 t1 c2 t2 c3 Hrun IH Hstep].
  { unfold puts, gots. simpl. apply app_nil_r. }
  rewrite puts_app, gots_app, app_assoc, IH.
  destruct Hstep as [pc self v|pc self|pc self pc' self' [v|] Hstep]; simpl.
  - by rewrite !app_nil_r, app_assoc.
  - by rewrite !app_nil_r.
  - apply results_step_got in Hstep as [-> _].
    by rewrite app_nil_r, <- app_assoc.
  - apply results_step_silent in Hstep as ->. by rewrite !app_nil_r.
Qed.

(** The generator reaches the last read of its test only after the pool has
    reported readiness, and readiness is never withdrawn. *)
Lemma session_run_ready c0 t c :
  session_run c0 t c →
  c0.1 = AtWhile →
  c.1 = AtFinishedEmpty → _results_ready c.2 = true.
Proof.
  intros Hrun Hc0.
  induction Hrun as [c|c1 t1 c2 t2 c3 Hrun IH Hstep]; [by rewrite Hc0|].
  specialize (IH Hc0).
  destruct Hstep as [pc self v|pc self|pc self pc' self' out Hstep]; simpl in *;
    [done..|].
  destruct pc; simpl in Hstep; repeat case_match; simplify_eq/=; try done.
  all: by intros.
Qed.

(** C9: the session is finished exactly when the pool reports readiness and
    the queue is empty; the generator's [while] test holds exactly when the
    queue is non-empty or the session is not finished; and in every
    interleaving of the workers, the pool and the generator, the generator
    exhausts its loop only at a moment when the queue is empty and the pool
    is ready, every value that was in the queue or was put, also after
    readiness, having been taken by the generator. *)
Theorem results_waits_for_queue :
  (∀ self, finished self = true
           ↔ _results_ready self = true ∧ queue self = [])
  ∧ (∀ self, results_while_test self = true
             ↔ queue self ≠ [] ∨ finished self = false)
  ∧ (∀ self, while_test_undisturbed self
             = if results_while_test self then AtSleep else Exhausted)
  ∧ (∀ self0 t pc self pc' self' out,
       session_run (AtWhile, self0) t (pc, self) →
       results_step pc self = (pc', self', out) →
       pc ≠ Exhausted → pc' = Exhausted →
       queue self = [] ∧ _results_ready self = true
       ∧ finished self = true
       ∧ gots t = queue self0 ++ puts t).
Proof.
  split; [|split; [|split]].
  - intros self. unfold finished.
    destruct (_results_ready self), (queue self); simpl;
      intuition congruence.
  - intros self. unfold results_while_test, finished.
    destruct (_results_ready self), (queue self); simpl;
      intuition congruence.
  - intros self. unfold while_test_undisturbed, results_while_test, finished.
    simpl. by destruct (_results_ready self), (queue self).
  - intros self0 t pc self pc' self' out Hrun Hstep Hpc Hpc'.
    apply results_step_exhausts in Hstep as (-> & Hq & _ & _); [|done..].
    pose proof (session_run_ready _ _ _ Hrun eq_refl eq_refl) as Hready.
    pose proof (session_run_history _ _ _ Hrun) as Hhist. simpl in *.
    rewrite Hq, app_nil_r in Hhist. unfold finished.
    by rewrite Hready, Hq.
Qed.

Lemma run_front c1 t1 c2 t2 c3 :
  session_step c1 t1 c2 → session_run c2 t2 c3 → session_run c1 (t1 ++ t2) c3.
Proof.
  intros Hstep Hrun.
  induction Hrun as [c|c2 ta cb tb c3 Hrun IH Hlast].
  - rewrite app_nil_r. apply (run_step c1 [] c1 t1 c); [apply run_refl|done].
  - rewrite app_assoc. eapply run_step; [by apply IH|done].
Qed.

Lemma run_front_results pc self pc' self' out t c :
  results_step pc self = (pc', self', out) →
  session_run (pc', self') t c →
  session_run (pc, self) (from_option (λ v, [Got v]) [] out ++ t) c.
Proof. intros Hstep. apply run_front. by apply step_results. Qed.

(** A worker that puts its result after the pool has reported readiness,
    and after the generator has read that readiness: the last read of the
    test sees the item, the loop goes on, the item is yielded, and only then
    is the loop exhausted. *)
Example results_late_put :
  ∃ self,
    session_run (AtWhile, example_session)
      [Ready; Put (Obj example_result); Got (Obj example_result)]
      (Exhausted, self)
    ∧ queue self = []
    ∧ regions (_regionset self) !! world.coords example_result
      = Some example_result.
Proof.
  eexists. split.
  - eapply (run_front _ [Ready] _ [_; _]); [apply step_ready|].
    eapply (run_front_results _ _ _ _ None); [reflexivity|].
    eapply (run_front_results _ _ _ _ None); [reflexivity|].
    eapply (run_front _ [Put _] _ [_]); [apply step_put|].
    eapply (run_front_results _ _ _ _ None); [reflexivity|].
    eapply (run_front_results _ _ _ _ None); [reflexivity|].
    eapply (run_front_results _ _ _ _ (Some _) []); [reflexivity|].
    eapply (run_front_results _ _ _ _ None); [reflexivity|].
    eapply (run_front_results _ _ _ _ None); [reflexivity|].
    eapply (run_front_results _ _ _ _ None); [reflexivity|].
    apply run_refl.
  - split; [reflexivity|]. vm_compute. reflexivity.
Qed.

(** ** Chunks with too many entities *)

Lemma fold_cleared {names : world.RegionNames} rf r0 el del cs acc :
  cleared (foldl (slot_pure rf r0 el del) acc cs).2
  = cleared acc.2
    ++ (if del
        then (λ k, (region.filename rf, k))
             <$> filter (classified_as rf r0 el world.CHUNK_TOO_MANY_ENTITIES) cs
        else []).
Proof.
  revert acc. induction cs as [|k cs IH]; intros acc; simpl.
  { destruct del; by rewrite app_nil_r. }
  rewrite IH, filter_cons. clear IH.
  assert (classified_as rf r0 el world.CHUNK_TOO_MANY_ENTITIES k
          ↔ snd <$> classified rf r0 el k
            = Some world.CHUNK_TOO_MANY_ENTITIES) as Has by done.
  unfold slot_pure.
  destruct (decide (classified_as rf r0 el world.CHUNK_TOO_MANY_ENTITIES k))
    as [Hk|Hk]; rewrite Has in Hk;
    destruct (classified rf r0 el k) as [[ne st]|]; simplify_eq/=.
  - destruct del; simpl; by rewrite <- ?app_assoc, ?app_nil_r.
  - destruct st, del; simpl; by rewrite ?app_nil_r.
  - done.
Qed.

Lemma scan_slot_too_many {names : world.RegionNames} rf el k ch ne n p :
  scan_chunk rf k (world.get_global_chunk_coords (obj p) k.1 k.2) el
  = Py.Return (ch, Some (ne, world.CHUNK_TOO_MANY_ENTITIES)) →
  scan_slot rf el true k n p
  = (Py.Return {| chunk_count := chunk_count n + 1; corrupted := corrupted n;
                  wrong := wrong n; entities_prob := entities_prob n |},
     {| obj := world.setitem k (Some 0%Z, world.CHUNK_OK) (obj p);
        stdout := stdout p
                  ++ [deleted_line (ne, world.CHUNK_TOO_MANY_ENTITIES) k
                                   (world.filename (obj p))];
        cleared := cleared p ++ [(region.filename rf, k)] |})
  ∧ scan_slot rf el false k n p
    = (Py.Return {| chunk_count := chunk_count n + 1; corrupted := corrupted n;
                    wrong := wrong n; entities_prob := entities_prob n + 1 |},
       {| obj := world.setitem k (ne, world.CHUNK_TOO_MANY_ENTITIES) (obj p);
          stdout := stdout p; cleared := cleared p |}).
Proof.
  intros Hk. rewrite !scan_slot_spec, Hk. unfold bump, slot_store, stored.
  simpl. by rewrite !Z.add_0_r, !app_nil_r.
Qed.

Section Entities.

Context {names : world.RegionNames}.
Context (RegionFile : string → Py.Result region.RegionFile) (time : Z)
        (extract_tb : Py.Exception → list Py.FrameSummary).

(** C5: for a slot classified [CHUNK_TOO_MANY_ENTITIES], one turn of the
    double loop with deletion enabled deletes the entities, prints the
    deletion, stores [(0, CHUNK_OK)] and leaves [entities_prob] as it was;
    with deletion disabled it stores the [CHUNK_TOO_MANY_ENTITIES] record,
    adds one to [entities_prob] and deletes nothing.  Over a completed scan:
    with deletion every such slot ends as [(0, CHUNK_OK)], its entities
    deleted once, and [entities_prob] is 0; without deletion every such slot
    keeps its [CHUNK_TOO_MANY_ENTITIES] record, [entities_prob] is their
    number, and nothing is deleted. *)
Theorem too_many_entities rf el del p r' p' :
  RegionFile (world.path (obj p)) = Py.Return rf →
  scan_region_file RegionFile time extract_tb el del p
  = (Py.Return (Obj r'), p') →
  let overflowing :=
    filter (classified_as rf (obj p) el world.CHUNK_TOO_MANY_ENTITIES)
           local_coords in
  (∀ k ch ne n q,
     scan_chunk rf k (world.get_global_chunk_coords (obj q) k.1 k.2) el
     = Py.Return (ch, Some (ne, world.CHUNK_TOO_MANY_ENTITIES)) →
     scan_slot rf el true k n q
     = (Py.Return {| chunk_count := chunk_count n + 1;
                     corrupted := corrupted n; wrong := wrong n;
                     entities_prob := entities_prob n |},
        {| obj := world.setitem k (Some 0%Z, world.CHUNK_OK) (obj q);
           stdout := stdout q
                     ++ [deleted_line (ne, world.CHUNK_TOO_MANY_ENTITIES) k
                                      (world.filename (obj q))];
           cleared := cleared q ++ [(region.filename rf, k)] |})
     ∧ scan_slot rf el false k n q
       = (Py.Return {| chunk_count := chunk_count n + 1;
                       corrupted := corrupted n; wrong := wrong n;
                       entities_prob := entities_prob n + 1 |},
          {| obj := world.setitem k (ne, world.CHUNK_TOO_MANY_ENTITIES) (obj q);
             stdout := stdout q; cleared := cleared q |}))
  ∧ (∀ k, k ∈ overflowing →
          ∃ ne, classified rf (obj p) el k
                = Some (ne, world.CHUNK_TOO_MANY_ENTITIES)
                ∧ world.chunks r' !! k
                  = Some (if del then (Some 0%Z, world.CHUNK_OK)
                          else (ne, world.CHUNK_TOO_MANY_ENTITIES)))
  ∧ world.entities_prob r'
    = (if del then 0%Z else Z.of_nat (length overflowing))
  ∧ cleared p'
    = cleared p
      ++ (if del then (λ k, (region.filename rf, k)) <$> overflowing else []).
Proof.
  intros Hopen Hscan overflowing.
  destruct (scan_completed _ _ _ _ _ _ _ _ _ Hopen Hscan)
    as (n1 & p1 & Hloop & Hsafe & -> & ->).
  apply scan_loop_fold in Hloop as [Hfold _].
  pose proof (fold_counters rf (obj p) el del local_coords (zero, p)) as Hcount.
  pose proof (fold_cleared rf (obj p) el del local_coords (zero, p)) as Hcl.
  assert (∀ k, k ∈ local_coords →
               world.chunks (obj p1) !! k
               = match classified rf (obj p) el k with
                 | Some c => Some (stored del c)
                 | None => world.chunks (obj p) !! k
                 end) as Hlook.
  { intros k Hin.
    pose proof (fold_lookup_in rf (obj p) el del local_coords (zero, p) k
                  NoDup_local_coords Hin) as Hk.
    by rewrite <- Hfold in Hk. }
  rewrite <- Hfold in Hcount, Hcl. cbv zeta in Hcount.
  cbn [fst snd] in Hcount, Hcl. destruct Hcount as (_ & _ & _ & Hep).
  clear Hfold Hscan Hsafe.
  split; [intros k ch ne n q Hk; by apply (scan_slot_too_many _ _ _ ch)|].
  cbn [world.chunks world.stamp world.set_counters world.set_chunks
       world.entities_prob cleared].
  split; [|split].
  - unfold overflowing. intros k [Hk Hin]%list_elem_of_filter.
    unfold classified_as in Hk. specialize (Hlook k Hin).
    destruct (classified rf (obj p) el k) as [[ne st]|]; [|done].
    injection Hk as ->. exists ne. split; [done|].
    rewrite reclassify_lookup, decide_False, Hlook; [by destruct del|].
    rewrite elem_of_sharing. intros [_ Hst]. unfold has_status in Hst.
    rewrite Hlook in Hst. by destruct del.
  - rewrite Hep. unfold overflowing, count. cbn [entities_prob zero].
    destruct del; [reflexivity|apply Z.add_0_l].
  - exact Hcl.
Qed.

End Entities.

(** ** Where faults come from *)

Lemma post_pass_raised rf time n p e p' :
  post_pass time rf n p = (Py.Raise e, p') →
  p' = p ∧ Py.exc_type e = Py.KeyError
  ∧ ∃ k, overlapping rf k ∧ world.chunks (obj p) !! k = None.
Proof.
  intros Hraise.
  destruct (decide (Forall (λ km, flagged km
                                  → is_Some (world.chunks (obj p) !! km.1))
                           (map_to_list (region.metadata rf)))) as [Hall|Hex].
  - rewrite post_pass_returns in Hraise; [done|].
    intros k (m & Hin & Hfl)%overlapping_flagged.
    rewrite Forall_forall in Hall. by apply (Hall (k, m)).
  - apply not_Forall_Exists in Hex; [|apply _].
    apply Exists_exists in Hex as ([k m] & Hin & Hno). simpl in Hno.
    assert (flagged (k, m) ∧ world.chunks (obj p) !! k = None) as [Hfl Hk].
    { destruct (decide (flagged (k, m))) as [Hfl|Hfl]; [|by destruct Hno].
      destruct (world.chunks (obj p) !! k) eqn:Hk; [|done].
      destruct Hno. by eauto. }
    assert (overlapping rf k) as Hov by (apply overlapping_flagged; eauto).
    destruct (post_pass_raises rf time n p k Hov Hk) as (e' & He' & Heq).
    rewrite Heq in Hraise. injection Hraise as <- <-. eauto.
Qed.

Lemma scan_chunk_raised_unhandled {names : world.RegionNames} rf k g el e :
  scan_chunk rf k g el = Py.Raise e →
  (scan_chunk_try rf k g el = Py.Raise e
   ∧ Py.exc_type e ∉ [Py.InconceivedChunk; Py.RegionHeaderError;
                      Py.ChunkDataError; Py.ChunkHeaderError])
  ∨ (∃ e0, scan_chunk_try rf k g el = Py.Raise e0
           ∧ Py.exc_type e0 ∈ [Py.RegionHeaderError; Py.ChunkDataError;
                               Py.ChunkHeaderError]
           ∧ world.get_global_chunk_coords_of_name
               (split_tail (region.filename rf)) k.1 k.2 = Py.Raise e).
Proof.
  unfold scan_chunk, scan_chunk_locals, scan_chunk_except. py_unfold.
  destruct (scan_chunk_try rf k g el) as [f|e']; [done|].
  destruct (Py.exc_type e') eqn:Hty;
    try destruct (world.get_global_chunk_coords_of_name _ _ _) as [g'|e1];
    intros [= <-]; try done;
    try (left; rewrite Hty; (split; [done|]); intros Hin;
         repeat (apply elem_of_cons in Hin as [?|Hin]; [done|]);
         by apply elem_of_nil in Hin);
    right; exists e'; rewrite Hty; (split; [done|]); (split; [|done]);
    repeat first [by left | right].
Qed.

Section Faults.

Context {names : world.RegionNames}.
Context (RegionFile : string → Py.Result region.RegionFile) (time : Z).

(** An exception leaves the body of [scan_region_file] in one of four
    ways: opening the file raised something other than [NoRegionHeader] and
    [IOError]; [scan_chunk] raised, for some slot, something its handlers do
    not take; the handler of a decode error raised in its call of
    [world.get_global_chunk_coords]; or the shared-offset check read a
    missing record. *)
Lemma fault_origins el del p e p1 :
  scan_region_file_try RegionFile time el del p = (Py.Raise e, p1) →
  (RegionFile (world.path (obj p)) = Py.Raise e
   ∧ Py.exc_type e ≠ Py.NoRegionHeader ∧ Py.exc_type e ≠ Py.IOError
   ∧ p1 = p)
  ∨ ∃ rf,
      RegionFile (world.path (obj p)) = Py.Return rf
      ∧ ((∃ k, k ∈ local_coords
               ∧ scan_chunk_try rf k
                   (world.get_global_chunk_coords (obj p) k.1 k.2) el
                 = Py.Raise e
               ∧ Py.exc_type e ∉ [Py.InconceivedChunk; Py.RegionHeaderError;
                                  Py.ChunkDataError; Py.ChunkHeaderError])
         ∨ (∃ k e0, k ∈ local_coords
                    ∧ scan_chunk_try rf k
                        (world.get_global_chunk_coords (obj p) k.1 k.2) el
                      = Py.Raise e0
                    ∧ Py.exc_type e0 ∈ [Py.RegionHeaderError;
                                        Py.ChunkDataError;
                                        Py.ChunkHeaderError]
                    ∧ world.get_global_chunk_coords_of_name
                        (split_tail (region.filename rf)) k.1 k.2
                      = Py.Raise e)
         ∨ (Py.exc_type e = Py.KeyError
            ∧ ∃ n k, scan_loop rf el del p = (Py.Return n, p1)
                     ∧ overlapping rf k
                     ∧ world.chunks (obj p1) !! k = None)).
Proof.
  destruct (RegionFile (world.path (obj p))) as [rf|e0] eqn:Hopen.
  - rewrite (scan_region_file_try_opened _ _ _ _ _ _ Hopen).
    destruct (scan_loop rf el del p) as [[n|e1] p2] eqn:Hloop.
    + intros (-> & He & k & Hov & Hk)%post_pass_raised.
      right. exists rf. split; [done|]. do 2 right. split; [done|].
      by exists n, k.
    + intros [= -> ->]. right. exists rf. split; [done|].
      apply (scan_loop_raises rf (obj p)) in Hloop as (k & Hin & Hk); [|done].
      apply scan_chunk_raised_unhandled in Hk as [[? ?]|(e0 & ? & ? & ?)].
      * left. by exists k.
      * right. left. by exists k, e0.
  - unfold scan_region_file_try. py_unfold. rewrite Hopen.
    repeat case_decide; try done. intros [= -> ->]. by left.
Qed.

End Faults.

(** The object inside the fault of [example_region_gap] holds the records
    stored before the shared-offset check raised, and none of the final
    counters. *)
Example fault_is_partially_filled :
  world.chunks (obj example_gap_try.2) !! (0, 0)%Z
  = Some (Some 0%Z, world.CHUNK_WRONG_LOCATED)
  ∧ world.chunks (obj example_gap_try.2) !! (0, 2)%Z
    = Some (None, world.CHUNK_CORRUPTED)
  ∧ world.scanned (obj example_gap_try.2) = false
  ∧ world.wrong_located_chunks (obj example_gap_try.2) = 0%Z.
Proof. vm_compute. done. Qed.

(** ** The properties at work on the small region file *)

Lemma shared_offset_check_witness :
  ∃ n p1,
    scan_loop (names := example_names) example_region 5 false example_proc = (Py.Return n, p1)
    ∧ (∀ k, shares_offset example_region (obj p1) k →
            ∃ ne, world.chunks (obj p1) !! k
                  = Some (ne, world.CHUNK_WRONG_LOCATED)
                  ∧ world.chunks example_result !! k
                    = Some (ne, world.CHUNK_SHARED_OFFSET))
    ∧ (∀ k, ¬ shares_offset example_region (obj p1) k →
            world.chunks example_result !! k = world.chunks (obj p1) !! k)
    ∧ world.shared_offset example_result
      = count (shares_offset example_region (obj p1))
              (metadata_keys example_region)
    ∧ world.wrong_located_chunks example_result = wrong n
    ∧ wrong n
      = count (classified_as (names := example_names) example_region example_obj 5
                             world.CHUNK_WRONG_LOCATED)
              local_coords.
Proof.
  apply (shared_offset_check (disk_with example_region) 42 no_frames
           example_region 5 false example_proc example_result example_scan.2).
  - reflexivity.
  - vm_compute. reflexivity.
Defined.

Lemma shared_offset_check_needs_records_witness :
  ((∀ k, overlapping example_region_gap k →
         is_Some (world.chunks (obj example_gap_loop.2) !! k)) →
   ∃ r', scan_region_file (names := example_names) (disk_with example_region_gap) 42 no_frames 5 false
           example_proc
         = (Py.Return (Obj r'),
            {| obj := r'; stdout := stdout example_gap_loop.2;
               cleared := cleared example_gap_loop.2 |}))
  ∧ (∀ k, overlapping example_region_gap k →
          world.chunks (obj example_gap_loop.2) !! k = None →
          ∃ e, Py.exc_type e = Py.KeyError
               ∧ scan_region_file (names := example_names) (disk_with example_region_gap) 42 no_frames
                   5 false example_proc
                 = (Py.Return (Tuple (obj example_gap_loop.2)
                                     (Py.KeyError, e, no_frames e)),
                    example_gap_loop.2))
  ∧ (∀ k e, k ∈ local_coords →
            region.get_chunk example_region_gap k.1 k.2 = Py.Raise e →
            Py.exc_type e = Py.InconceivedChunk →
            world.chunks (obj example_proc) !! k = None →
            world.chunks (obj example_gap_loop.2) !! k = None).
Proof.
  apply (shared_offset_check_needs_records (disk_with example_region_gap) 42
           no_frames example_region_gap 5 false example_proc
           example_gap_counters example_gap_loop.2).
  - reflexivity.
  - vm_compute. reflexivity.
Defined.


Lemma absent_slots_not_stored_witness :
  (∀ k g e n q,
     region.get_chunk example_region k.1 k.2 = Py.Raise e →
     Py.exc_type e = Py.InconceivedChunk →
     scan_chunk (names := example_names) example_region k g 5 = Py.Return (None, None)
     ∧ scan_slot (names := example_names) example_region 5 false k n q = (Py.Return n, q))
  ∧ (∀ k, k ∈ local_coords →
          world.chunks example_result !! k = None
          ↔ ∃ f, scan_chunk_locals (names := example_names) example_region k
                   (world.get_global_chunk_coords (obj example_proc) k.1 k.2) 5
                 = Py.Return f
                 ∧ status f = world.CHUNK_NOT_CREATED)
  ∧ (∀ k c, world.chunks example_result !! k = Some c →
            k ∈ local_coords
            ∧ c.2 ∈ [world.CHUNK_OK; world.CHUNK_TOO_MANY_ENTITIES;
                     world.CHUNK_CORRUPTED; world.CHUNK_WRONG_LOCATED;
                     world.CHUNK_SHARED_OFFSET]).
Proof.
  apply (absent_slots_not_stored (disk_with example_region) 42 no_frames
           example_region 5 false example_proc example_result example_scan.2).
  - reflexivity.
  - reflexivity.
  - vm_compute. reflexivity.
Defined.

(** C6, as it reads without the condition on the object: a record that the
    object already holds is not removed.  [example_result] is scanned again
    after the chunk of slot (0,2) was removed from the file: [scan_chunk]
    classifies the slot [CHUNK_NOT_CREATED], the scan completes, and the
    slot is still stored, with the [CHUNK_CORRUPTED] record of the earlier
    scan. *)
Lemma absent_slot_keeps_old_record :
  region.get_chunk example_repaired_region 0 2 = absent
  ∧ (∃ f, scan_chunk_locals (names := example_names) example_repaired_region
            (0, 2)%Z
            (world.get_global_chunk_coords example_result 0 2) 5
          = Py.Return f
          ∧ status f = world.CHUNK_NOT_CREATED)
  ∧ ∃ r' p',
      scan_region_file (names := example_names)
        (disk_with example_repaired_region) 42 no_frames 5 false
        {| obj := example_result; stdout := []; cleared := [] |}
      = (Py.Return (Obj r'), p')
      ∧ (0, 2)%Z ∈ local_coords
      ∧ world.chunks r' !! (0, 2)%Z = Some (None, world.CHUNK_CORRUPTED).
Proof.
  split; [reflexivity|]. split.
  - eexists. split; reflexivity.
  - eexists _, _. split; [vm_compute; reflexivity|].
    split; [|vm_compute; reflexivity].
    apply elem_of_local_coords. lia.
Qed.

Lemma fault_is_marshalled_witness :
  let fault := Tuple (obj example_gap_try.2)
                     (Py.KeyError, example_key_error, []) in
  scan_region_file (names := example_names) (disk_with example_region_gap) 42 no_frames 5 false
    example_proc
  = (Py.Return fault, example_gap_try.2)
  ∧ multiprocess_scan_regionfile (names := example_names) (disk_with example_region_gap) 42 no_frames
      5 false [] example_proc
    = (Py.Return tt, ([] ++ [fault], example_gap_try.2))
  ∧ isinstance_tuple fault = true
  ∧ (∀ r, isinstance_tuple (Obj r) = false)
  ∧ (∀ self q',
       queue self = fault :: q' →
       get_last_result self
       = (Raised {| scanned_file := obj example_gap_try.2;
                    exc_type := Py.KeyError;
                    exc_class := example_key_error; tb_text := [] |},
          {| _regionset := _regionset self; queue := q';
             _results_ready := _results_ready self;
             _str_last_scanned := _str_last_scanned self |})).
Proof.
  apply (fault_is_marshalled (disk_with example_region_gap) 42 no_frames
           5 false example_proc example_key_error example_gap_try.2 []).
  - vm_compute. reflexivity.
  - simpl. discriminate.
Defined.

Lemma too_many_entities_witness :
  let overflowing :=
    filter (classified_as (names := example_names) example_region (obj example_proc) 5
                          world.CHUNK_TOO_MANY_ENTITIES)
           local_coords in
  (∀ k ch ne n q,
     scan_chunk (names := example_names) example_region k
       (world.get_global_chunk_coords (obj q) k.1 k.2) 5
     = Py.Return (ch, Some (ne, world.CHUNK_TOO_MANY_ENTITIES)) →
     scan_slot (names := example_names) example_region 5 true k n q
     = (Py.Return {| chunk_count := chunk_count n + 1;
                     corrupted := corrupted n; wrong := wrong n;
                     entities_prob := entities_prob n |},
        {| obj := world.setitem k (Some 0%Z, world.CHUNK_OK) (obj q);
           stdout := stdout q
                     ++ [deleted_line (ne, world.CHUNK_TOO_MANY_ENTITIES) k
                                      (world.filename (obj q))];
           cleared := cleared q ++ [(region.filename example_region, k)] |})
     ∧ scan_slot (names := example_names) example_region 5 false k n q
       = (Py.Return {| chunk_count := chunk_count n + 1;
                       corrupted := corrupted n; wrong := wrong n;
                       entities_prob := entities_prob n + 1 |},
          {| obj := world.setitem k (ne, world.CHUNK_TOO_MANY_ENTITIES) (obj q);
             stdout := stdout q; cleared := cleared q |}))
  ∧ (∀ k, k ∈ overflowing →
          ∃ ne, classified (names := example_names) example_region (obj example_proc) 5 k
                = Some (ne, world.CHUNK_TOO_MANY_ENTITIES)
                ∧ world.chunks example_deleting_result !! k
                  = Some (Some 0%Z, world.CHUNK_OK))
  ∧ world.entities_prob example_deleting_result = 0%Z
  ∧ cleared example_deleting_scan.2
    = cleared example_proc
      ++ ((λ k, (region.filename example_region, k)) <$> overflowing).
Proof.
  apply (too_many_entities (disk_with example_region) 42 no_frames
           example_region 5 true example_proc example_deleting_result
           example_deleting_scan.2).
  - reflexivity.
  - vm_compute. reflexivity.
Defined.

(** * More of the scanner *)

(** ** The shape of a chunk record *)

(** X1: what [scan_chunk] returns has one of two shapes when there is a
    record: [CHUNK_CORRUPTED] with no entity count and no chunk, or one of
    [CHUNK_OK], [CHUNK_WRONG_LOCATED], [CHUNK_TOO_MANY_ENTITIES] with a
    non-negative entity count and the decoded chunk; and when there is no
    record there is no chunk either. *)
Theorem scan_chunk_record_shape {names : world.RegionNames} rf k g el ch c :
  scan_chunk rf k g el = Py.Return (ch, c) →
  match c with
  | None => ch = None
  | Some (ne, st) =>
      (st = world.CHUNK_CORRUPTED ∧ ne = None ∧ ch = None)
      ∨ (st ∈ [world.CHUNK_OK; world.CHUNK_WRONG_LOCATED;
               world.CHUNK_TOO_MANY_ENTITIES]
         ∧ ∃ n chunk, ne = Some n ∧ (0 ≤ n)%Z ∧ ch = Some chunk)
  end.
Proof.
  unfold scan_chunk, scan_chunk_locals, scan_chunk_try, scan_chunk_except.
  unfold world.get_chunk_data_coords. py_unfold.
  destruct (region.get_chunk _ _ _) as [chunk|e]; simpl;
    [destruct (nbt.Level_Pos chunk) as [dc|e]; simpl;
     [destruct (nbt.Level_Entities chunk) as [ents|e]; simpl|]|].
  1: { repeat case_decide; intros [= <- <-]; simpl in *;
       try discriminate;
       right; (split; [repeat first [by left | right]|]);
       eexists _, _; (split; [done|]); (split; [lia|done]). }
  all: destruct (Py.exc_type e); simpl;
    try destruct (world.get_global_chunk_coords_of_name _ _ _); simpl;
    intros [= <- <-]; simpl; auto.
Qed.

Lemma scan_chunk_record_shape_witness :
  match Some (Some 7%Z, world.CHUNK_TOO_MANY_ENTITIES) with
  | None => Some (decoded 0 1 7) = None
  | Some (ne, st) =>
      (st = world.CHUNK_CORRUPTED ∧ ne = None ∧ Some (decoded 0 1 7) = None)
      ∨ (st ∈ [world.CHUNK_OK; world.CHUNK_WRONG_LOCATED;
               world.CHUNK_TOO_MANY_ENTITIES]
         ∧ ∃ n chunk, ne = Some n ∧ (0 ≤ n)%Z
                      ∧ Some (decoded 0 1 7) = Some chunk)
  end.
Proof.
  apply (scan_chunk_record_shape (names := example_names) example_region (0, 1)%Z (0, 1)%Z 5).
  reflexivity.
Defined.

(** ** What a scan leaves of the object it was handed *)

Lemma same_but_chunks_refl r : same_but_chunks r r.
Proof. by destruct r. Qed.

Lemma same_but_chunks_trans r1 r2 r3 :
  same_but_chunks r1 r2 → same_but_chunks r2 r3 → same_but_chunks r1 r3.
Proof. unfold same_but_chunks. intros -> ->. reflexivity. Qed.

Lemma same_but_chunks_set f r : same_but_chunks r (world.set_chunks f r).
Proof. reflexivity. Qed.

Lemma loop_frame {names : world.RegionNames} rf el del cs n p res p' :
  Py.for_each (scan_slot rf el del) cs n p = (res, p') →
  same_but_chunks (obj p) (obj p').
Proof.
  revert n p. induction cs as [|k cs IH]; intros n p.
  { intros [= <- <-]. apply same_but_chunks_refl. }
  rewrite for_each_cons, scan_slot_spec.
  destruct (scan_chunk _ _ _ _) as [[ch [c|]]|e].
  - intros Hrest. apply IH in Hrest.
    eapply same_but_chunks_trans; [|exact Hrest]. apply same_but_chunks_set.
  - apply IH.
  - intros [= <- <-]. apply same_but_chunks_refl.
Qed.

Lemma post_pass_returned rf time n p r' p' :
  post_pass time rf n p = (Py.Return r', p') →
  (∀ k, overlapping rf k → is_Some (world.chunks (obj p) !! k))
  ∧ r' = world.stamp world.REGION_OK time
           (world.set_counters (chunk_count n) (corrupted n) (wrong n)
              (entities_prob n) (Z.of_nat (length (sharing rf (obj p))))
              (world.set_chunks (reclassify (sharing rf (obj p))) (obj p)))
  ∧ p' = {| obj := r'; stdout := stdout p; cleared := cleared p |}.
Proof.
  intros Hpost.
  assert (∀ k, overlapping rf k → is_Some (world.chunks (obj p) !! k)) as Hsafe.
  { intros k Hov. destruct (world.chunks (obj p) !! k) eqn:Hk; [by eexists|].
    destruct (post_pass_raises rf time n p k Hov Hk) as (e & _ & Hraise).
    congruence. }
  split; [done|]. rewrite (post_pass_returns rf time n p Hsafe) in Hpost.
  by simplify_eq.
Qed.

Section Outcomes.

Context {names : world.RegionNames}.
Context (RegionFile : string → Py.Result region.RegionFile) (time : Z)
        (extract_tb : Py.Exception → list Py.FrameSummary).

Lemma try_frame el del p e p' :
  scan_region_file_try RegionFile time el del p = (Py.Raise e, p') →
  same_but_chunks (obj p) (obj p').
Proof.
  destruct (RegionFile (world.path (obj p))) as [rf|e0] eqn:Hopen.
  - rewrite (scan_region_file_try_opened _ _ _ _ _ _ Hopen).
    destruct (scan_loop rf el del p) as [[n|e1] p1] eqn:Hloop;
      apply loop_frame in Hloop.
    + by intros (-> & _)%post_pass_raised.
    + by intros [= _ <-].
  - unfold scan_region_file_try. py_unfold. rewrite Hopen.
    repeat case_decide; try done. intros [= _ <-]. apply same_but_chunks_refl.
Qed.

(** X2: [scan_region_file] ends in one of three ways.  It returns the
    object, then marked scanned and stamped with the time, its status
    [REGION_OK] when the file opened, [REGION_TOO_SMALL] on [NoRegionHeader]
    and [REGION_UNREADABLE] on [IOError]; or it returns a fault tuple, whose
    exception is never a [KeyboardInterrupt]; or it raises, and then what it
    raises is [SystemExit(1)], after printing that the user interrupted. *)
Theorem scan_region_file_outcomes el del p :
  match scan_region_file RegionFile time extract_tb el del p with
  | (Py.Return (Obj r), p') =>
      obj p' = r ∧ world.scanned r = true ∧ world.scan_time r = Some time
      ∧ match RegionFile (world.path (obj p)) with
        | Py.Return _ => world.status r = world.REGION_OK
        | Py.Raise e =>
            if decide (Py.exc_type e = Py.NoRegionHeader)
            then world.status r = world.REGION_TOO_SMALL
            else Py.exc_type e = Py.IOError
                 ∧ world.status r = world.REGION_UNREADABLE
        end
  | (Py.Return (Tuple r (ty, e, tb)), p') =>
      obj p' = r ∧ ty = Py.exc_type e ∧ ty ≠ Py.KeyboardInterrupt
      ∧ tb = extract_tb e
  | (Py.Raise e, p') =>
      e = {| Py.exc_type := Py.SystemExit; Py.msg := "1" |}
      ∧ ∃ out, stdout p' = out ++ [nl +:+ "Interrupted by user" +:+ nl]
  end.
Proof.
  unfold scan_region_file.
  destruct (scan_region_file_try RegionFile time el del p)
    as [[r|e] p1] eqn:Htry.
  - revert Htry.
    destruct (RegionFile (world.path (obj p))) as [rf|e0] eqn:Hopen.
    + rewrite (scan_region_file_try_opened _ _ _ _ _ _ Hopen).
      destruct (scan_loop rf el del p) as [[n|e1] p2]; [|done].
      by intros (_ & -> & ->)%post_pass_returned.
    + unfold scan_region_file_try. py_unfold. rewrite Hopen.
      repeat case_decide; intros [= <- <-]; done.
  - case_decide as Hty.
    + unfold print. py_unfold. split; [done|]. by eexists.
    + done.
Qed.

(** X3: when [scan_region_file] returns a fault tuple or leaves by
    [SystemExit], the object it was handed differs from what it was only in
    its chunk map: status, scan time, the [scanned] mark and the five
    counters are as before the call. *)
Theorem unfinished_scan_keeps_header el del p v p' :
  scan_region_file RegionFile time extract_tb el del p = (v, p') →
  (∀ r, v ≠ Py.Return (Obj r)) →
  same_but_chunks (obj p) (obj p')
  ∧ world.status (obj p') = world.status (obj p)
  ∧ world.scan_time (obj p') = world.scan_time (obj p)
  ∧ world.scanned (obj p') = world.scanned (obj p)
  ∧ (world.chunk_count (obj p'), world.corrupted_chunks (obj p'),
     world.wrong_located_chunks (obj p'), world.entities_prob (obj p'),
     world.shared_offset (obj p'))
    = (world.chunk_count (obj p), world.corrupted_chunks (obj p),
       world.wrong_located_chunks (obj p), world.entities_prob (obj p),
       world.shared_offset (obj p)).
Proof.
  intros Hscan Hv.
  assert (same_but_chunks (obj p) (obj p')) as Hsame.
  { revert Hscan. unfold scan_region_file.
    destruct (scan_region_file_try RegionFile time el del p)
      as [[r|e] p1] eqn:Htry.
    - intros [= <- <-]. by destruct (Hv r).
    - apply try_frame in Htry. case_decide.
      + unfold print. py_unfold. by intros [= <- <-].
      + by intros [= <- <-]. }
  split; [done|]. rewrite Hsame. done.
Qed.

End Outcomes.

Lemma unfinished_scan_keeps_header_witness :
  same_but_chunks (obj example_proc) (obj example_gap_try.2)
  ∧ world.status (obj example_gap_try.2) = world.status (obj example_proc)
  ∧ world.scan_time (obj example_gap_try.2) = world.scan_time (obj example_proc)
  ∧ world.scanned (obj example_gap_try.2) = world.scanned (obj example_proc)
  ∧ (world.chunk_count (obj example_gap_try.2),
     world.corrupted_chunks (obj example_gap_try.2),
     world.wrong_located_chunks (obj example_gap_try.2),
     world.entities_prob (obj example_gap_try.2),
     world.shared_offset (obj example_gap_try.2))
    = (world.chunk_count (obj example_proc),
       world.corrupted_chunks (obj example_proc),
       world.wrong_located_chunks (obj example_proc),
       world.entities_prob (obj example_proc),
       world.shared_offset (obj example_proc)).
Proof.
  apply (unfinished_scan_keeps_header (names := example_names) (disk_with example_region_gap) 42
           no_frames 5 false example_proc
           (Py.Return (Tuple (obj example_gap_try.2)
                             (Py.KeyError, example_key_error, [])))
           example_gap_try.2).
  - vm_compute. reflexivity.
  - intros r. discriminate.
Defined.

(** ** The counters and the chunk map of a completed scan *)

Lemma length_local_coords : length local_coords = 1024%nat.
Proof. reflexivity. Qed.

Lemma count_bounds {A} (P : A → Prop) `{!∀ x, Decision (P x)} (l : list A) :
  (0 ≤ count P l ≤ Z.of_nat (length l))%Z.
Proof.
  unfold count. pose proof (length_filter P l). lia.
Qed.

Lemma classified_counts {names : world.RegionNames} rf r el cs :
  (count (classified_as rf r el world.CHUNK_CORRUPTED) cs
   + count (classified_as rf r el world.CHUNK_WRONG_LOCATED) cs
   + count (classified_as rf r el world.CHUNK_TOO_MANY_ENTITIES) cs
   ≤ count (λ k, is_Some (classified rf r el k)) cs)%Z.
Proof.
  induction cs as [|k cs IH]; [done|]. rewrite !count_cons.
  repeat match goal with
         | |- context [count ?P cs] => generalize dependent (count P cs); intros
         end.
  assert (∀ st, classified_as rf r el st k
                ↔ snd <$> classified rf r el k = Some st) as Has by done.
  destruct (classified rf r el k) as [[ne st]|] eqn:Hc; simpl in Has;
    repeat case_decide;
    repeat match goal with
           | H : classified_as _ _ _ _ _ |- _ => apply Has in H
           | H : ¬ classified_as _ _ _ _ _ |- _ => rewrite Has in H
           | H : ¬ is_Some (Some _) |- _ => destruct H; by eexists
           | H : is_Some None |- _ => by destruct H
           end; simplify_eq/=; try lia.
Qed.

(** A map whose lookups are given by [g] on the keys of [l], and by nothing
    elsewhere, has as many entries as [l] has keys on which [g] is
    defined. *)
Lemma map_size_by_list {V} (m : gmap (Z * Z) V) (l : list (Z * Z))
    (g : Z * Z → option V) :
  NoDup l →
  (∀ k, m !! k = if decide (k ∈ l) then g k else None) →
  size m = length (filter (λ k, is_Some (g k)) l).
Proof.
  intros Hnd. revert m. induction Hnd as [|k0 l Hk0 Hnd IH]; intros m Hm.
  { rewrite (proj2 (map_empty m)); [apply map_size_empty|].
    intros k. rewrite Hm. by rewrite decide_False by apply not_elem_of_nil. }
  assert (size (delete k0 m) = length (filter (λ k, is_Some (g k)) l)) as Hd.
  { apply IH. intros k. rewrite lookup_delete.
    destruct (decide (k0 = k)) as [<-|Hne].
    - by rewrite decide_False.
    - rewrite Hm. destruct (decide (k ∈ l)) as [Hin|Hin].
      + rewrite decide_True; [done|by right].
      + rewrite decide_False; [done|]. by intros [?|?]%elem_of_cons. }
  rewrite filter_cons. specialize (Hm k0).
  rewrite decide_True in Hm by left. rewrite map_size_delete, Hm in Hd.
  destruct (g k0) as [v|] eqn:Hg.
  - rewrite decide_True by by eexists. simpl in *.
    assert (size m ≠ 0).
    { apply map_size_ne_0_lookup_2 with k0. by eexists. }
    lia.
  - rewrite decide_False by by intros [? [=]]. done.
Qed.

Lemma length_filter_iff {A} (P Q : A → Prop) `{!∀ x, Decision (P x)}
    `{!∀ x, Decision (Q x)} (l : list A) :
  (∀ x, x ∈ l → P x ↔ Q x) →
  length (filter P l) = length (filter Q l).
Proof.
  induction l as [|x l IH]; intros Hiff; [done|].
  rewrite !filter_cons.
  pose proof (Hiff x (list_elem_of_here _ _)) as Hx.
  specialize (IH (λ y Hy, Hiff y (list_elem_of_further _ _ _ Hy))).
  destruct (decide (P x)), (decide (Q x)); simpl; try tauto; by rewrite IH.
Qed.

Lemma length_filter_split {A} (P Q R : A → Prop) `{!∀ x, Decision (P x)}
    `{!∀ x, Decision (Q x)} `{!∀ x, Decision (R x)} (l : list A) :
  (∀ x, x ∈ l → (R x ↔ P x ∨ Q x) ∧ ¬ (P x ∧ Q x)) →
  length (filter R l) = length (filter P l) + length (filter Q l).
Proof.
  induction l as [|x l IH]; intros Hiff; [done|].
  rewrite !filter_cons.
  pose proof (Hiff x (list_elem_of_here _ _)) as Hx.
  specialize (IH (λ y Hy, Hiff y (list_elem_of_further _ _ _ Hy))).
  destruct (decide (P x)), (decide (Q x)), (decide (R x)); simpl;
    try tauto; rewrite IH; lia.
Qed.

Section Completed.

Context {names : world.RegionNames}.
Context (RegionFile : string → Py.Result region.RegionFile) (time : Z)
        (extract_tb : Py.Exception → list Py.FrameSummary).

(** X4: whatever the object held before, the counters of a completed scan
    are never negative, never count more chunks than the 1024 slots of a
    region, and the corrupted, wrong-located and overflowing chunks together
    never exceed the chunks counted; with deletion [entities_prob] is 0. *)
Theorem counters_bounds rf el del p r' p' :
  RegionFile (world.path (obj p)) = Py.Return rf →
  scan_region_file RegionFile time extract_tb el del p
  = (Py.Return (Obj r'), p') →
  (0 ≤ world.corrupted_chunks r' ∧ 0 ≤ world.wrong_located_chunks r'
   ∧ 0 ≤ world.entities_prob r' ∧ 0 ≤ world.shared_offset r'
   ∧ world.corrupted_chunks r' + world.wrong_located_chunks r'
     + world.entities_prob r' ≤ world.chunk_count r'
   ∧ world.chunk_count r' ≤ 1024)%Z
  ∧ (del = true → world.entities_prob r' = 0%Z).
Proof.
  intros Hopen Hscan.
  destruct (scan_completed _ _ _ _ _ _ _ _ _ Hopen Hscan)
    as (n1 & p1 & Hloop & _ & -> & _).
  apply scan_loop_fold in Hloop as [Hfold _].
  pose proof (fold_counters rf (obj p) el del local_coords (zero, p)) as Hc.
  rewrite <- Hfold in Hc. cbv zeta in Hc. cbn [fst snd] in Hc.
  destruct Hc as (Hcc & Hco & Hwr & Hep). clear Hfold Hscan.
  cbn [world.stamp world.set_counters world.corrupted_chunks
       world.wrong_located_chunks world.entities_prob world.shared_offset
       world.chunk_count].
  rewrite Hcc, Hco, Hwr, Hep. cbn [zero chunk_count corrupted wrong entities_prob].
  pose proof (classified_counts rf (obj p) el local_coords) as Hsum.
  pose proof (count_bounds (classified_as rf (obj p) el world.CHUNK_CORRUPTED)
                local_coords) as H1.
  pose proof (count_bounds (classified_as rf (obj p) el world.CHUNK_WRONG_LOCATED)
                local_coords) as H2.
  pose proof (count_bounds
                (classified_as rf (obj p) el world.CHUNK_TOO_MANY_ENTITIES)
                local_coords) as H3.
  pose proof (count_bounds (λ k, is_Some (classified rf (obj p) el k))
                local_coords) as H4.
  rewrite length_local_coords in H1, H2, H3, H4.
  repeat match goal with
         | H : context [count ?P local_coords] |- _ =>
             generalize dependent (count P local_coords); intros
         end.
  split; [destruct del; lia|]. intros ->. lia.
Qed.


Lemma loop_chunks_fresh rf el del p n p1 :
  world.chunks (obj p) = ∅ →
  scan_loop rf el del p = (Py.Return n, p1) →
  ∀ k, world.chunks (obj p1) !! k
       = if decide (k ∈ local_coords)
         then stored del <$> classified rf (obj p) el k else None.
Proof.
  intros Hfresh Hloop k. apply scan_loop_fold in Hloop as [Hfold _].
  assert (p1 = (foldl (slot_pure rf (obj p) el del) (zero, p)
                      local_coords).2) as -> by (by rewrite <- Hfold).
  clear Hfold. case_decide as Hin.
  - rewrite (fold_lookup_in _ _ _ _ _ _ _ NoDup_local_coords Hin).
    cbn [snd]. rewrite Hfresh, lookup_empty.
    by destruct (classified rf (obj p) el k).
  - rewrite (fold_lookup_notin _ _ _ _ _ _ _ Hin). cbn [snd].
    by rewrite Hfresh, lookup_empty.
Qed.

Lemma classified_statuses rf r el k c :
  classified rf r el k = Some c →
  c.2 ≠ world.CHUNK_NOT_CREATED ∧ c.2 ≠ world.CHUNK_SHARED_OFFSET.
Proof.
  unfold classified.
  destruct (scan_chunk _ _ _ _) as [[ch c']|e] eqn:Hk; [|done].
  intros ->. by apply scan_chunk_never_not_created in Hk.
Qed.

Lemma sharing_fresh rf el del p n p1 :
  world.chunks (obj p) = ∅ →
  scan_loop rf el del p = (Py.Return n, p1) →
  ∀ k, k ∈ sharing rf (obj p1)
       ↔ overlapping rf k ∧ k ∈ local_coords
         ∧ classified_as rf (obj p) el world.CHUNK_WRONG_LOCATED k.
Proof.
  intros Hfresh Hloop k.
  pose proof (loop_chunks_fresh _ _ _ _ _ _ Hfresh Hloop k) as Hlook.
  rewrite elem_of_sharing. unfold shares_offset, has_status, classified_as.
  rewrite Hlook. unfold stored.
  destruct (decide (k ∈ local_coords)); [|simpl; intuition congruence].
  destruct (classified rf (obj p) el k) as [[ne st]|];
    [|simpl; intuition congruence].
  simpl. destruct st, del; simpl; intuition congruence.
Qed.

Lemma length_filter_none {A} (P : A → Prop) `{!∀ x, Decision (P x)}
    (l : list A) :
  (∀ x, x ∈ l → ¬ P x) → length (filter P l) = 0%nat.
Proof.
  induction l as [|x l IH]; intros Hno; [done|].
  rewrite filter_cons, decide_False by (apply Hno; left).
  apply IH. intros y Hy. apply Hno. by right.
Qed.

(** The chunk map of a completed scan of an object that came without
    records, slot by slot. *)
Lemma chunk_map_of_completed rf el del p r' p' :
  RegionFile (world.path (obj p)) = Py.Return rf →
  world.chunks (obj p) = ∅ →
  scan_region_file RegionFile time extract_tb el del p
  = (Py.Return (Obj r'), p') →
  ∀ k, world.chunks r' !! k
       = if decide (k ∈ local_coords)
         then final_record rf (obj p) el del k else None.
Proof.
  intros Hopen Hfresh Hscan k.
  destruct (scan_completed _ _ _ _ _ _ _ _ _ Hopen Hscan)
    as (n1 & p1 & Hloop & _ & -> & _).
  pose proof (loop_chunks_fresh _ _ _ _ _ _ Hfresh Hloop) as Hlook.
  pose proof (sharing_fresh _ _ _ _ _ _ Hfresh Hloop k) as Hsh.
  unfold classified_as in Hsh. clear Hloop Hscan.
  cbn [world.chunks world.stamp world.set_counters world.set_chunks].
  rewrite reclassify_lookup, Hlook. unfold final_record.
  destruct (decide (k ∈ local_coords)) as [Hin|Hin]; [|by case_decide].
  destruct (classified rf (obj p) el k) as [[ne st]|] eqn:Hc; simpl;
    [|by case_decide].
  destruct (decide (k ∈ sharing rf (obj p1))) as [Hk|Hk]; rewrite Hsh in Hk.
  - destruct Hk as (Hov & _ & [= ->]).
    by rewrite decide_True, (decide_True (P := overlapping rf k)).
  - unfold stored. simpl.
    destruct (decide (st = world.CHUNK_WRONG_LOCATED)) as [->|Hst]; simpl.
    + rewrite decide_False; [done|]. intros Hov. by apply Hk.
    + done.
Qed.

(** X5: the chunk map of a completed scan of an object that came without
    records, in full: outside the grid it holds nothing, and for a slot of
    the grid it holds the record [final_record] gives — none for an absent
    chunk, [CHUNK_SHARED_OFFSET] for a wrong-located chunk that the reader
    flags, [(0, CHUNK_OK)] for an overflowing chunk under deletion, and the
    classifier's record otherwise. *)
Theorem completed_chunk_map rf el del p r' p' :
  RegionFile (world.path (obj p)) = Py.Return rf →
  world.chunks (obj p) = ∅ →
  scan_region_file RegionFile time extract_tb el del p
  = (Py.Return (Obj r'), p') →
  ∀ k, world.chunks r' !! k
       = if decide (k ∈ local_coords)
         then final_record rf (obj p) el del k else None.
Proof. apply chunk_map_of_completed. Qed.

(** X6: after a completed scan of an object that came without records the
    counters agree with the chunk map: [chunk_count] is the number of
    records; [corrupted_chunks] and [entities_prob] are the numbers of
    [CHUNK_CORRUPTED] and [CHUNK_TOO_MANY_ENTITIES] records;
    [shared_offset] is the number of [CHUNK_SHARED_OFFSET] records; and
    [wrong_located_chunks] is the number of [CHUNK_WRONG_LOCATED] and
    [CHUNK_SHARED_OFFSET] records together. *)
Theorem counters_agree_with_map rf el del p r' p' :
  RegionFile (world.path (obj p)) = Py.Return rf →
  world.chunks (obj p) = ∅ →
  scan_region_file RegionFile time extract_tb el del p
  = (Py.Return (Obj r'), p') →
  world.chunk_count r' = Z.of_nat (size (world.chunks r'))
  ∧ world.corrupted_chunks r' = records_with world.CHUNK_CORRUPTED r'
  ∧ world.entities_prob r' = records_with world.CHUNK_TOO_MANY_ENTITIES r'
  ∧ world.shared_offset r' = records_with world.CHUNK_SHARED_OFFSET r'
  ∧ world.wrong_located_chunks r'
    = (records_with world.CHUNK_WRONG_LOCATED r'
       + records_with world.CHUNK_SHARED_OFFSET r')%Z.
Proof.
  intros Hopen Hfresh Hscan.
  pose proof (chunk_map_of_completed _ _ _ _ _ _ Hopen Hfresh Hscan) as Hmap.
  destruct (scan_completed _ _ _ _ _ _ _ _ _ Hopen Hscan)
    as (n1 & p1 & Hloop & _ & Hr' & _).
  pose proof (sharing_fresh _ _ _ _ _ _ Hfresh Hloop) as Hsh.
  apply scan_loop_fold in Hloop as [Hfold _].
  pose proof (fold_counters rf (obj p) el del local_coords (zero, p)) as Hc.
  rewrite <- Hfold in Hc. cbv zeta in Hc. cbn [fst snd] in Hc.
  destruct Hc as (Hcc & Hco & Hwr & Hep). clear Hfold Hscan.
  assert (world.chunk_count r' = chunk_count n1
          ∧ world.corrupted_chunks r' = corrupted n1
          ∧ world.entities_prob r' = entities_prob n1
          ∧ world.wrong_located_chunks r' = wrong n1
          ∧ world.shared_offset r'
            = Z.of_nat (length (sharing rf (obj p1))))
    as (-> & -> & -> & -> & ->) by (by rewrite Hr').
  assert (∀ st,
            records_with st r'
            = Z.of_nat (length (filter
                (λ k, snd <$> final_record rf (obj p) el del k = Some st)
                local_coords))) as Hrec.
  { intros st. unfold records_with. f_equal.
    rewrite (map_size_by_list _ local_coords
               (λ k, x ← final_record rf (obj p) el del k;
                     guard (x.2 = st);; Some x) NoDup_local_coords).
    - apply length_filter_iff. intros k _.
      destruct (final_record rf (obj p) el del k) as [[ne st']|]; simpl.
      + destruct (decide (st' = st)) as [->|Hne].
        * rewrite option_guard_True by done. split; [done|by eexists].
        * rewrite option_guard_False by done. simpl.
          split; [by intros [? [=]]|by intros [= ->]].
      + split; [by intros [? [=]]|done].
    - intros k. rewrite map_lookup_filter, Hmap. by case_decide. }
  assert (size (world.chunks r')
          = length (filter (λ k, is_Some (classified rf (obj p) el k))
                           local_coords)) as Hsize.
  { rewrite (map_size_by_list _ local_coords
               (final_record rf (obj p) el del) NoDup_local_coords Hmap).
    apply length_filter_iff. intros k _. unfold final_record.
    destruct (classified rf (obj p) el k); simpl; [|done].
    split; intros _; by eexists. }
  assert (∀ k st,
            snd <$> final_record rf (obj p) el del k = Some st ↔
            ∃ c, classified rf (obj p) el k = Some c
                 ∧ st = (if decide (c.2 = world.CHUNK_WRONG_LOCATED)
                         then (if decide (overlapping rf k)
                               then world.CHUNK_SHARED_OFFSET
                               else world.CHUNK_WRONG_LOCATED)
                         else (stored del c).2)) as Hfin.
  { intros k st. unfold final_record.
    destruct (classified rf (obj p) el k) as [c|]; simpl.
    - split.
      + intros [= <-]. exists c. split; [done|].
        repeat case_decide; simpl; congruence.
      + intros (c' & [= <-] & ->). f_equal. by repeat case_decide.
    - split; [done|]. by intros (? & ? & ?). }
  assert (∀ k c, classified rf (obj p) el k = Some c →
                 c.2 ≠ world.CHUNK_NOT_CREATED
                 ∧ c.2 ≠ world.CHUNK_SHARED_OFFSET) as Hcls
    by (intros k c; apply classified_statuses).
  assert (∀ k st, classified_as rf (obj p) el st k
                  ↔ ∃ c, classified rf (obj p) el k = Some c ∧ c.2 = st)
    as Has.
  { intros k st. unfold classified_as.
    destruct (classified rf (obj p) el k) as [c|]; simpl.
    - split; [intros [= <-]; eauto|by intros (? & [= <-] & <-)].
    - split; [done|]. by intros (? & ? & ?). }
  clear Hmap Hr'.
  rewrite Hcc, Hco, Hep, Hwr, !Hrec, Hsize.
  cbn [zero chunk_count corrupted wrong entities_prob]. unfold count.
  rewrite !Z.add_0_l.
  split; [done|]. split; [|split; [|split]].
  - f_equal. apply length_filter_iff. intros k _. rewrite Has, Hfin.
    split; intros (c & Hc & Hst); exists c; (split; [done|]);
      destruct (Hcls _ _ Hc) as [? ?]; revert Hst; unfold stored;
      destruct c as [ne st]; simpl; destruct st, del;
      repeat case_decide; simpl; congruence.
  - destruct del.
    + rewrite length_filter_none; [done|]. intros k _.
      rewrite Hfin. intros (c & Hc & Hst).
      destruct (Hcls _ _ Hc) as [? ?]; revert Hst; unfold stored;
        destruct c as [ne st]; simpl; destruct st;
        repeat case_decide; simpl; congruence.
    + f_equal. apply length_filter_iff. intros k _. rewrite Has, Hfin.
      split; intros (c & Hc & Hst); exists c; (split; [done|]);
        destruct (Hcls _ _ Hc) as [? ?]; revert Hst; unfold stored;
        destruct c as [ne st]; simpl; destruct st;
        repeat case_decide; simpl; congruence.
  - f_equal. apply Permutation_length. apply NoDup_Permutation.
    + apply NoDup_sharing.
    + apply NoDup_filter, NoDup_local_coords.
    + intros k. rewrite Hsh, list_elem_of_filter, Has, Hfin.
      split.
      * intros (Hov & Hin & c & Hc & Hst). split; [|done].
        exists c. split; [done|]. by rewrite !decide_True.
      * intros [(c & Hc & Hst) Hin].
        destruct (Hcls _ _ Hc) as [? ?].
        destruct (decide (c.2 = world.CHUNK_WRONG_LOCATED)) as [Hw|Hw].
        -- destruct (decide (overlapping rf k)) as [Hov|Hov]; [|done].
           split; [done|]. split; [done|]. by exists c.
        -- revert Hst. unfold stored. destruct del;
             repeat case_decide; simpl; congruence.
  - rewrite <- Nat2Z.inj_add. f_equal.
    apply length_filter_split. intros k _. rewrite Has, !Hfin. split.
    + split.
      * intros (c & Hc & Hst). destruct (decide (overlapping rf k));
          [right|left]; exists c; (split; [done|]);
          by rewrite decide_True, ?decide_True, ?decide_False.
      * intros [(c & Hc & Hst)|(c & Hc & Hst)]; exists c; (split; [done|]);
          destruct (Hcls _ _ Hc) as [Hn1 Hn2]; revert Hst; unfold stored;
          destruct c as [ne st]; simpl in Hn1, Hn2; simpl; destruct st, del;
          repeat case_decide; simpl; congruence.
    + intros [(c & Hc & Hst) (c' & Hc' & Hst')]. simplify_eq.
      revert Hst'. repeat case_decide; congruence.
Qed.

End Completed.

Lemma counters_bounds_witness :
  (0 ≤ world.corrupted_chunks example_deleting_result
   ∧ 0 ≤ world.wrong_located_chunks example_deleting_result
   ∧ 0 ≤ world.entities_prob example_deleting_result
   ∧ 0 ≤ world.shared_offset example_deleting_result
   ∧ world.corrupted_chunks example_deleting_result
     + world.wrong_located_chunks example_deleting_result
     + world.entities_prob example_deleting_result
     ≤ world.chunk_count example_deleting_result
   ∧ world.chunk_count example_deleting_result ≤ 1024)%Z
  ∧ (true = true → world.entities_prob example_deleting_result = 0%Z).
Proof.
  apply (counters_bounds (names := example_names) (disk_with example_region) 42 no_frames
           example_region 5 true example_proc example_deleting_result
           example_deleting_scan.2).
  - reflexivity.
  - vm_compute. reflexivity.
Defined.

Lemma completed_chunk_map_witness :
  world.chunks example_result !! (0, 1)%Z
  = if decide ((0, 1)%Z ∈ local_coords)
    then final_record (names := example_names) example_region (obj example_proc) 5 false (0, 1)%Z
    else None.
Proof.
  apply (completed_chunk_map (disk_with example_region) 42 no_frames
           example_region 5 false example_proc example_result example_scan.2).
  - reflexivity.
  - reflexivity.
  - vm_compute. reflexivity.
Defined.

Lemma counters_agree_with_map_witness :
  world.chunk_count example_result
  = Z.of_nat (size (world.chunks example_result))
  ∧ world.corrupted_chunks example_result
    = records_with world.CHUNK_CORRUPTED example_result
  ∧ world.entities_prob example_result
    = records_with world.CHUNK_TOO_MANY_ENTITIES example_result
  ∧ world.shared_offset example_result
    = records_with world.CHUNK_SHARED_OFFSET example_result
  ∧ world.wrong_located_chunks example_result
    = (records_with world.CHUNK_WRONG_LOCATED example_result
       + records_with world.CHUNK_SHARED_OFFSET example_result)%Z.
Proof.
  apply (counters_agree_with_map (names := example_names) (disk_with example_region) 42 no_frames
           example_region 5 false example_proc example_result example_scan.2).
  - reflexivity.
  - reflexivity.
  - vm_compute. reflexivity.
Defined.

(** ** What the shared-offset check and the deletions leave behind *)

Lemma fold_filename {names : world.RegionNames} rf r0 el del cs acc :
  world.filename (obj (foldl (slot_pure rf r0 el del) acc cs).2)
  = world.filename (obj acc.2).
Proof.
  revert acc. induction cs as [|k cs IH]; intros acc; [done|].
  simpl. rewrite IH. unfold slot_pure. by destruct (classified _ _ _ _).
Qed.

Lemma fold_stdout {names : world.RegionNames} rf r0 el del cs acc :
  world.filename (obj acc.2) = world.filename r0 →
  stdout (foldl (slot_pure rf r0 el del) acc cs).2
  = stdout acc.2
    ++ (if del
        then omap (λ k, c ← classified rf r0 el k;
                        if decide (c.2 = world.CHUNK_TOO_MANY_ENTITIES)
                        then Some (deleted_line c k (world.filename r0))
                        else None) cs
        else []).
Proof.
  revert acc. induction cs as [|k cs IH]; intros acc Hname; simpl.
  { destruct del; by rewrite app_nil_r. }
  rewrite IH; clear IH.
  2:{ unfold slot_pure. by destruct (classified _ _ _ _). }
  unfold slot_pure.
  destruct (classified rf r0 el k) as [[ne st]|]; simpl; [|done].
  rewrite Hname.
  destruct st, del; simpl; by rewrite <- ?app_assoc, ?app_nil_r.
Qed.

Lemma length_deletion_lines {names : world.RegionNames} rf r el cs :
  length (omap (λ k, c ← classified rf r el k;
                     if decide (c.2 = world.CHUNK_TOO_MANY_ENTITIES)
                     then Some (deleted_line c k (world.filename r))
                     else None) cs)
  = length (filter (classified_as rf r el world.CHUNK_TOO_MANY_ENTITIES) cs).
Proof.
  induction cs as [|k cs IH]; [done|].
  rewrite filter_cons. simpl.
  destruct (decide (classified_as rf r el world.CHUNK_TOO_MANY_ENTITIES k))
    as [Hk|Hk];
    unfold classified_as in Hk;
    destruct (classified rf r el k) as [[ne st]|]; simpl in Hk; simpl;
    try done; try exact IH.
  - injection Hk as ->. simpl. f_equal. exact IH.
  - destruct st; simpl; try exact IH. by destruct Hk.
Qed.

Section Aftermath.

Context {names : world.RegionNames}.
Context (RegionFile : string → Py.Result region.RegionFile) (time : Z)
        (extract_tb : Py.Exception → list Py.FrameSummary).

(** X7: the shared-offset check neither adds nor removes a record and never
    changes an entity count: after a completed scan every slot has a record
    exactly when it had one at the end of the double loop, with the same
    entity count, and its status is the loop's or [CHUNK_SHARED_OFFSET]. *)
Theorem shared_offset_check_keeps_records rf el del p r' p' :
  RegionFile (world.path (obj p)) = Py.Return rf →
  scan_region_file RegionFile time extract_tb el del p
  = (Py.Return (Obj r'), p') →
  ∃ n p1,
    scan_loop rf el del p = (Py.Return n, p1)
    ∧ dom (world.chunks r') = dom (world.chunks (obj p1))
    ∧ ∀ k, fst <$> world.chunks r' !! k = fst <$> world.chunks (obj p1) !! k
           ∧ (snd <$> world.chunks r' !! k = snd <$> world.chunks (obj p1) !! k
              ∨ snd <$> world.chunks r' !! k
                = Some world.CHUNK_SHARED_OFFSET).
Proof.
  intros Hopen Hscan.
  destruct (scan_completed _ _ _ _ _ _ _ _ _ Hopen Hscan)
    as (n & p1 & Hloop & _ & -> & _).
  exists n, p1. split; [done|]. clear Hloop Hscan.
  cbn [world.chunks world.stamp world.set_counters world.set_chunks].
  assert (∀ k, fst <$> reclassify (sharing rf (obj p1))
                         (world.chunks (obj p1)) !! k
               = fst <$> world.chunks (obj p1) !! k
               ∧ (snd <$> reclassify (sharing rf (obj p1))
                            (world.chunks (obj p1)) !! k
                  = snd <$> world.chunks (obj p1) !! k
                  ∨ snd <$> reclassify (sharing rf (obj p1))
                              (world.chunks (obj p1)) !! k
                    = Some world.CHUNK_SHARED_OFFSET)) as Hk.
  { intros k. rewrite reclassify_lookup.
    destruct (world.chunks (obj p1) !! k) as [[ne st]|]; case_decide; simpl;
      auto. }
  split; [|done]. apply set_eq. intros k. rewrite !elem_of_dom.
  destruct (Hk k) as [Hfst _]. rewrite <- !fmap_is_Some with (f := fst).
  by rewrite Hfst.
Qed.

(** X8: what a completed scan prints.  Without deletion it prints nothing;
    with deletion it prints one line for each overflowing slot of the grid,
    in raster order, naming the entity count, the slot and the file, and it
    prints as many lines as it deletes entity lists. *)
Theorem scan_prints_deletions rf el del p r' p' :
  RegionFile (world.path (obj p)) = Py.Return rf →
  scan_region_file RegionFile time extract_tb el del p
  = (Py.Return (Obj r'), p') →
  stdout p' = stdout p ++ (if del then deletion_lines rf (obj p) el else [])
  ∧ length (stdout p') - length (stdout p)
    = length (cleared p') - length (cleared p).
Proof.
  intros Hopen Hscan.
  destruct (scan_completed _ _ _ _ _ _ _ _ _ Hopen Hscan)
    as (n & p1 & Hloop & _ & _ & ->).
  apply scan_loop_fold in Hloop as [Hfold _].
  pose proof (fold_stdout rf (obj p) el del local_coords (zero, p) eq_refl)
    as Hout.
  pose proof (fold_cleared rf (obj p) el del local_coords (zero, p)) as Hcl.
  rewrite <- Hfold in Hout, Hcl. cbn [fst snd] in Hout, Hcl.
  clear Hfold Hscan. cbn [stdout cleared].
  split; [exact Hout|]. rewrite Hout, Hcl, !length_app.
  destruct del; [|simpl; lia]. rewrite length_fmap.
  unfold deletion_lines. rewrite length_deletion_lines. lia.
Qed.

End Aftermath.

Lemma shared_offset_check_keeps_records_witness :
  ∃ n p1,
    scan_loop (names := example_names) example_region 5 false example_proc = (Py.Return n, p1)
    ∧ dom (world.chunks example_result) = dom (world.chunks (obj p1))
    ∧ ∀ k, fst <$> world.chunks example_result !! k
           = fst <$> world.chunks (obj p1) !! k
           ∧ (snd <$> world.chunks example_result !! k
              = snd <$> world.chunks (obj p1) !! k
              ∨ snd <$> world.chunks example_result !! k
                = Some world.CHUNK_SHARED_OFFSET).
Proof.
  apply (shared_offset_check_keeps_records (disk_with example_region) 42
           no_frames example_region 5 false example_proc example_result
           example_scan.2).
  - reflexivity.
  - vm_compute. reflexivity.
Defined.

Lemma scan_prints_deletions_witness :
  stdout example_deleting_scan.2
  = stdout example_proc
    ++ (if true then deletion_lines (names := example_names) example_region (obj example_proc) 5
        else [])
  ∧ length (stdout example_deleting_scan.2) - length (stdout example_proc)
    = length (cleared example_deleting_scan.2) - length (cleared example_proc).
Proof.
  apply (scan_prints_deletions (disk_with example_region) 42 no_frames
           example_region 5 true example_proc example_deleting_result).
  - reflexivity.
  - vm_compute. reflexivity.
Defined.

(** * More of the scan session *)

Lemma results_step_regionset pc self pc' self' out :
  results_step pc self = (pc', self', out) →
  _regionset self' = from_option (store_got (_regionset self))
                                 (_regionset self) out.
Proof.
  destruct pc; simpl; repeat case_match; by intros [= <- <- <-].
Qed.

(** X9: the generator hands out the queued values first in, first out, and
    loses or repeats none: along every run of workers, pool and generator,
    what was in the queue at the start followed by what the workers put is
    what the generator got followed by what is still queued. *)
Theorem results_first_in_first_out c0 t c :
  session_run c0 t c →
  queue c0.2 ++ puts t = gots t ++ queue c.2
  ∧ gots t `prefix_of` queue c0.2 ++ puts t.
Proof.
  intros Hrun. pose proof (session_run_history _ _ _ Hrun) as Hh.
  split; [done|]. rewrite Hh. by eexists.
Qed.

(** X10: only the generator writes the regionset.  Along every run the
    regionset is the one of the start with every result the generator got
    stored under its coordinates, in the order got, a later result for the
    same coordinates replacing an earlier one; puts and faults do not touch
    it. *)
Theorem regionset_single_writer c0 t c :
  session_run c0 t c →
  _regionset c.2 = foldl store_got (_regionset c0.2) (gots t).
Proof.
  induction 1 as [c|c1 t1 c2 t2 c3 Hrun IH Hstep]; [done|].
  rewrite gots_app, foldl_app, <- IH.
  destruct Hstep as [pc self v|pc self|pc self pc' self' out Hstep]; simpl;
    [done..|].
  apply results_step_regionset in Hstep. by destruct out.
Qed.

Lemma results_first_in_first_out_witness :
  queue example_session ++ puts [Put (Obj example_result);
                                 Got (Obj example_result)]
  = gots [Put (Obj example_result); Got (Obj example_result)]
    ++ queue (results_steps 3 AtWhile
                (put (Obj example_result) example_session)).1.2
  ∧ gots [Put (Obj example_result); Got (Obj example_result)]
    `prefix_of` queue example_session
                ++ puts [Put (Obj example_result); Got (Obj example_result)].
Proof.
  apply (results_first_in_first_out (AtWhile, example_session)
           [Put (Obj example_result); Got (Obj example_result)]
           (results_steps 3 AtWhile
              (put (Obj example_result) example_session)).1).
  eapply (run_front _ [Put _] _ [_]); [apply step_put|].
  eapply (run_front_results _ _ _ _ None); [reflexivity|].
  eapply (run_front_results _ _ _ _ None); [reflexivity|].
  eapply (run_front_results _ _ _ _ (Some _) []); [reflexivity|].
  apply run_refl.
Defined.

Lemma regionset_single_writer_witness :
  _regionset (results_steps 3 AtWhile
                (put (Obj example_result) example_session)).1.2
  = foldl store_got (_regionset example_session)
          (gots [Put (Obj example_result); Got (Obj example_result)]).
Proof.
  apply (regionset_single_writer (AtWhile, example_session)
           [Put (Obj example_result); Got (Obj example_result)]
           (results_steps 3 AtWhile
              (put (Obj example_result) example_session)).1).
  eapply (run_front _ [Put _] _ [_]); [apply step_put|].
  eapply (run_front_results _ _ _ _ None); [reflexivity|].
  eapply (run_front_results _ _ _ _ None); [reflexivity|].
  eapply (run_front_results _ _ _ _ (Some _) []); [reflexivity|].
  apply run_refl.
Defined.

(** X11: taking one item through the generator and through
    [get_last_result] act alike on the queue and on the regionset and hand
    out the same thing; they differ in that the generator leaves
    [_str_last_scanned] alone. *)
Theorem results_agrees_with_get_last_result self :
  match results_step AtIf self, get_last_result self with
  | (pc', s1, out), (o, s2) =>
      _regionset s1 = _regionset s2 ∧ queue s1 = queue s2
      ∧ _results_ready s1 = _results_ready s2
      ∧ _str_last_scanned s1 = _str_last_scanned self
      ∧ match o with
        | Value None => out = None ∧ pc' = AtWhile ∧ queue self = []
        | Value (Some r) => out = Some (Obj r) ∧ pc' = AtWhile
        | Raised e =>
            pc' = Failed e
            ∧ out = Some (Tuple (scanned_file e)
                                (exc_type e, exc_class e, tb_text e))
        end
  end.
Proof.
  unfold get_last_result. simpl.
  destruct (queue self) as [|[r|r0 [[ty ex] tb]] q'] eqn:Hq; simpl;
    rewrite ?Hq; done.
Qed.

Lemma append_empty s1 s2 : s1 +:+ s2 = "" → s1 = "" ∧ s2 = "".
Proof. by destruct s1. Qed.

(** X12: [str_last_scanned] is never the empty string.  It reads
    ["Scanning..."] from the start of a scan until [get_last_result] returns
    a result; after that it is the regionset's name, a colon and the name of
    the file last returned; a fault and an empty queue leave it as it
    was. *)
Theorem str_last_scanned_follows_results self :
  str_last_scanned self ≠ ""
  ∧ (∀ rs, str_last_scanned
             (AsyncRegionsetScanner_scan (AsyncRegionsetScanner_init rs))
           = "Scanning...")
  ∧ match get_last_result self with
    | (Value (Some r), self') =>
        str_last_scanned self'
        = get_name (_regionset self) +:+ ": " +:+ world.filename r
    | (_, self') => str_last_scanned self' = str_last_scanned self
    end.
Proof.
  split; [|split; [done|]].
  - unfold str_last_scanned. destruct (_str_last_scanned self) as [s|]; [|done].
    by case_decide.
  - unfold get_last_result.
    destruct (queue self) as [|[r|r0 info] q']; simpl; try done.
    unfold str_last_scanned. simpl. rewrite decide_False; [done|].
    intros [H1 H2]%append_empty.
    first [ by apply append_empty in H1 as [_ [=]]
          | by apply append_empty in H2 as [[=] _] ].
Qed.

(** X13: the batch size [scan] gives [map_async] for a pool of at least one
    process: it is at least 1 and at most the number of regions (or 1); it
    is 1 when there are fewer regions than processes; and when there are at
    least as many regions as processes, [processes] batches of that size fit
    in the regions, so no process is left without a batch. *)
Theorem map_async_chunksize_bounds total_regions processes :
  (1 ≤ processes)%Z → (0 ≤ total_regions)%Z →
  (1 ≤ map_async_chunksize total_regions processes
   ∧ map_async_chunksize total_regions processes ≤ Z.max 1 total_regions
   ∧ (total_regions < processes →
      map_async_chunksize total_regions processes = 1)
   ∧ (processes ≤ total_regions →
      processes * map_async_chunksize total_regions processes
      ≤ total_regions))%Z.
Proof.
  intros Hp Ht. unfold map_async_chunksize.
  pose proof (Z.div_pos total_regions processes Ht ltac:(lia)) as Hd0.
  pose proof (Z.mul_div_le total_regions processes ltac:(lia)) as Hmul.
  assert (total_regions `div` processes ≤ total_regions)%Z as Hle.
  { apply Z.div_le_upper_bound; [lia|]. nia. }
  assert (total_regions < processes → total_regions `div` processes = 0)%Z
    as Hsmall by (intros; apply Z.div_small; lia).
  assert (processes ≤ total_regions → 1 ≤ total_regions `div` processes)%Z
    as Hbig by (intros; apply Z.div_le_lower_bound; lia).
  split; [lia|]. split; [lia|]. split; lia.
Qed.

Lemma map_async_chunksize_bounds_witness :
  (1 ≤ map_async_chunksize 10 4 ∧ map_async_chunksize 10 4 ≤ Z.max 1 10
   ∧ (10 < 4 → map_async_chunksize 10 4 = 1)
   ∧ (4 ≤ 10 → 4 * map_async_chunksize 10 4 ≤ 10))%Z.
Proof. apply (map_async_chunksize_bounds 10 4); lia. Defined.

(** ** The generator left alone with a queue *)

Lemma results_steps_obj n self r q' :
  queue self = Obj r :: q' →
  results_steps (3 + n) AtWhile self
  = let self1 :=
      {| _regionset := RegionSet_setitem (world.coords r) r (_regionset self);
         queue := q'; _results_ready := _results_ready self;
         _str_last_scanned := _str_last_scanned self |} in
    let '(pc2, self2, outs) := results_steps n AtWhile self1 in
    (pc2, self2, Obj r :: outs).
Proof.
  intros Hq. change (3 + n)%nat with (S (S (S n))).
  cbn [results_steps results_step]. rewrite Hq. cbn. rewrite Hq.
  by destruct (results_steps n AtWhile _) as [[??]?].
Qed.

(** X14: when the pool is done and the queue holds results only, the
    generator, left alone, yields every queued result, oldest first, stores
    each in the regionset, and is then exhausted with an empty queue: three
    steps for each result and three to leave the loop. *)
Theorem results_drains_queue self rs :
  queue self = Obj <$> rs →
  _results_ready self = true →
  results_steps (3 * length rs + 3) AtWhile self
  = (Exhausted,
     {| _regionset := foldl store_got (_regionset self) (Obj <$> rs);
        queue := []; _results_ready := true;
        _str_last_scanned := _str_last_scanned self |},
     Obj <$> rs).
Proof.
  revert self. induction rs as [|r rs IH]; intros self Hq Hready.
  - destruct self as [rs0 q0 ready0 str0]. simpl in Hq, Hready. by subst.
  - replace (3 * length (r :: rs) + 3)%nat with (3 + (3 * length rs + 3))%nat
      by (simpl; lia).
    rewrite (results_steps_obj _ self r (Obj <$> rs)) by done.
    cbv zeta. rewrite IH by done. done.
Qed.

Lemma results_drains_queue_witness :
  results_steps 9 AtWhile example_drained_session
  = (Exhausted,
     {| _regionset :=
          foldl store_got (_regionset example_drained_session)
                (Obj <$> [example_result; example_deleting_result]);
        queue := []; _results_ready := true;
        _str_last_scanned := _str_last_scanned example_drained_session |},
     Obj <$> [example_result; example_deleting_result]).
Proof.
  apply (results_drains_queue example_drained_session
           [example_result; example_deleting_result]); reflexivity.
Defined.

Lemma results_steps_failed n e self :
  results_steps n (Failed e) self = (Failed e, self, []).
Proof. induction n as [|n IH]; [done|]. cbn. by rewrite IH. Qed.

(** X15: a fault in the queue ends the generator.  Left alone, it yields
    the results queued before the fault, takes the fault off the queue and
    fails with its [ChildProcessException]; whatever was queued behind the
    fault stays in the queue and is never yielded, however long the
    generator is run, and whether or not the pool is done. *)
Theorem results_stops_at_fault self rs r0 r1 rest n :
  queue self = (Obj <$> rs) ++ Tuple r0 r1 :: rest →
  results_steps (3 * length rs + 3 + n) AtWhile self
  = (Failed (child_process_exception r0 r1),
     {| _regionset := foldl store_got (_regionset self) (Obj <$> rs);
        queue := rest; _results_ready := _results_ready self;
        _str_last_scanned := _str_last_scanned self |},
     (Obj <$> rs) ++ [Tuple r0 r1]).
Proof.
  revert self. induction rs as [|r rs IH]; intros self Hq.
  - change (3 * length [] + 3 + n)%nat with (S (S (S n))).
    cbn [results_steps results_step fmap list_fmap app] in *.
    rewrite Hq. cbn. rewrite Hq. rewrite results_steps_failed. done.
  - replace (3 * length (r :: rs) + 3 + n)%nat
      with (3 + (3 * length rs + 3 + n))%nat by (simpl; lia).
    rewrite (results_steps_obj _ self r ((Obj <$> rs) ++ Tuple r0 r1 :: rest))
      by done.
    cbv zeta. rewrite IH by done. done.
Qed.

Lemma results_stops_at_fault_witness :
  results_steps (3 * 1 + 3 + 20) AtWhile example_faulty_session
  = (Failed (child_process_exception example_result
               (Py.KeyError, example_key_error, [])),
     {| _regionset :=
          foldl store_got (_regionset example_faulty_session)
                (Obj <$> [example_result]);
        queue := [Obj example_deleting_result];
        _results_ready := _results_ready example_faulty_session;
        _str_last_scanned := _str_last_scanned example_faulty_session |},
     (Obj <$> [example_result])
     ++ [Tuple example_result (Py.KeyError, example_key_error, [])]).
Proof.
  apply (results_stops_at_fault example_faulty_session [example_result]
           example_result (Py.KeyError, example_key_error, [])
           [Obj example_deleting_result] 20).
  reflexivity.
Defined.

(** ** A session consumed by [get_last_result] *)

(** X16: [str_last_scanned] names the result returned last.  Along
    everything that can happen to a session consumed by [get_last_result],
    from [scan] on, the regionset keeps its name, and [str_last_scanned]
    reads ["Scanning..."] as long as no result has been returned, and after
    that the regionset's name, a colon and the file name of the result that
    [get_last_result] returned last. *)
Theorem str_last_scanned_names_own_regionset rs rets self :
  pull_run (AsyncRegionsetScanner_scan (AsyncRegionsetScanner_init rs))
           rets self →
  get_name (_regionset self) = get_name rs
  ∧ str_last_scanned self
    = match last rets with
      | None => "Scanning..."
      | Some r => get_name rs +:+ ": " +:+ world.filename r
      end.
Proof.
  intros Hrun.
  remember (AsyncRegionsetScanner_scan (AsyncRegionsetScanner_init rs))
    as s0 eqn:Hs0.
  induction Hrun as [self|s1 rs1 s2 rs2 s3 _ IH Hstep].
  - by subst.
  - destruct (IH Hs0) as [Hname Hstr]. clear IH.
    destruct Hstep as [s v|s|s]; rewrite ?app_nil_r; [done..|].
    unfold get_last_result.
    destruct (queue s) as [|[r|r0 info] q']; simpl; rewrite ?app_nil_r;
      try done.
    split; [done|]. rewrite last_snoc. unfold str_last_scanned. simpl.
    rewrite Hname. apply decide_False.
    intros [H1 H2]%append_empty.
    first [ by apply append_empty in H1 as [_ [=]]
          | by apply append_empty in H2 as [[=] _] ].
Qed.

Lemma str_last_scanned_names_own_regionset_witness :
  get_name
    (_regionset
       (get_last_result
          (put (Obj example_deleting_result)
             (get_last_result
                (put (Obj example_result)
                   (AsyncRegionsetScanner_scan
                      (AsyncRegionsetScanner_init example_nether)))).2)).2)
  = get_name example_nether
  ∧ str_last_scanned
      (get_last_result
         (put (Obj example_deleting_result)
            (get_last_result
               (put (Obj example_result)
                  (AsyncRegionsetScanner_scan
                     (AsyncRegionsetScanner_init example_nether)))).2)).2
    = match last [example_result; example_deleting_result] with
      | None => "Scanning..."
      | Some r => get_name example_nether +:+ ": " +:+ world.filename r
      end.
Proof.
  apply (str_last_scanned_names_own_regionset example_nether
           [example_result; example_deleting_result]).
  exact (pull_then _ _ _ _ _
           (pull_then _ _ _ _ _
              (pull_then _ _ _ _ _
                 (pull_then _ _ _ _ _ (pull_refl _)
                    (pull_put _ (Obj example_result)))
                 (pull_get _))
              (pull_put _ (Obj example_deleting_result)))
           (pull_get _)).
Defined.

(** * Data files *)

Section ScanDataProperties.

Variable NBTFile_filename : string → Py.Result nbt.NBTFile.
Variable open : string → Py.Result data.file.
Variable NBTFile_buffer : data.file → Py.Result nbt.NBTFile.
Variable extract_tb : Py.Exception → list Py.FrameSummary.

Local Abbreviation scan_data_try :=
  (data.scan_data_try NBTFile_filename open NBTFile_buffer).
Local Abbreviation scan_data :=
  (data.scan_data NBTFile_filename open NBTFile_buffer extract_tb).
Local Abbreviation multiprocess_scan_data :=
  (data.multiprocess_scan_data NBTFile_filename open NBTFile_buffer extract_tb).

(** X17: what [scan_data] returns.  It never raises.  It returns the
    object, with its path and file name as they were, readable exactly when
    the decoder returned, and then with the status text it had before; not
    readable when the decoder raised [MalformedFileError] or [IOError], and
    then with that exception's message as status text.  Or it returns a
    fault tuple: the decoder raised something else, and the tuple holds the
    object marked not readable, its status text untouched, with the
    exception's type, the exception and its traceback. *)
Theorem scan_data_outcomes s :
  match scan_data s with
  | data.Obj s' =>
      data.path s' = data.path s ∧ data.filename s' = data.filename s
      ∧ if data.readable s'
        then (∃ t, scan_data_try s = Py.Return t)
             ∧ data.status_text s' = data.status_text s
        else ∃ e, scan_data_try s = Py.Raise e
                  ∧ (Py.exc_type e = data.MalformedFileError
                     ∨ Py.exc_type e = Py.IOError)
                  ∧ data.status_text s' = Some (Py.msg e)
  | data.Tuple s' info =>
      s' = data.set_readable false s
      ∧ ∃ e, scan_data_try s = Py.Raise e
             ∧ info = (Py.exc_type e, e, extract_tb e)
             ∧ Py.exc_type e ≠ data.MalformedFileError
             ∧ Py.exc_type e ≠ Py.IOError
  end.
Proof.
  unfold data.scan_data.
  destruct (scan_data_try s) as [t|e] eqn:Htry.
  - simpl. eauto.
  - repeat case_decide; simpl; eauto 10.
Qed.

(** X18: a [KeyboardInterrupt] in a data worker is marshalled like any
    other fault: the bare [except] of [scan_data] catches it, and the worker
    puts the fault tuple on the queue, behind what is queued, and returns.
    (The worker of a region file leaves through [sys.exit] instead and puts
    nothing.) *)
Theorem data_interrupt_is_marshalled q s e :
  scan_data_try s = Py.Raise e →
  Py.exc_type e = Py.KeyboardInterrupt →
  multiprocess_scan_data q s
  = q ++ [data.Tuple (data.set_readable false s)
                     (Py.KeyboardInterrupt, e, extract_tb e)].
Proof.
  intros Htry Hty. unfold data.multiprocess_scan_data, data.scan_data.
  rewrite Htry. rewrite !decide_False by (rewrite Hty; discriminate).
  by rewrite Hty.
Qed.

(** X19: the reader is chosen by the file name alone.  For [idcounts.dat]
    the gunzipping reader is never consulted, and a file that cannot be
    opened gives an object that is not readable, with the error's message;
    for every other name neither [open] nor the buffer reader is
    consulted. *)
Theorem scan_data_reader_choice s :
  (data.filename s = "idcounts.dat" →
   (∀ N', data.scan_data N' open NBTFile_buffer extract_tb s = scan_data s)
   ∧ (∀ e, open (data.path s) = Py.Raise e → Py.exc_type e = Py.IOError →
           scan_data s
           = data.Obj (data.set_status_text (Py.msg e)
                         (data.set_readable false s))))
  ∧ (data.filename s ≠ "idcounts.dat" →
     ∀ open' NBTFile_buffer',
       data.scan_data NBTFile_filename open' NBTFile_buffer' extract_tb s
       = scan_data s).
Proof.
  unfold data.scan_data, data.scan_data_try. split.
  - intros Hname. split; [intros N'; by rewrite !decide_True|].
    rewrite decide_True by done.
    intros e Hopen Hty. rewrite Hopen. simpl.
    rewrite decide_False by (rewrite Hty; discriminate).
    by rewrite decide_True.
  - intros Hname open' NB'. rewrite !(decide_False (P := data.filename s = _)) by done.
    done.
Qed.

End ScanDataProperties.

Lemma data_interrupt_is_marshalled_witness :
  data.multiprocess_scan_data (λ _, Py.Raise example_interrupt)
    example_open example_NBTFile_buffer (λ _, []) [] example_level_dat
  = [] ++ [data.Tuple (data.set_readable false example_level_dat)
             (Py.KeyboardInterrupt, example_interrupt, [])].
Proof.
  apply (data_interrupt_is_marshalled (λ _, Py.Raise example_interrupt)
           example_open example_NBTFile_buffer (λ _, []) []
           example_level_dat example_interrupt); reflexivity.
Defined.

(** X20: a status text outlives the error it reports.  When a scan of a
    data file ends in [MalformedFileError] or [IOError], and the object it
    returned is scanned again and this time decodes, the object comes back
    readable and still carrying the message of the earlier error: the
    success path sets [readable] and nothing else. *)
Theorem status_text_outlives_error N1 o1 b1 N2 o2 b2 tb s e t :
  data.scan_data_try N1 o1 b1 s = Py.Raise e →
  Py.exc_type e = data.MalformedFileError ∨ Py.exc_type e = Py.IOError →
  data.scan_data_try N2 o2 b2 s = Py.Return t →
  ∃ s1 s2,
    data.scan_data N1 o1 b1 tb s = data.Obj s1
    ∧ data.scan_data N2 o2 b2 tb s1 = data.Obj s2
    ∧ data.readable s1 = false
    ∧ data.readable s2 = true
    ∧ data.status_text s2 = Some (Py.msg e).
Proof.
  intros Hfail Hty Hok.
  exists (data.set_status_text (Py.msg e) (data.set_readable false s)).
  eexists. split; [|split; [|split; [|split]]].
  - unfold data.scan_data. rewrite Hfail.
    destruct Hty as [Hty|Hty]; [by rewrite decide_True|].
    case_decide; [done|by rewrite decide_True].
  - unfold data.scan_data.
    assert (data.scan_data_try N2 o2 b2
              (data.set_status_text (Py.msg e) (data.set_readable false s))
            = Py.Return t) as Hagain by exact Hok.
    by rewrite Hagain.
  - done.
  - done.
  - done.
Qed.

Lemma status_text_outlives_error_witness :
  ∃ s1 s2,
    data.scan_data example_NBTFile_filename example_open
      example_NBTFile_buffer (λ _, []) example_missing_dat = data.Obj s1
    ∧ data.scan_data (λ _, Py.Return example_nbt) example_open
        example_NBTFile_buffer (λ _, []) s1 = data.Obj s2
    ∧ data.readable s1 = false
    ∧ data.readable s2 = true
    ∧ data.status_text s2 = Some (Py.msg example_no_such_file).
Proof.
  apply (status_text_outlives_error example_NBTFile_filename example_open
           example_NBTFile_buffer (λ _, Py.Return example_nbt) example_open
           example_NBTFile_buffer (λ _, []) example_missing_dat
           example_no_such_file example_nbt).
  - reflexivity.
  - right. reflexivity.
  - reflexivity.
Defined.

(** X21: the data scanner never names a file.  From [scan] on, whatever
    the workers put and whatever [get_last_result] returns or raises,
    [str_last_scanned] reads ["Scanning..."]: [get_last_result] stores the
    result in the dictionary and leaves [_str_last_scanned] as [scan] set
    it. *)
Theorem data_str_last_scanned_constant d self :
  rtc data.step (data.scan (data.init d)) self →
  data.str_last_scanned self = "Scanning...".
Proof.
  revert self.
  apply (rtc_ind_r (R := data.step)
           (λ s, data.str_last_scanned s = "Scanning...")); [done|].
  intros s1 s2 _ Hstep Hstr. destruct Hstep as [s v|s|s]; [done..|].
  unfold data.get_last_result.
  by destruct (data.queue s) as [|[p|p0 p1] q'].
Qed.

Lemma data_str_last_scanned_constant_witness :
  data.str_last_scanned
    (data.get_last_result
       {| data._data_dict := ∅;
          data.queue := [data.Obj example_level_dat];
          data._results_ready := false;
          data._str_last_scanned := Some "" |}).2
  = "Scanning...".
Proof.
  apply (data_str_last_scanned_constant ∅).
  eapply rtc_l; [apply (data.step_put _ (data.Obj example_level_dat))|].
  apply rtc_once. apply data.step_get.
Defined.

(** * The world scanner *)

(** X22: what [AsyncWorldScanner.get_last_result] does once a session is
    current.  While the session is not finished it is that session's
    [get_last_result]: the same result or the same exception, the session
    left as that call leaves it, the list of regionsets untouched, and the
    world's [_str_last_scanned] refreshed unless the call raised.  Once the
    session is finished (its pool done and its queue empty, so that nothing
    queued is lost) the call returns [None]; it starts the next regionset
    of the list if there is one and changes nothing otherwise. *)
Theorem world_get_last_result_cases self cr :
  AsyncWorldScanner._current_regionset self = Some cr →
  match AsyncWorldScanner.get_last_result self with
  | (o, self') =>
      if finished cr then
        o = Value None ∧ queue cr = [] ∧ _results_ready cr = true
        ∧ match AsyncWorldScanner.regionsets self with
          | [] => self' = self
          | rs :: rest => self' = AsyncWorldScanner.start rs rest
          end
      else
        o = (get_last_result cr).1
        ∧ AsyncWorldScanner.regionsets self'
          = AsyncWorldScanner.regionsets self
        ∧ AsyncWorldScanner._current_regionset self'
          = Some (get_last_result cr).2
        ∧ AsyncWorldScanner._str_last_scanned self'
          = match o with
            | Value _ => Some (str_last_scanned (get_last_result cr).2)
            | Raised _ => AsyncWorldScanner._str_last_scanned self
            end
  end.
Proof.
  intros Hcr. unfold AsyncWorldScanner.get_last_result. rewrite Hcr.
  destruct (finished cr) eqn:Hfin; simpl.
  - unfold finished in Hfin. apply andb_prop in Hfin as [Hready Hempty].
    assert (queue cr = []) as Hq by (by destruct (queue cr)).
    unfold AsyncWorldScanner.scan.
    destruct (AsyncWorldScanner.regionsets self) as [|rs rest]; simpl; done.
  - by destruct (get_last_result cr) as [[r|e] cr'].
Qed.

Lemma world_get_last_result_cases_witness :
  match AsyncWorldScanner.get_last_result
          {| AsyncWorldScanner.regionsets := [example_nether];
             AsyncWorldScanner._current_regionset :=
               Some example_drained_session;
             AsyncWorldScanner._str_last_scanned := Some "" |} with
  | (o, self') =>
      if finished example_drained_session then
        o = Value None ∧ queue example_drained_session = []
        ∧ _results_ready example_drained_session = true
        ∧ match AsyncWorldScanner.regionsets
                  {| AsyncWorldScanner.regionsets := [example_nether];
                     AsyncWorldScanner._current_regionset :=
                       Some example_drained_session;
                     AsyncWorldScanner._str_last_scanned := Some "" |} with
          | [] => self'
                  = {| AsyncWorldScanner.regionsets := [example_nether];
                       AsyncWorldScanner._current_regionset :=
                         Some example_drained_session;
                       AsyncWorldScanner._str_last_scanned := Some "" |}
          | rs :: rest => self' = AsyncWorldScanner.start rs rest
          end
      else
        o = (get_last_result example_drained_session).1
        ∧ AsyncWorldScanner.regionsets self' = [example_nether]
        ∧ AsyncWorldScanner._current_regionset self'
          = Some (get_last_result example_drained_session).2
        ∧ AsyncWorldScanner._str_last_scanned self'
          = match o with
            | Value _ =>
                Some (str_last_scanned
                        (get_last_result example_drained_session).2)
            | Raised _ => Some ""
            end
  end.
Proof.
  apply (world_get_last_result_cases
           {| AsyncWorldScanner.regionsets := [example_nether];
              AsyncWorldScanner._current_regionset :=
                Some example_drained_session;
              AsyncWorldScanner._str_last_scanned := Some "" |}
           example_drained_session).
  reflexivity.
Defined.

(** X23: what [AsyncWorldScanner.finished] answers.  It is [True] only
    when no regionset is left and the current session has its pool done
    and its queue empty; it raises [AttributeError] exactly when no
    regionset is left and no session was ever started, which is the case of
    a world without regionsets, whose [scan] raises [IndexError]. *)
Theorem world_finished_cases self :
  match AsyncWorldScanner.finished self with
  | Py.Return true =>
      AsyncWorldScanner.regionsets self = []
      ∧ ∃ cr, AsyncWorldScanner._current_regionset self = Some cr
              ∧ queue cr = [] ∧ _results_ready cr = true
  | Py.Return false =>
      AsyncWorldScanner.regionsets self ≠ []
      ∨ ∃ cr, AsyncWorldScanner._current_regionset self = Some cr
              ∧ (queue cr ≠ [] ∨ _results_ready cr = false)
  | Py.Raise e =>
      e = AsyncWorldScanner.AttributeError
      ∧ AsyncWorldScanner.regionsets self = []
      ∧ AsyncWorldScanner._current_regionset self = None
      ∧ (self = AsyncWorldScanner.init [] →
         AsyncWorldScanner.scan self = Py.Raise AsyncWorldScanner.IndexError)
  end.
Proof.
  unfold AsyncWorldScanner.finished.
  destruct (AsyncWorldScanner.regionsets self) as [|rs rest] eqn:Hrs;
    [|by left].
  destruct (AsyncWorldScanner._current_regionset self) as [cr|] eqn:Hcr.
  - unfold finished.
    destruct (_results_ready cr) eqn:Hready, (queue cr) as [|v q'] eqn:Hq;
      simpl.
    + split; [done|]. by exists cr.
    + right. exists cr. split; [done|]. left. by rewrite Hq.
    + right. exists cr. split; [done|]. by right.
    + right. exists cr. split; [done|]. by right.
  - split; [done|]. split; [done|]. split; [done|]. by intros ->.
Qed.

Lemma regionset_after_get cr :
  _regionset (get_last_result cr).2
  = foldl store_got (_regionset cr) (Obj <$> returned (get_last_result cr).1).
Proof.
  unfold get_last_result. by destruct (queue cr) as [|[r|r0 r1] q'].
Qed.

Lemma since_start_snoc t e :
  AsyncWorldScanner.since_start (t ++ [e])
  = match e with
    | AsyncWorldScanner.Started _ => []
    | AsyncWorldScanner.Returned r => AsyncWorldScanner.since_start t ++ [r]
    end.
Proof. unfold AsyncWorldScanner.since_start. by rewrite foldl_app. Qed.

(** X24: the world scanner takes the regionsets in the order of the list
    and skips none, and each session works on its own regionset.  After the
    first [scan], whatever the workers put and however often
    [get_last_result] is called: the regionset the first [scan] popped, the
    regionsets started since, in the order started, and the regionsets still
    to scan make up the list the scanner was made with; and the regionset of
    the current session is the regionset started last, with the results
    returned since that start stored in it, in the order returned. *)
Theorem world_scans_in_order l s0 t self :
  AsyncWorldScanner.scan (AsyncWorldScanner.init l) = Py.Return s0 →
  AsyncWorldScanner.run s0 t self →
  ∃ rs0 cr,
    l = rs0 :: AsyncWorldScanner.started t
            ++ AsyncWorldScanner.regionsets self
    ∧ AsyncWorldScanner._current_regionset self = Some cr
    ∧ _regionset cr
      = foldl store_got
              (default rs0 (last (AsyncWorldScanner.started t)))
              (Obj <$> AsyncWorldScanner.since_start t).
Proof.
  intros Hscan Hrun.
  induction Hrun as [s|s1 t1 s2 t2 s3 _ IH Hstep].
  - unfold AsyncWorldScanner.scan in Hscan. simpl in Hscan.
    destruct l as [|rs rest]; [done|]. injection Hscan as <-.
    by exists rs, (AsyncRegionsetScanner_scan (AsyncRegionsetScanner_init rs)).
  - destruct (IH Hscan) as (rs0 & cr & Hl & Hcr & Hrs). clear IH.
    destruct Hstep as [s v|s|s].
    + rewrite app_nil_r. exists rs0, (put v cr).
      unfold AsyncWorldScanner.on_session. simpl. by rewrite Hcr.
    + rewrite app_nil_r. exists rs0, (set_ready cr).
      unfold AsyncWorldScanner.on_session. simpl. by rewrite Hcr.
    + unfold AsyncWorldScanner.shown, AsyncWorldScanner.get_last_result.
      rewrite Hcr. destruct (finished cr); simpl.
      * unfold AsyncWorldScanner.scan.
        destruct (AsyncWorldScanner.regionsets s) as [|rs' rest] eqn:Hrest;
          simpl.
        -- rewrite app_nil_r. exists rs0, cr. by rewrite Hrest.
        -- exists rs0,
             (AsyncRegionsetScanner_scan (AsyncRegionsetScanner_init rs')).
           unfold AsyncWorldScanner.started in *.
           rewrite omap_app, since_start_snoc. simpl.
           rewrite last_snoc, <- app_assoc. by simpl.
      * pose proof (regionset_after_get cr) as Hget.
        destruct (get_last_result cr) as [[[r|]|e] cr'] eqn:Hres;
          simpl in Hget |- *.
        -- exists rs0, cr'. unfold AsyncWorldScanner.started.
           rewrite omap_app. simpl. rewrite app_nil_r.
           fold (AsyncWorldScanner.started t1).
           split; [done|]. split; [done|].
           rewrite since_start_snoc, fmap_app, foldl_app. simpl.
           by rewrite <- Hrs.
        -- rewrite app_nil_r. exists rs0, cr'. by rewrite Hget.
        -- rewrite app_nil_r. exists rs0, cr'. by rewrite Hget.
Qed.

Lemma world_scans_in_order_witness :
  ∃ rs0 cr,
    example_world
    = rs0 :: AsyncWorldScanner.started
               [AsyncWorldScanner.Returned example_result;
                AsyncWorldScanner.Started example_nether;
                AsyncWorldScanner.Returned example_deleting_result]
            ++ AsyncWorldScanner.regionsets example_walk
    ∧ AsyncWorldScanner._current_regionset example_walk = Some cr
    ∧ _regionset cr
      = foldl store_got
              (default rs0
                 (last (AsyncWorldScanner.started
                          [AsyncWorldScanner.Returned example_result;
                           AsyncWorldScanner.Started example_nether;
                           AsyncWorldScanner.Returned
                             example_deleting_result])))
              (Obj <$> AsyncWorldScanner.since_start
                         [AsyncWorldScanner.Returned example_result;
                          AsyncWorldScanner.Started example_nether;
                          AsyncWorldScanner.Returned
                            example_deleting_result]).
Proof.
  apply (world_scans_in_order example_world
           (AsyncWorldScanner.start (_regionset example_session)
              [example_nether])).
  - reflexivity.
  - exact (AsyncWorldScanner.run_then _ _ _ _ _
             (AsyncWorldScanner.run_then _ _ _ _ _
                (AsyncWorldScanner.run_then _ _ _ _ _
                   (AsyncWorldScanner.run_then _ _ _ _ _
                      (AsyncWorldScanner.run_then _ _ _ _ _
                         (AsyncWorldScanner.run_then _ _ _ _ _
                            (AsyncWorldScanner.run_refl _)
                            (AsyncWorldScanner.step_put _
                               (Obj example_result)))
                         (AsyncWorldScanner.step_get _))
                      (AsyncWorldScanner.step_ready _))
                   (AsyncWorldScanner.step_get _))
                (AsyncWorldScanner.step_put _ (Obj example_deleting_result)))
             (AsyncWorldScanner.step_get _)).
Defined.
